(** * ACE-open: the PATENTMATCH environment, its metrics and the playbook ids

    A shallow embedding of [ace/patent.py] and [ace/metrics.py].

    - Python [str] values are modelled by [string], read as UTF-8;
      whitespace and case mapping are those of Unicode, as [str.strip]
      and [str.upper] have them.
    - Python [float] values are IEEE binary64 numbers: the primitive
      [float] type with its correctly rounded operations.
    - Objects that the program shares by reference (samples and their
      metadata dictionaries) live in a store; methods are computations in
      a state and exception monad over that store and the environment.
    - A raised exception is a value [Raise e]; the store and the
      environment reached when it was raised are kept. *)

From Stdlib Require Import ZArith NArith Floats String Ascii List Bool Lia.
From stdpp Require Import gmap strings list fin_maps.
Import ListNotations.

#[local] Set Warnings "-inexact-float".
Local Open Scope string_scope.

(** ** Strings

    A [string] is the UTF-8 encoding of a Python [str], which is a
    sequence of Unicode code points: a literal of this file is the
    encoding of the literal of the program, equality and concatenation
    of encodings are those of the sequences, and the order of the bytes
    is the order of the code points.  [strip] and [upper] act on the
    code points. *)

Module Str.

(** [Py_UNICODE_ISSPACE]: the code points that [str.isspace] accepts and
    that [str.strip] removes. *)
Definition is_space (c : N) : bool :=
  ((0x09 <=? c) && (c <=? 0x0D) || (0x1C <=? c) && (c <=? 0x20)
   || (c =? 0x85) || (c =? 0xA0) || (c =? 0x1680)
   || (0x2000 <=? c) && (c <=? 0x200A)
   || (c =? 0x2028) || (c =? 0x2029) || (c =? 0x202F) || (c =? 0x205F)
   || (c =? 0x3000))%N.

(** The code points that [str.upper] changes, each with the code points
    that replace it: the simple uppercase mappings and the unconditional
    special ones (one code point can become two or three) of Unicode
    14.0.0, the character database of CPython 3.11. *)
Definition upper_table : list (N * list N) :=
  [
   (0x61, [0x41]); (0x62, [0x42]); (0x63, [0x43]); (0x64, [0x44]);
   (0x65, [0x45]); (0x66, [0x46]); (0x67, [0x47]); (0x68, [0x48]);
   (0x69, [0x49]); (0x6A, [0x4A]); (0x6B, [0x4B]); (0x6C, [0x4C]);
   (0x6D, [0x4D]); (0x6E, [0x4E]); (0x6F, [0x4F]); (0x70, [0x50]);
   (0x71, [0x51]); (0x72, [0x52]); (0x73, [0x53]); (0x74, [0x54]);
   (0x75, [0x55]); (0x76, [0x56]); (0x77, [0x57]); (0x78, [0x58]);
   (0x79, [0x59]); (0x7A, [0x5A]); (0xB5, [0x39C]); (0xDF, [0x53; 0x53]);
   (0xE0, [0xC0]); (0xE1, [0xC1]); (0xE2, [0xC2]); (0xE3, [0xC3]);
   (0xE4, [0xC4]); (0xE5, [0xC5]); (0xE6, [0xC6]); (0xE7, [0xC7]);
   (0xE8, [0xC8]); (0xE9, [0xC9]); (0xEA, [0xCA]); (0xEB, [0xCB]);
   (0xEC, [0xCC]); (0xED, [0xCD]); (0xEE, [0xCE]); (0xEF, [0xCF]);
   (0xF0, [0xD0]); (0xF1, [0xD1]); (0xF2, [0xD2]); (0xF3, [0xD3]);
   (0xF4, [0xD4]); (0xF5, [0xD5]); (0xF6, [0xD6]); (0xF8, [0xD8]);
   (0xF9, [0xD9]); (0xFA, [0xDA]); (0xFB, [0xDB]); (0xFC, [0xDC]);
   (0xFD, [0xDD]); (0xFE, [0xDE]); (0xFF, [0x178]); (0x101, [0x100]);
   (0x103, [0x102]); (0x105, [0x104]); (0x107, [0x106]); (0x109, [0x108]);
   (0x10B, [0x10A]); (0x10D, [0x10C]); (0x10F, [0x10E]); (0x111, [0x110]);
   (0x113, [0x112]); (0x115, [0x114]); (0x117, [0x116]); (0x119, [0x118]);
   (0x11B, [0x11A]); (0x11D, [0x11C]); (0x11F, [0x11E]); (0x121, [0x120]);
   (0x123, [0x122]); (0x125, [0x124]); (0x127, [0x126]); (0x129, [0x128]);
   (0x12B, [0x12A]); (0x12D, [0x12C]); (0x12F, [0x12E]); (0x131, [0x49]);
   (0x133, [0x132]); (0x135, [0x134]); (0x137, [0x136]); (0x13A, [0x139]);
   (0x13C, [0x13B]); (0x13E, [0x13D]); (0x140, [0x13F]); (0x142, [0x141]);
   (0x144, [0x143]); (0x146, [0x145]); (0x148, [0x147]);
   (0x149, [0x2BC; 0x4E]); (0x14B, [0x14A]); (0x14D, [0x14C]);
   (0x14F, [0x14E]); (0x151, [0x150]); (0x153, [0x152]); (0x155, [0x154]);
   (0x157, [0x156]); (0x159, [0x158]); (0x15B, [0x15A]); (0x15D, [0x15C]);
   (0x15F, [0x15E]); (0x161, [0x160]); (0x163, [0x162]); (0x165, [0x164]);
   (0x167, [0x166]); (0x169, [0x168]); (0x16B, [0x16A]); (0x16D, [0x16C]);
   (0x16F, [0x16E]); (0x171, [0x170]); (0x173, [0x172]); (0x175, [0x174]);
   (0x177, [0x176]); (0x17A, [0x179]); (0x17C, [0x17B]); (0x17E, [0x17D]);
   (0x17F, [0x53]); (0x180, [0x243]); (0x183, [0x182]); (0x185, [0x184]);
   (0x188, [0x187]); (0x18C, [0x18B]); (0x192, [0x191]); (0x195, [0x1F6]);
   (0x199, [0x198]); (0x19A, [0x23D]); (0x19E, [0x220]); (0x1A1, [0x1A0]);
   (0x1A3, [0x1A2]); (0x1A5, [0x1A4]); (0x1A8, [0x1A7]); (0x1AD, [0x1AC]);
   (0x1B0, [0x1AF]); (0x1B4, [0x1B3]); (0x1B6, [0x1B5]); (0x1B9, [0x1B8]);
   (0x1BD, [0x1BC]); (0x1BF, [0x1F7]); (0x1C5, [0x1C4]); (0x1C6, [0x1C4]);
   (0x1C8, [0x1C7]); (0x1C9, [0x1C7]); (0x1CB, [0x1CA]); (0x1CC, [0x1CA]);
   (0x1CE, [0x1CD]); (0x1D0, [0x1CF]); (0x1D2, [0x1D1]); (0x1D4, [0x1D3]);
   (0x1D6, [0x1D5]); (0x1D8, [0x1D7]); (0x1DA, [0x1D9]); (0x1DC, [0x1DB]);
   (0x1DD, [0x18E]); (0x1DF, [0x1DE]); (0x1E1, [0x1E0]); (0x1E3, [0x1E2]);
   (0x1E5, [0x1E4]); (0x1E7, [0x1E6]); (0x1E9, [0x1E8]); (0x1EB, [0x1EA]);
   (0x1ED, [0x1EC]); (0x1EF, [0x1EE]); (0x1F0, [0x4A; 0x30C]);
   (0x1F2, [0x1F1]); (0x1F3, [0x1F1]); (0x1F5, [0x1F4]); (0x1F9, [0x1F8]);
   (0x1FB, [0x1FA]); (0x1FD, [0x1FC]); (0x1FF, [0x1FE]); (0x201, [0x200]);
   (0x203, [0x202]); (0x205, [0x204]); (0x207, [0x206]); (0x209, [0x208]);
   (0x20B, [0x20A]); (0x20D, [0x20C]); (0x20F, [0x20E]); (0x211, [0x210]);
   (0x213, [0x212]); (0x215, [0x214]); (0x217, [0x216]); (0x219, [0x218]);
   (0x21B, [0x21A]); (0x21D, [0x21C]); (0x21F, [0x21E]); (0x223, [0x222]);
   (0x225, [0x224]); (0x227, [0x226]); (0x229, [0x228]); (0x22B, [0x22A]);
   (0x22D, [0x22C]); (0x22F, [0x22E]); (0x231, [0x230]); (0x233, [0x232]);
   (0x23C, [0x23B]); (0x23F, [0x2C7E]); (0x240, [0x2C7F]); (0x242, [0x241]);
   (0x247, [0x246]); (0x249, [0x248]); (0x24B, [0x24A]); (0x24D, [0x24C]);
   (0x24F, [0x24E]); (0x250, [0x2C6F]); (0x251, [0x2C6D]); (0x252, [0x2C70]);
   (0x253, [0x181]); (0x254, [0x186]); (0x256, [0x189]); (0x257, [0x18A]);
   (0x259, [0x18F]); (0x25B, [0x190]); (0x25C, [0xA7AB]); (0x260, [0x193]);
   (0x261, [0xA7AC]); (0x263, [0x194]); (0x265, [0xA78D]); (0x266, [0xA7AA]);
   (0x268, [0x197]); (0x269, [0x196]); (0x26A, [0xA7AE]); (0x26B, [0x2C62]);
   (0x26C, [0xA7AD]); (0x26F, [0x19C]); (0x271, [0x2C6E]); (0x272, [0x19D]);
   (0x275, [0x19F]); (0x27D, [0x2C64]); (0x280, [0x1A6]); (0x282, [0xA7C5]);
   (0x283, [0x1A9]); (0x287, [0xA7B1]); (0x288, [0x1AE]); (0x289, [0x244]);
   (0x28A, [0x1B1]); (0x28B, [0x1B2]); (0x28C, [0x245]); (0x292, [0x1B7]);
   (0x29D, [0xA7B2]); (0x29E, [0xA7B0]); (0x345, [0x399]); (0x371, [0x370]);
   (0x373, [0x372]); (0x377, [0x376]); (0x37B, [0x3FD]); (0x37C, [0x3FE]);
   (0x37D, [0x3FF]); (0x390, [0x399; 0x308; 0x301]); (0x3AC, [0x386]);
   (0x3AD, [0x388]); (0x3AE, [0x389]); (0x3AF, [0x38A]);
   (0x3B0, [0x3A5; 0x308; 0x301]); (0x3B1, [0x391]); (0x3B2, [0x392]);
   (0x3B3, [0x393]); (0x3B4, [0x394]); (0x3B5, [0x395]); (0x3B6, [0x396]);
   (0x3B7, [0x397]); (0x3B8, [0x398]); (0x3B9, [0x399]); (0x3BA, [0x39A]);
   (0x3BB, [0x39B]); (0x3BC, [0x39C]); (0x3BD, [0x39D]); (0x3BE, [0x39E]);
   (0x3BF, [0x39F]); (0x3C0, [0x3A0]); (0x3C1, [0x3A1]); (0x3C2, [0x3A3]);
   (0x3C3, [0x3A3]); (0x3C4, [0x3A4]); (0x3C5, [0x3A5]); (0x3C6, [0x3A6]);
   (0x3C7, [0x3A7]); (0x3C8, [0x3A8]); (0x3C9, [0x3A9]); (0x3CA, [0x3AA]);
   (0x3CB, [0x3AB]); (0x3CC, [0x38C]); (0x3CD, [0x38E]); (0x3CE, [0x38F]);
   (0x3D0, [0x392]); (0x3D1, [0x398]); (0x3D5, [0x3A6]); (0x3D6, [0x3A0]);
   (0x3D7, [0x3CF]); (0x3D9, [0x3D8]); (0x3DB, [0x3DA]); (0x3DD, [0x3DC]);
   (0x3DF, [0x3DE]); (0x3E1, [0x3E0]); (0x3E3, [0x3E2]); (0x3E5, [0x3E4]);
   (0x3E7, [0x3E6]); (0x3E9, [0x3E8]); (0x3EB, [0x3EA]); (0x3ED, [0x3EC]);
   (0x3EF, [0x3EE]); (0x3F0, [0x39A]); (0x3F1, [0x3A1]); (0x3F2, [0x3F9]);
   (0x3F3, [0x37F]); (0x3F5, [0x395]); (0x3F8, [0x3F7]); (0x3FB, [0x3FA]);
   (0x430, [0x410]); (0x431, [0x411]); (0x432, [0x412]); (0x433, [0x413]);
   (0x434, [0x414]); (0x435, [0x415]); (0x436, [0x416]); (0x437, [0x417]);
   (0x438, [0x418]); (0x439, [0x419]); (0x43A, [0x41A]); (0x43B, [0x41B]);
   (0x43C, [0x41C]); (0x43D, [0x41D]); (0x43E, [0x41E]); (0x43F, [0x41F]);
   (0x440, [0x420]); (0x441, [0x421]); (0x442, [0x422]); (0x443, [0x423]);
   (0x444, [0x424]); (0x445, [0x425]); (0x446, [0x426]); (0x447, [0x427]);
   (0x448, [0x428]); (0x449, [0x429]); (0x44A, [0x42A]); (0x44B, [0x42B]);
   (0x44C, [0x42C]); (0x44D, [0x42D]); (0x44E, [0x42E]); (0x44F, [0x42F]);
   (0x450, [0x400]); (0x451, [0x401]); (0x452, [0x402]); (0x453, [0x403]);
   (0x454, [0x404]); (0x455, [0x405]); (0x456, [0x406]); (0x457, [0x407]);
   (0x458, [0x408]); (0x459, [0x409]); (0x45A, [0x40A]); (0x45B, [0x40B]);
   (0x45C, [0x40C]); (0x45D, [0x40D]); (0x45E, [0x40E]); (0x45F, [0x40F]);
   (0x461, [0x460]); (0x463, [0x462]); (0x465, [0x464]); (0x467, [0x466]);
   (0x469, [0x468]); (0x46B, [0x46A]); (0x46D, [0x46C]); (0x46F, [0x46E]);
   (0x471, [0x470]); (0x473, [0x472]); (0x475, [0x474]); (0x477, [0x476]);
   (0x479, [0x478]); (0x47B, [0x47A]); (0x47D, [0x47C]); (0x47F, [0x47E]);
   (0x481, [0x480]); (0x48B, [0x48A]); (0x48D, [0x48C]); (0x48F, [0x48E]);
   (0x491, [0x490]); (0x493, [0x492]); (0x495, [0x494]); (0x497, [0x496]);
   (0x499, [0x498]); (0x49B, [0x49A]); (0x49D, [0x49C]); (0x49F, [0x49E]);
   (0x4A1, [0x4A0]); (0x4A3, [0x4A2]); (0x4A5, [0x4A4]); (0x4A7, [0x4A6]);
   (0x4A9, [0x4A8]); (0x4AB, [0x4AA]); (0x4AD, [0x4AC]); (0x4AF, [0x4AE]);
   (0x4B1, [0x4B0]); (0x4B3, [0x4B2]); (0x4B5, [0x4B4]); (0x4B7, [0x4B6]);
   (0x4B9, [0x4B8]); (0x4BB, [0x4BA]); (0x4BD, [0x4BC]); (0x4BF, [0x4BE]);
   (0x4C2, [0x4C1]); (0x4C4, [0x4C3]); (0x4C6, [0x4C5]); (0x4C8, [0x4C7]);
   (0x4CA, [0x4C9]); (0x4CC, [0x4CB]); (0x4CE, [0x4CD]); (0x4CF, [0x4C0]);
   (0x4D1, [0x4D0]); (0x4D3, [0x4D2]); (0x4D5, [0x4D4]); (0x4D7, [0x4D6]);
   (0x4D9, [0x4D8]); (0x4DB, [0x4DA]); (0x4DD, [0x4DC]); (0x4DF, [0x4DE]);
   (0x4E1, [0x4E0]); (0x4E3, [0x4E2]); (0x4E5, [0x4E4]); (0x4E7, [0x4E6]);
   (0x4E9, [0x4E8]); (0x4EB, [0x4EA]); (0x4ED, [0x4EC]); (0x4EF, [0x4EE]);
   (0x4F1, [0x4F0]); (0x4F3, [0x4F2]); (0x4F5, [0x4F4]); (0x4F7, [0x4F6]);
   (0x4F9, [0x4F8]); (0x4FB, [0x4FA]); (0x4FD, [0x4FC]); (0x4FF, [0x4FE]);
   (0x501, [0x500]); (0x503, [0x502]); (0x505, [0x504]); (0x507, [0x506]);
   (0x509, [0x508]); (0x50B, [0x50A]); (0x50D, [0x50C]); (0x50F, [0x50E]);
   (0x511, [0x510]); (0x513, [0x512]); (0x515, [0x514]); (0x517, [0x516]);
   (0x519, [0x518]); (0x51B, [0x51A]); (0x51D, [0x51C]); (0x51F, [0x51E]);
   (0x521, [0x520]); (0x523, [0x522]); (0x525, [0x524]); (0x527, [0x526]);
   (0x529, [0x528]); (0x52B, [0x52A]); (0x52D, [0x52C]); (0x52F, [0x52E]);
   (0x561, [0x531]); (0x562, [0x532]); (0x563, [0x533]); (0x564, [0x534]);
   (0x565, [0x535]); (0x566, [0x536]); (0x567, [0x537]); (0x568, [0x538]);
   (0x569, [0x539]); (0x56A, [0x53A]); (0x56B, [0x53B]); (0x56C, [0x53C]);
   (0x56D, [0x53D]); (0x56E, [0x53E]); (0x56F, [0x53F]); (0x570, [0x540]);
   (0x571, [0x541]); (0x572, [0x542]); (0x573, [0x543]); (0x574, [0x544]);
   (0x575, [0x545]); (0x576, [0x546]); (0x577, [0x547]); (0x578, [0x548]);
   (0x579, [0x549]); (0x57A, [0x54A]); (0x57B, [0x54B]); (0x57C, [0x54C]);
   (0x57D, [0x54D]); (0x57E, [0x54E]); (0x57F, [0x54F]); (0x580, [0x550]);
   (0x581, [0x551]); (0x582, [0x552]); (0x583, [0x553]); (0x584, [0x554]);
   (0x585, [0x555]); (0x586, [0x556]); (0x587, [0x535; 0x552]);
   (0x10D0, [0x1C90]); (0x10D1, [0x1C91]); (0x10D2, [0x1C92]);
   (0x10D3, [0x1C93]); (0x10D4, [0x1C94]); (0x10D5, [0x1C95]);
   (0x10D6, [0x1C96]); (0x10D7, [0x1C97]); (0x10D8, [0x1C98]);
   (0x10D9, [0x1C99]); (0x10DA, [0x1C9A]); (0x10DB, [0x1C9B]);
   (0x10DC, [0x1C9C]); (0x10DD, [0x1C9D]); (0x10DE, [0x1C9E]);
   (0x10DF, [0x1C9F]); (0x10E0, [0x1CA0]); (0x10E1, [0x1CA1]);
   (0x10E2, [0x1CA2]); (0x10E3, [0x1CA3]); (0x10E4, [0x1CA4]);
   (0x10E5, [0x1CA5]); (0x10E6, [0x1CA6]); (0x10E7, [0x1CA7]);
   (0x10E8, [0x1CA8]); (0x10E9, [0x1CA9]); (0x10EA, [0x1CAA]);
   (0x10EB, [0x1CAB]); (0x10EC, [0x1CAC]); (0x10ED, [0x1CAD]);
   (0x10EE, [0x1CAE]); (0x10EF, [0x1CAF]); (0x10F0, [0x1CB0]);
   (0x10F1, [0x1CB1]); (0x10F2, [0x1CB2]); (0x10F3, [0x1CB3]);
   (0x10F4, [0x1CB4]); (0x10F5, [0x1CB5]); (0x10F6, [0x1CB6]);
   (0x10F7, [0x1CB7]); (0x10F8, [0x1CB8]); (0x10F9, [0x1CB9]);
   (0x10FA, [0x1CBA]); (0x10FD, [0x1CBD]); (0x10FE, [0x1CBE]);
   (0x10FF, [0x1CBF]); (0x13F8, [0x13F0]); (0x13F9, [0x13F1]);
   (0x13FA, [0x13F2]); (0x13FB, [0x13F3]); (0x13FC, [0x13F4]);
   (0x13FD, [0x13F5]); (0x1C80, [0x412]); (0x1C81, [0x414]); (0x1C82, [0x41E]);
   (0x1C83, [0x421]); (0x1C84, [0x422]); (0x1C85, [0x422]); (0x1C86, [0x42A]);
   (0x1C87, [0x462]); (0x1C88, [0xA64A]); (0x1D79, [0xA77D]);
   (0x1D7D, [0x2C63]); (0x1D8E, [0xA7C6]); (0x1E01, [0x1E00]);
   (0x1E03, [0x1E02]); (0x1E05, [0x1E04]); (0x1E07, [0x1E06]);
   (0x1E09, [0x1E08]); (0x1E0B, [0x1E0A]); (0x1E0D, [0x1E0C]);
   (0x1E0F, [0x1E0E]); (0x1E11, [0x1E10]); (0x1E13, [0x1E12]);
   (0x1E15, [0x1E14]); (0x1E17, [0x1E16]); (0x1E19, [0x1E18]);
   (0x1E1B, [0x1E1A]); (0x1E1D, [0x1E1C]); (0x1E1F, [0x1E1E]);
   (0x1E21, [0x1E20]); (0x1E23, [0x1E22]); (0x1E25, [0x1E24]);
   (0x1E27, [0x1E26]); (0x1E29, [0x1E28]); (0x1E2B, [0x1E2A]);
   (0x1E2D, [0x1E2C]); (0x1E2F, [0x1E2E]); (0x1E31, [0x1E30]);
   (0x1E33, [0x1E32]); (0x1E35, [0x1E34]); (0x1E37, [0x1E36]);
   (0x1E39, [0x1E38]); (0x1E3B, [0x1E3A]); (0x1E3D, [0x1E3C]);
   (0x1E3F, [0x1E3E]); (0x1E41, [0x1E40]); (0x1E43, [0x1E42]);
   (0x1E45, [0x1E44]); (0x1E47, [0x1E46]); (0x1E49, [0x1E48]);
   (0x1E4B, [0x1E4A]); (0x1E4D, [0x1E4C]); (0x1E4F, [0x1E4E]);
   (0x1E51, [0x1E50]); (0x1E53, [0x1E52]); (0x1E55, [0x1E54]);
   (0x1E57, [0x1E56]); (0x1E59, [0x1E58]); (0x1E5B, [0x1E5A]);
   (0x1E5D, [0x1E5C]); (0x1E5F, [0x1E5E]); (0x1E61, [0x1E60]);
   (0x1E63, [0x1E62]); (0x1E65, [0x1E64]); (0x1E67, [0x1E66]);
   (0x1E69, [0x1E68]); (0x1E6B, [0x1E6A]); (0x1E6D, [0x1E6C]);
   (0x1E6F, [0x1E6E]); (0x1E71, [0x1E70]); (0x1E73, [0x1E72]);
   (0x1E75, [0x1E74]); (0x1E77, [0x1E76]); (0x1E79, [0x1E78]);
   (0x1E7B, [0x1E7A]); (0x1E7D, [0x1E7C]); (0x1E7F, [0x1E7E]);
   (0x1E81, [0x1E80]); (0x1E83, [0x1E82]); (0x1E85, [0x1E84]);
   (0x1E87, [0x1E86]); (0x1E89, [0x1E88]); (0x1E8B, [0x1E8A]);
   (0x1E8D, [0x1E8C]); (0x1E8F, [0x1E8E]); (0x1E91, [0x1E90]);
   (0x1E93, [0x1E92]); (0x1E95, [0x1E94]); (0x1E96, [0x48; 0x331]);
   (0x1E97, [0x54; 0x308]); (0x1E98, [0x57; 0x30A]); (0x1E99, [0x59; 0x30A]);
   (0x1E9A, [0x41; 0x2BE]); (0x1E9B, [0x1E60]); (0x1EA1, [0x1EA0]);
   (0x1EA3, [0x1EA2]); (0x1EA5, [0x1EA4]); (0x1EA7, [0x1EA6]);
   (0x1EA9, [0x1EA8]); (0x1EAB, [0x1EAA]); (0x1EAD, [0x1EAC]);
   (0x1EAF, [0x1EAE]); (0x1EB1, [0x1EB0]); (0x1EB3, [0x1EB2]);
   (0x1EB5, [0x1EB4]); (0x1EB7, [0x1EB6]); (0x1EB9, [0x1EB8]);
   (0x1EBB, [0x1EBA]); (0x1EBD, [0x1EBC]); (0x1EBF, [0x1EBE]);
   (0x1EC1, [0x1EC0]); (0x1EC3, [0x1EC2]); (0x1EC5, [0x1EC4]);
   (0x1EC7, [0x1EC6]); (0x1EC9, [0x1EC8]); (0x1ECB, [0x1ECA]);
   (0x1ECD, [0x1ECC]); (0x1ECF, [0x1ECE]); (0x1ED1, [0x1ED0]);
   (0x1ED3, [0x1ED2]); (0x1ED5, [0x1ED4]); (0x1ED7, [0x1ED6]);
   (0x1ED9, [0x1ED8]); (0x1EDB, [0x1EDA]); (0x1EDD, [0x1EDC]);
   (0x1EDF, [0x1EDE]); (0x1EE1, [0x1EE0]); (0x1EE3, [0x1EE2]);
   (0x1EE5, [0x1EE4]); (0x1EE7, [0x1EE6]); (0x1EE9, [0x1EE8]);
   (0x1EEB, [0x1EEA]); (0x1EED, [0x1EEC]); (0x1EEF, [0x1EEE]);
   (0x1EF1, [0x1EF0]); (0x1EF3, [0x1EF2]); (0x1EF5, [0x1EF4]);
   (0x1EF7, [0x1EF6]); (0x1EF9, [0x1EF8]); (0x1EFB, [0x1EFA]);
   (0x1EFD, [0x1EFC]); (0x1EFF, [0x1EFE]); (0x1F00, [0x1F08]);
   (0x1F01, [0x1F09]); (0x1F02, [0x1F0A]); (0x1F03, [0x1F0B]);
   (0x1F04, [0x1F0C]); (0x1F05, [0x1F0D]); (0x1F06, [0x1F0E]);
   (0x1F07, [0x1F0F]); (0x1F10, [0x1F18]); (0x1F11, [0x1F19]);
   (0x1F12, [0x1F1A]); (0x1F13, [0x1F1B]); (0x1F14, [0x1F1C]);
   (0x1F15, [0x1F1D]); (0x1F20, [0x1F28]); (0x1F21, [0x1F29]);
   (0x1F22, [0x1F2A]); (0x1F23, [0x1F2B]); (0x1F24, [0x1F2C]);
   (0x1F25, [0x1F2D]); (0x1F26, [0x1F2E]); (0x1F27, [0x1F2F]);
   (0x1F30, [0x1F38]); (0x1F31, [0x1F39]); (0x1F32, [0x1F3A]);
   (0x1F33, [0x1F3B]); (0x1F34, [0x1F3C]); (0x1F35, [0x1F3D]);
   (0x1F36, [0x1F3E]); (0x1F37, [0x1F3F]); (0x1F40, [0x1F48]);
   (0x1F41, [0x1F49]); (0x1F42, [0x1F4A]); (0x1F43, [0x1F4B]);
   (0x1F44, [0x1F4C]); (0x1F45, [0x1F4D]); (0x1F50, [0x3A5; 0x313]);
   (0x1F51, [0x1F59]); (0x1F52, [0x3A5; 0x313; 0x300]); (0x1F53, [0x1F5B]);
   (0x1F54, [0x3A5; 0x313; 0x301]); (0x1F55, [0x1F5D]);
   (0x1F56, [0x3A5; 0x313; 0x342]); (0x1F57, [0x1F5F]); (0x1F60, [0x1F68]);
   (0x1F61, [0x1F69]); (0x1F62, [0x1F6A]); (0x1F63, [0x1F6B]);
   (0x1F64, [0x1F6C]); (0x1F65, [0x1F6D]); (0x1F66, [0x1F6E]);
   (0x1F67, [0x1F6F]); (0x1F70, [0x1FBA]); (0x1F71, [0x1FBB]);
   (0x1F72, [0x1FC8]); (0x1F73, [0x1FC9]); (0x1F74, [0x1FCA]);
   (0x1F75, [0x1FCB]); (0x1F76, [0x1FDA]); (0x1F77, [0x1FDB]);
   (0x1F78, [0x1FF8]); (0x1F79, [0x1FF9]); (0x1F7A, [0x1FEA]);
   (0x1F7B, [0x1FEB]); (0x1F7C, [0x1FFA]); (0x1F7D, [0x1FFB]);
   (0x1F80, [0x1F08; 0x399]); (0x1F81, [0x1F09; 0x399]);
   (0x1F82, [0x1F0A; 0x399]); (0x1F83, [0x1F0B; 0x399]);
   (0x1F84, [0x1F0C; 0x399]); (0x1F85, [0x1F0D; 0x399]);
   (0x1F86, [0x1F0E; 0x399]); (0x1F87, [0x1F0F; 0x399]);
   (0x1F88, [0x1F08; 0x399]); (0x1F89, [0x1F09; 0x399]);
   (0x1F8A, [0x1F0A; 0x399]); (0x1F8B, [0x1F0B; 0x399]);
   (0x1F8C, [0x1F0C; 0x399]); (0x1F8D, [0x1F0D; 0x399]);
   (0x1F8E, [0x1F0E; 0x399]); (0x1F8F, [0x1F0F; 0x399]);
   (0x1F90, [0x1F28; 0x399]); (0x1F91, [0x1F29; 0x399]);
   (0x1F92, [0x1F2A; 0x399]); (0x1F93, [0x1F2B; 0x399]);
   (0x1F94, [0x1F2C; 0x399]); (0x1F95, [0x1F2D; 0x399]);
   (0x1F96, [0x1F2E; 0x399]); (0x1F97, [0x1F2F; 0x399]);
   (0x1F98, [0x1F28; 0x399]); (0x1F99, [0x1F29; 0x399]);
   (0x1F9A, [0x1F2A; 0x399]); (0x1F9B, [0x1F2B; 0x399]);
   (0x1F9C, [0x1F2C; 0x399]); (0x1F9D, [0x1F2D; 0x399]);
   (0x1F9E, [0x1F2E; 0x399]); (0x1F9F, [0x1F2F; 0x399]);
   (0x1FA0, [0x1F68; 0x399]); (0x1FA1, [0x1F69; 0x399]);
   (0x1FA2, [0x1F6A; 0x399]); (0x1FA3, [0x1F6B; 0x399]);
   (0x1FA4, [0x1F6C; 0x399]); (0x1FA5, [0x1F6D; 0x399]);
   (0x1FA6, [0x1F6E; 0x399]); (0x1FA7, [0x1F6F; 0x399]);
   (0x1FA8, [0x1F68; 0x399]); (0x1FA9, [0x1F69; 0x399]);
   (0x1FAA, [0x1F6A; 0x399]); (0x1FAB, [0x1F6B; 0x399]);
   (0x1FAC, [0x1F6C; 0x399]); (0x1FAD, [0x1F6D; 0x399]);
   (0x1FAE, [0x1F6E; 0x399]); (0x1FAF, [0x1F6F; 0x399]); (0x1FB0, [0x1FB8]);
   (0x1FB1, [0x1FB9]); (0x1FB2, [0x1FBA; 0x399]); (0x1FB3, [0x391; 0x399]);
   (0x1FB4, [0x386; 0x399]); (0x1FB6, [0x391; 0x342]);
   (0x1FB7, [0x391; 0x342; 0x399]); (0x1FBC, [0x391; 0x399]);
   (0x1FBE, [0x399]); (0x1FC2, [0x1FCA; 0x399]); (0x1FC3, [0x397; 0x399]);
   (0x1FC4, [0x389; 0x399]); (0x1FC6, [0x397; 0x342]);
   (0x1FC7, [0x397; 0x342; 0x399]); (0x1FCC, [0x397; 0x399]);
   (0x1FD0, [0x1FD8]); (0x1FD1, [0x1FD9]); (0x1FD2, [0x399; 0x308; 0x300]);
   (0x1FD3, [0x399; 0x308; 0x301]); (0x1FD6, [0x399; 0x342]);
   (0x1FD7, [0x399; 0x308; 0x342]); (0x1FE0, [0x1FE8]); (0x1FE1, [0x1FE9]);
   (0x1FE2, [0x3A5; 0x308; 0x300]); (0x1FE3, [0x3A5; 0x308; 0x301]);
   (0x1FE4, [0x3A1; 0x313]); (0x1FE5, [0x1FEC]); (0x1FE6, [0x3A5; 0x342]);
   (0x1FE7, [0x3A5; 0x308; 0x342]); (0x1FF2, [0x1FFA; 0x399]);
   (0x1FF3, [0x3A9; 0x399]); (0x1FF4, [0x38F; 0x399]);
   (0x1FF6, [0x3A9; 0x342]); (0x1FF7, [0x3A9; 0x342; 0x399]);
   (0x1FFC, [0x3A9; 0x399]); (0x214E, [0x2132]); (0x2170, [0x2160]);
   (0x2171, [0x2161]); (0x2172, [0x2162]); (0x2173, [0x2163]);
   (0x2174, [0x2164]); (0x2175, [0x2165]); (0x2176, [0x2166]);
   (0x2177, [0x2167]); (0x2178, [0x2168]); (0x2179, [0x2169]);
   (0x217A, [0x216A]); (0x217B, [0x216B]); (0x217C, [0x216C]);
   (0x217D, [0x216D]); (0x217E, [0x216E]); (0x217F, [0x216F]);
   (0x2184, [0x2183]); (0x24D0, [0x24B6]); (0x24D1, [0x24B7]);
   (0x24D2, [0x24B8]); (0x24D3, [0x24B9]); (0x24D4, [0x24BA]);
   (0x24D5, [0x24BB]); (0x24D6, [0x24BC]); (0x24D7, [0x24BD]);
   (0x24D8, [0x24BE]); (0x24D9, [0x24BF]); (0x24DA, [0x24C0]);
   (0x24DB, [0x24C1]); (0x24DC, [0x24C2]); (0x24DD, [0x24C3]);
   (0x24DE, [0x24C4]); (0x24DF, [0x24C5]); (0x24E0, [0x24C6]);
   (0x24E1, [0x24C7]); (0x24E2, [0x24C8]); (0x24E3, [0x24C9]);
   (0x24E4, [0x24CA]); (0x24E5, [0x24CB]); (0x24E6, [0x24CC]);
   (0x24E7, [0x24CD]); (0x24E8, [0x24CE]); (0x24E9, [0x24CF]);
   (0x2C30, [0x2C00]); (0x2C31, [0x2C01]); (0x2C32, [0x2C02]);
   (0x2C33, [0x2C03]); (0x2C34, [0x2C04]); (0x2C35, [0x2C05]);
   (0x2C36, [0x2C06]); (0x2C37, [0x2C07]); (0x2C38, [0x2C08]);
   (0x2C39, [0x2C09]); (0x2C3A, [0x2C0A]); (0x2C3B, [0x2C0B]);
   (0x2C3C, [0x2C0C]); (0x2C3D, [0x2C0D]); (0x2C3E, [0x2C0E]);
   (0x2C3F, [0x2C0F]); (0x2C40, [0x2C10]); (0x2C41, [0x2C11]);
   (0x2C42, [0x2C12]); (0x2C43, [0x2C13]); (0x2C44, [0x2C14]);
   (0x2C45, [0x2C15]); (0x2C46, [0x2C16]); (0x2C47, [0x2C17]);
   (0x2C48, [0x2C18]); (0x2C49, [0x2C19]); (0x2C4A, [0x2C1A]);
   (0x2C4B, [0x2C1B]); (0x2C4C, [0x2C1C]); (0x2C4D, [0x2C1D]);
   (0x2C4E, [0x2C1E]); (0x2C4F, [0x2C1F]); (0x2C50, [0x2C20]);
   (0x2C51, [0x2C21]); (0x2C52, [0x2C22]); (0x2C53, [0x2C23]);
   (0x2C54, [0x2C24]); (0x2C55, [0x2C25]); (0x2C56, [0x2C26]);
   (0x2C57, [0x2C27]); (0x2C58, [0x2C28]); (0x2C59, [0x2C29]);
   (0x2C5A, [0x2C2A]); (0x2C5B, [0x2C2B]); (0x2C5C, [0x2C2C]);
   (0x2C5D, [0x2C2D]); (0x2C5E, [0x2C2E]); (0x2C5F, [0x2C2F]);
   (0x2C61, [0x2C60]); (0x2C65, [0x23A]); (0x2C66, [0x23E]);
   (0x2C68, [0x2C67]); (0x2C6A, [0x2C69]); (0x2C6C, [0x2C6B]);
   (0x2C73, [0x2C72]); (0x2C76, [0x2C75]); (0x2C81, [0x2C80]);
   (0x2C83, [0x2C82]); (0x2C85, [0x2C84]); (0x2C87, [0x2C86]);
   (0x2C89, [0x2C88]); (0x2C8B, [0x2C8A]); (0x2C8D, [0x2C8C]);
   (0x2C8F, [0x2C8E]); (0x2C91, [0x2C90]); (0x2C93, [0x2C92]);
   (0x2C95, [0x2C94]); (0x2C97, [0x2C96]); (0x2C99, [0x2C98]);
   (0x2C9B, [0x2C9A]); (0x2C9D, [0x2C9C]); (0x2C9F, [0x2C9E]);
   (0x2CA1, [0x2CA0]); (0x2CA3, [0x2CA2]); (0x2CA5, [0x2CA4]);
   (0x2CA7, [0x2CA6]); (0x2CA9, [0x2CA8]); (0x2CAB, [0x2CAA]);
   (0x2CAD, [0x2CAC]); (0x2CAF, [0x2CAE]); (0x2CB1, [0x2CB0]);
   (0x2CB3, [0x2CB2]); (0x2CB5, [0x2CB4]); (0x2CB7, [0x2CB6]);
   (0x2CB9, [0x2CB8]); (0x2CBB, [0x2CBA]); (0x2CBD, [0x2CBC]);
   (0x2CBF, [0x2CBE]); (0x2CC1, [0x2CC0]); (0x2CC3, [0x2CC2]);
   (0x2CC5, [0x2CC4]); (0x2CC7, [0x2CC6]); (0x2CC9, [0x2CC8]);
   (0x2CCB, [0x2CCA]); (0x2CCD, [0x2CCC]); (0x2CCF, [0x2CCE]);
   (0x2CD1, [0x2CD0]); (0x2CD3, [0x2CD2]); (0x2CD5, [0x2CD4]);
   (0x2CD7, [0x2CD6]); (0x2CD9, [0x2CD8]); (0x2CDB, [0x2CDA]);
   (0x2CDD, [0x2CDC]); (0x2CDF, [0x2CDE]); (0x2CE1, [0x2CE0]);
   (0x2CE3, [0x2CE2]); (0x2CEC, [0x2CEB]); (0x2CEE, [0x2CED]);
   (0x2CF3, [0x2CF2]); (0x2D00, [0x10A0]); (0x2D01, [0x10A1]);
   (0x2D02, [0x10A2]); (0x2D03, [0x10A3]); (0x2D04, [0x10A4]);
   (0x2D05, [0x10A5]); (0x2D06, [0x10A6]); (0x2D07, [0x10A7]);
   (0x2D08, [0x10A8]); (0x2D09, [0x10A9]); (0x2D0A, [0x10AA]);
   (0x2D0B, [0x10AB]); (0x2D0C, [0x10AC]); (0x2D0D, [0x10AD]);
   (0x2D0E, [0x10AE]); (0x2D0F, [0x10AF]); (0x2D10, [0x10B0]);
   (0x2D11, [0x10B1]); (0x2D12, [0x10B2]); (0x2D13, [0x10B3]);
   (0x2D14, [0x10B4]); (0x2D15, [0x10B5]); (0x2D16, [0x10B6]);
   (0x2D17, [0x10B7]); (0x2D18, [0x10B8]); (0x2D19, [0x10B9]);
   (0x2D1A, [0x10BA]); (0x2D1B, [0x10BB]); (0x2D1C, [0x10BC]);
   (0x2D1D, [0x10BD]); (0x2D1E, [0x10BE]); (0x2D1F, [0x10BF]);
   (0x2D20, [0x10C0]); (0x2D21, [0x10C1]); (0x2D22, [0x10C2]);
   (0x2D23, [0x10C3]); (0x2D24, [0x10C4]); (0x2D25, [0x10C5]);
   (0x2D27, [0x10C7]); (0x2D2D, [0x10CD]); (0xA641, [0xA640]);
   (0xA643, [0xA642]); (0xA645, [0xA644]); (0xA647, [0xA646]);
   (0xA649, [0xA648]); (0xA64B, [0xA64A]); (0xA64D, [0xA64C]);
   (0xA64F, [0xA64E]); (0xA651, [0xA650]); (0xA653, [0xA652]);
   (0xA655, [0xA654]); (0xA657, [0xA656]); (0xA659, [0xA658]);
   (0xA65B, [0xA65A]); (0xA65D, [0xA65C]); (0xA65F, [0xA65E]);
   (0xA661, [0xA660]); (0xA663, [0xA662]); (0xA665, [0xA664]);
   (0xA667, [0xA666]); (0xA669, [0xA668]); (0xA66B, [0xA66A]);
   (0xA66D, [0xA66C]); (0xA681, [0xA680]); (0xA683, [0xA682]);
   (0xA685, [0xA684]); (0xA687, [0xA686]); (0xA689, [0xA688]);
   (0xA68B, [0xA68A]); (0xA68D, [0xA68C]); (0xA68F, [0xA68E]);
   (0xA691, [0xA690]); (0xA693, [0xA692]); (0xA695, [0xA694]);
   (0xA697, [0xA696]); (0xA699, [0xA698]); (0xA69B, [0xA69A]);
   (0xA723, [0xA722]); (0xA725, [0xA724]); (0xA727, [0xA726]);
   (0xA729, [0xA728]); (0xA72B, [0xA72A]); (0xA72D, [0xA72C]);
   (0xA72F, [0xA72E]); (0xA733, [0xA732]); (0xA735, [0xA734]);
   (0xA737, [0xA736]); (0xA739, [0xA738]); (0xA73B, [0xA73A]);
   (0xA73D, [0xA73C]); (0xA73F, [0xA73E]); (0xA741, [0xA740]);
   (0xA743, [0xA742]); (0xA745, [0xA744]); (0xA747, [0xA746]);
   (0xA749, [0xA748]); (0xA74B, [0xA74A]); (0xA74D, [0xA74C]);
   (0xA74F, [0xA74E]); (0xA751, [0xA750]); (0xA753, [0xA752]);
   (0xA755, [0xA754]); (0xA757, [0xA756]); (0xA759, [0xA758]);
   (0xA75B, [0xA75A]); (0xA75D, [0xA75C]); (0xA75F, [0xA75E]);
   (0xA761, [0xA760]); (0xA763, [0xA762]); (0xA765, [0xA764]);
   (0xA767, [0xA766]); (0xA769, [0xA768]); (0xA76B, [0xA76A]);
   (0xA76D, [0xA76C]); (0xA76F, [0xA76E]); (0xA77A, [0xA779]);
   (0xA77C, [0xA77B]); (0xA77F, [0xA77E]); (0xA781, [0xA780]);
   (0xA783, [0xA782]); (0xA785, [0xA784]); (0xA787, [0xA786]);
   (0xA78C, [0xA78B]); (0xA791, [0xA790]); (0xA793, [0xA792]);
   (0xA794, [0xA7C4]); (0xA797, [0xA796]); (0xA799, [0xA798]);
   (0xA79B, [0xA79A]); (0xA79D, [0xA79C]); (0xA79F, [0xA79E]);
   (0xA7A1, [0xA7A0]); (0xA7A3, [0xA7A2]); (0xA7A5, [0xA7A4]);
   (0xA7A7, [0xA7A6]); (0xA7A9, [0xA7A8]); (0xA7B5, [0xA7B4]);
   (0xA7B7, [0xA7B6]); (0xA7B9, [0xA7B8]); (0xA7BB, [0xA7BA]);
   (0xA7BD, [0xA7BC]); (0xA7BF, [0xA7BE]); (0xA7C1, [0xA7C0]);
   (0xA7C3, [0xA7C2]); (0xA7C8, [0xA7C7]); (0xA7CA, [0xA7C9]);
   (0xA7D1, [0xA7D0]); (0xA7D7, [0xA7D6]); (0xA7D9, [0xA7D8]);
   (0xA7F6, [0xA7F5]); (0xAB53, [0xA7B3]); (0xAB70, [0x13A0]);
   (0xAB71, [0x13A1]); (0xAB72, [0x13A2]); (0xAB73, [0x13A3]);
   (0xAB74, [0x13A4]); (0xAB75, [0x13A5]); (0xAB76, [0x13A6]);
   (0xAB77, [0x13A7]); (0xAB78, [0x13A8]); (0xAB79, [0x13A9]);
   (0xAB7A, [0x13AA]); (0xAB7B, [0x13AB]); (0xAB7C, [0x13AC]);
   (0xAB7D, [0x13AD]); (0xAB7E, [0x13AE]); (0xAB7F, [0x13AF]);
   (0xAB80, [0x13B0]); (0xAB81, [0x13B1]); (0xAB82, [0x13B2]);
   (0xAB83, [0x13B3]); (0xAB84, [0x13B4]); (0xAB85, [0x13B5]);
   (0xAB86, [0x13B6]); (0xAB87, [0x13B7]); (0xAB88, [0x13B8]);
   (0xAB89, [0x13B9]); (0xAB8A, [0x13BA]); (0xAB8B, [0x13BB]);
   (0xAB8C, [0x13BC]); (0xAB8D, [0x13BD]); (0xAB8E, [0x13BE]);
   (0xAB8F, [0x13BF]); (0xAB90, [0x13C0]); (0xAB91, [0x13C1]);
   (0xAB92, [0x13C2]); (0xAB93, [0x13C3]); (0xAB94, [0x13C4]);
   (0xAB95, [0x13C5]); (0xAB96, [0x13C6]); (0xAB97, [0x13C7]);
   (0xAB98, [0x13C8]); (0xAB99, [0x13C9]); (0xAB9A, [0x13CA]);
   (0xAB9B, [0x13CB]); (0xAB9C, [0x13CC]); (0xAB9D, [0x13CD]);
   (0xAB9E, [0x13CE]); (0xAB9F, [0x13CF]); (0xABA0, [0x13D0]);
   (0xABA1, [0x13D1]); (0xABA2, [0x13D2]); (0xABA3, [0x13D3]);
   (0xABA4, [0x13D4]); (0xABA5, [0x13D5]); (0xABA6, [0x13D6]);
   (0xABA7, [0x13D7]); (0xABA8, [0x13D8]); (0xABA9, [0x13D9]);
   (0xABAA, [0x13DA]); (0xABAB, [0x13DB]); (0xABAC, [0x13DC]);
   (0xABAD, [0x13DD]); (0xABAE, [0x13DE]); (0xABAF, [0x13DF]);
   (0xABB0, [0x13E0]); (0xABB1, [0x13E1]); (0xABB2, [0x13E2]);
   (0xABB3, [0x13E3]); (0xABB4, [0x13E4]); (0xABB5, [0x13E5]);
   (0xABB6, [0x13E6]); (0xABB7, [0x13E7]); (0xABB8, [0x13E8]);
   (0xABB9, [0x13E9]); (0xABBA, [0x13EA]); (0xABBB, [0x13EB]);
   (0xABBC, [0x13EC]); (0xABBD, [0x13ED]); (0xABBE, [0x13EE]);
   (0xABBF, [0x13EF]); (0xFB00, [0x46; 0x46]); (0xFB01, [0x46; 0x49]);
   (0xFB02, [0x46; 0x4C]); (0xFB03, [0x46; 0x46; 0x49]);
   (0xFB04, [0x46; 0x46; 0x4C]); (0xFB05, [0x53; 0x54]);
   (0xFB06, [0x53; 0x54]); (0xFB13, [0x544; 0x546]); (0xFB14, [0x544; 0x535]);
   (0xFB15, [0x544; 0x53B]); (0xFB16, [0x54E; 0x546]);
   (0xFB17, [0x544; 0x53D]); (0xFF41, [0xFF21]); (0xFF42, [0xFF22]);
   (0xFF43, [0xFF23]); (0xFF44, [0xFF24]); (0xFF45, [0xFF25]);
   (0xFF46, [0xFF26]); (0xFF47, [0xFF27]); (0xFF48, [0xFF28]);
   (0xFF49, [0xFF29]); (0xFF4A, [0xFF2A]); (0xFF4B, [0xFF2B]);
   (0xFF4C, [0xFF2C]); (0xFF4D, [0xFF2D]); (0xFF4E, [0xFF2E]);
   (0xFF4F, [0xFF2F]); (0xFF50, [0xFF30]); (0xFF51, [0xFF31]);
   (0xFF52, [0xFF32]); (0xFF53, [0xFF33]); (0xFF54, [0xFF34]);
   (0xFF55, [0xFF35]); (0xFF56, [0xFF36]); (0xFF57, [0xFF37]);
   (0xFF58, [0xFF38]); (0xFF59, [0xFF39]); (0xFF5A, [0xFF3A]);
   (0x10428, [0x10400]); (0x10429, [0x10401]); (0x1042A, [0x10402]);
   (0x1042B, [0x10403]); (0x1042C, [0x10404]); (0x1042D, [0x10405]);
   (0x1042E, [0x10406]); (0x1042F, [0x10407]); (0x10430, [0x10408]);
   (0x10431, [0x10409]); (0x10432, [0x1040A]); (0x10433, [0x1040B]);
   (0x10434, [0x1040C]); (0x10435, [0x1040D]); (0x10436, [0x1040E]);
   (0x10437, [0x1040F]); (0x10438, [0x10410]); (0x10439, [0x10411]);
   (0x1043A, [0x10412]); (0x1043B, [0x10413]); (0x1043C, [0x10414]);
   (0x1043D, [0x10415]); (0x1043E, [0x10416]); (0x1043F, [0x10417]);
   (0x10440, [0x10418]); (0x10441, [0x10419]); (0x10442, [0x1041A]);
   (0x10443, [0x1041B]); (0x10444, [0x1041C]); (0x10445, [0x1041D]);
   (0x10446, [0x1041E]); (0x10447, [0x1041F]); (0x10448, [0x10420]);
   (0x10449, [0x10421]); (0x1044A, [0x10422]); (0x1044B, [0x10423]);
   (0x1044C, [0x10424]); (0x1044D, [0x10425]); (0x1044E, [0x10426]);
   (0x1044F, [0x10427]); (0x104D8, [0x104B0]); (0x104D9, [0x104B1]);
   (0x104DA, [0x104B2]); (0x104DB, [0x104B3]); (0x104DC, [0x104B4]);
   (0x104DD, [0x104B5]); (0x104DE, [0x104B6]); (0x104DF, [0x104B7]);
   (0x104E0, [0x104B8]); (0x104E1, [0x104B9]); (0x104E2, [0x104BA]);
   (0x104E3, [0x104BB]); (0x104E4, [0x104BC]); (0x104E5, [0x104BD]);
   (0x104E6, [0x104BE]); (0x104E7, [0x104BF]); (0x104E8, [0x104C0]);
   (0x104E9, [0x104C1]); (0x104EA, [0x104C2]); (0x104EB, [0x104C3]);
   (0x104EC, [0x104C4]); (0x104ED, [0x104C5]); (0x104EE, [0x104C6]);
   (0x104EF, [0x104C7]); (0x104F0, [0x104C8]); (0x104F1, [0x104C9]);
   (0x104F2, [0x104CA]); (0x104F3, [0x104CB]); (0x104F4, [0x104CC]);
   (0x104F5, [0x104CD]); (0x104F6, [0x104CE]); (0x104F7, [0x104CF]);
   (0x104F8, [0x104D0]); (0x104F9, [0x104D1]); (0x104FA, [0x104D2]);
   (0x104FB, [0x104D3]); (0x10597, [0x10570]); (0x10598, [0x10571]);
   (0x10599, [0x10572]); (0x1059A, [0x10573]); (0x1059B, [0x10574]);
   (0x1059C, [0x10575]); (0x1059D, [0x10576]); (0x1059E, [0x10577]);
   (0x1059F, [0x10578]); (0x105A0, [0x10579]); (0x105A1, [0x1057A]);
   (0x105A3, [0x1057C]); (0x105A4, [0x1057D]); (0x105A5, [0x1057E]);
   (0x105A6, [0x1057F]); (0x105A7, [0x10580]); (0x105A8, [0x10581]);
   (0x105A9, [0x10582]); (0x105AA, [0x10583]); (0x105AB, [0x10584]);
   (0x105AC, [0x10585]); (0x105AD, [0x10586]); (0x105AE, [0x10587]);
   (0x105AF, [0x10588]); (0x105B0, [0x10589]); (0x105B1, [0x1058A]);
   (0x105B3, [0x1058C]); (0x105B4, [0x1058D]); (0x105B5, [0x1058E]);
   (0x105B6, [0x1058F]); (0x105B7, [0x10590]); (0x105B8, [0x10591]);
   (0x105B9, [0x10592]); (0x105BB, [0x10594]); (0x105BC, [0x10595]);
   (0x10CC0, [0x10C80]); (0x10CC1, [0x10C81]); (0x10CC2, [0x10C82]);
   (0x10CC3, [0x10C83]); (0x10CC4, [0x10C84]); (0x10CC5, [0x10C85]);
   (0x10CC6, [0x10C86]); (0x10CC7, [0x10C87]); (0x10CC8, [0x10C88]);
   (0x10CC9, [0x10C89]); (0x10CCA, [0x10C8A]); (0x10CCB, [0x10C8B]);
   (0x10CCC, [0x10C8C]); (0x10CCD, [0x10C8D]); (0x10CCE, [0x10C8E]);
   (0x10CCF, [0x10C8F]); (0x10CD0, [0x10C90]); (0x10CD1, [0x10C91]);
   (0x10CD2, [0x10C92]); (0x10CD3, [0x10C93]); (0x10CD4, [0x10C94]);
   (0x10CD5, [0x10C95]); (0x10CD6, [0x10C96]); (0x10CD7, [0x10C97]);
   (0x10CD8, [0x10C98]); (0x10CD9, [0x10C99]); (0x10CDA, [0x10C9A]);
   (0x10CDB, [0x10C9B]); (0x10CDC, [0x10C9C]); (0x10CDD, [0x10C9D]);
   (0x10CDE, [0x10C9E]); (0x10CDF, [0x10C9F]); (0x10CE0, [0x10CA0]);
   (0x10CE1, [0x10CA1]); (0x10CE2, [0x10CA2]); (0x10CE3, [0x10CA3]);
   (0x10CE4, [0x10CA4]); (0x10CE5, [0x10CA5]); (0x10CE6, [0x10CA6]);
   (0x10CE7, [0x10CA7]); (0x10CE8, [0x10CA8]); (0x10CE9, [0x10CA9]);
   (0x10CEA, [0x10CAA]); (0x10CEB, [0x10CAB]); (0x10CEC, [0x10CAC]);
   (0x10CED, [0x10CAD]); (0x10CEE, [0x10CAE]); (0x10CEF, [0x10CAF]);
   (0x10CF0, [0x10CB0]); (0x10CF1, [0x10CB1]); (0x10CF2, [0x10CB2]);
   (0x118C0, [0x118A0]); (0x118C1, [0x118A1]); (0x118C2, [0x118A2]);
   (0x118C3, [0x118A3]); (0x118C4, [0x118A4]); (0x118C5, [0x118A5]);
   (0x118C6, [0x118A6]); (0x118C7, [0x118A7]); (0x118C8, [0x118A8]);
   (0x118C9, [0x118A9]); (0x118CA, [0x118AA]); (0x118CB, [0x118AB]);
   (0x118CC, [0x118AC]); (0x118CD, [0x118AD]); (0x118CE, [0x118AE]);
   (0x118CF, [0x118AF]); (0x118D0, [0x118B0]); (0x118D1, [0x118B1]);
   (0x118D2, [0x118B2]); (0x118D3, [0x118B3]); (0x118D4, [0x118B4]);
   (0x118D5, [0x118B5]); (0x118D6, [0x118B6]); (0x118D7, [0x118B7]);
   (0x118D8, [0x118B8]); (0x118D9, [0x118B9]); (0x118DA, [0x118BA]);
   (0x118DB, [0x118BB]); (0x118DC, [0x118BC]); (0x118DD, [0x118BD]);
   (0x118DE, [0x118BE]); (0x118DF, [0x118BF]); (0x16E60, [0x16E40]);
   (0x16E61, [0x16E41]); (0x16E62, [0x16E42]); (0x16E63, [0x16E43]);
   (0x16E64, [0x16E44]); (0x16E65, [0x16E45]); (0x16E66, [0x16E46]);
   (0x16E67, [0x16E47]); (0x16E68, [0x16E48]); (0x16E69, [0x16E49]);
   (0x16E6A, [0x16E4A]); (0x16E6B, [0x16E4B]); (0x16E6C, [0x16E4C]);
   (0x16E6D, [0x16E4D]); (0x16E6E, [0x16E4E]); (0x16E6F, [0x16E4F]);
   (0x16E70, [0x16E50]); (0x16E71, [0x16E51]); (0x16E72, [0x16E52]);
   (0x16E73, [0x16E53]); (0x16E74, [0x16E54]); (0x16E75, [0x16E55]);
   (0x16E76, [0x16E56]); (0x16E77, [0x16E57]); (0x16E78, [0x16E58]);
   (0x16E79, [0x16E59]); (0x16E7A, [0x16E5A]); (0x16E7B, [0x16E5B]);
   (0x16E7C, [0x16E5C]); (0x16E7D, [0x16E5D]); (0x16E7E, [0x16E5E]);
   (0x16E7F, [0x16E5F]); (0x1E922, [0x1E900]); (0x1E923, [0x1E901]);
   (0x1E924, [0x1E902]); (0x1E925, [0x1E903]); (0x1E926, [0x1E904]);
   (0x1E927, [0x1E905]); (0x1E928, [0x1E906]); (0x1E929, [0x1E907]);
   (0x1E92A, [0x1E908]); (0x1E92B, [0x1E909]); (0x1E92C, [0x1E90A]);
   (0x1E92D, [0x1E90B]); (0x1E92E, [0x1E90C]); (0x1E92F, [0x1E90D]);
   (0x1E930, [0x1E90E]); (0x1E931, [0x1E90F]); (0x1E932, [0x1E910]);
   (0x1E933, [0x1E911]); (0x1E934, [0x1E912]); (0x1E935, [0x1E913]);
   (0x1E936, [0x1E914]); (0x1E937, [0x1E915]); (0x1E938, [0x1E916]);
   (0x1E939, [0x1E917]); (0x1E93A, [0x1E918]); (0x1E93B, [0x1E919]);
   (0x1E93C, [0x1E91A]); (0x1E93D, [0x1E91B]); (0x1E93E, [0x1E91C]);
   (0x1E93F, [0x1E91D]); (0x1E940, [0x1E91E]); (0x1E941, [0x1E91F]);
   (0x1E942, [0x1E920]); (0x1E943, [0x1E921])
  ]%N.

Fixpoint lookup_point (c : N) (t : list (N * list N)) : option (list N) :=
  match t with
  | [] => None
  | (d, v) :: t' => if (c =? d)%N then Some v else lookup_point c t'
  end.

(** [_PyUnicode_ToUpperFull] *)
Definition upper_point (c : N) : list N :=
  match lookup_point c upper_table with
  | Some v => v
  | None => [c]
  end.

Definition byte (n : N) : ascii := ascii_of_N n.

(** The UTF-8 bytes of one code point, in front of [s]. *)
Definition encode_point (c : N) (s : string) : string :=
  if (c <? 0x80)%N then String (byte c) s
  else if (c <? 0x800)%N then
    String (byte (0xC0 + c / 64)) (String (byte (0x80 + c mod 64)) s)
  else if (c <? 0x10000)%N then
    String (byte (0xE0 + c / 64 / 64))
      (String (byte (0x80 + (c / 64) mod 64)) (String (byte (0x80 + c mod 64)) s))
  else
    String (byte (0xF0 + c / 64 / 64 / 64))
      (String (byte (0x80 + (c / 64 / 64) mod 64))
         (String (byte (0x80 + (c / 64) mod 64)) (String (byte (0x80 + c mod 64)) s))).

Fixpoint encode (l : list N) : string :=
  match l with
  | [] => EmptyString
  | c :: l' => encode_point c (encode l')
  end.

(** A byte [10xxxxxx] *)
Definition continuation (n : N) : bool := ((0x80 <=? n) && (n <=? 0xBF))%N.

(** The code point of a sequence of two, three or four bytes, when the
    sequence is the encoding of one: a shorter encoding of the same code
    point and a value above U+10FFFF are refused. *)
Definition point2 (n1 n2 : N) : option N :=
  if ((0xC2 <=? n1) && (n1 <=? 0xDF))%N && continuation n2
  then Some ((n1 - 0xC0) * 64 + (n2 - 0x80))%N
  else None.

Definition point3 (n1 n2 n3 : N) : option N :=
  let c := ((n1 - 0xE0) * 4096 + (n2 - 0x80) * 64 + (n3 - 0x80))%N in
  if ((0xE0 <=? n1) && (n1 <=? 0xEF))%N && continuation n2 && continuation n3
     && (0x800 <=? c)%N
  then Some c
  else None.

Definition point4 (n1 n2 n3 n4 : N) : option N :=
  let c := ((n1 - 0xF0) * 262144 + (n2 - 0x80) * 4096 + (n3 - 0x80) * 64
            + (n4 - 0x80))%N in
  if ((0xF0 <=? n1) && (n1 <=? 0xF4))%N && continuation n2 && continuation n3
     && continuation n4 && ((0x10000 <=? c) && (c <=? 0x10FFFF))%N
  then Some c
  else None.

(** The code points of a string.  A byte that does not start an
    encoding stands for no character of a [str] and is passed over. *)
Fixpoint decode (s : string) : list N :=
  match s with
  | EmptyString => []
  | String b1 s1 =>
      let n1 := N_of_ascii b1 in
      if (n1 <? 0x80)%N then n1 :: decode s1
      else
        match s1 with
        | EmptyString => []
        | String b2 s2 =>
            let n2 := N_of_ascii b2 in
            match point2 n1 n2 with
            | Some c => c :: decode s2
            | None =>
                match s2 with
                | EmptyString => decode s1
                | String b3 s3 =>
                    let n3 := N_of_ascii b3 in
                    match point3 n1 n2 n3 with
                    | Some c => c :: decode s3
                    | None =>
                        match s3 with
                        | EmptyString => decode s1
                        | String b4 s4 =>
                            match point4 n1 n2 n3 (N_of_ascii b4) with
                            | Some c => c :: decode s4
                            | None => decode s1
                            end
                        end
                    end
                end
            end
        end
  end.

(** Case mapping has no context: every code point is replaced on its
    own. *)
Definition upper_points (l : list N) : list N := flat_map upper_point l.

(** Leading whitespace removed *)
Fixpoint lstrip (l : list N) : list N :=
  match l with
  | [] => []
  | c :: l' => if is_space c then lstrip l' else l
  end.

(** Trailing whitespace removed *)
Definition rstrip (l : list N) : list N := rev (lstrip (rev l)).

(** [s.upper()] *)
Definition upper (s : string) : string := encode (upper_points (decode s)).

(** [s.strip()] *)
Definition strip (s : string) : string := encode (lstrip (rstrip (decode s))).

(** Truth value of a string: [not s] holds for the empty string only. *)
Definition is_empty (s : string) : bool :=
  match s with EmptyString => true | _ => false end.

Definition newline : string := String (ascii_of_nat 10) EmptyString.

(** U+00A0, the no-break space *)
Definition no_break_space : string := encode [0xA0%N].

(** The code points of Unicode, the surrogates included as in a [str]. *)
Definition valid_point (c : N) : Prop := (c < 0x110000)%N.

(** What the table is checked for: no entry is for a whitespace
    character; a replacement is not empty and consists of code points
    that are not whitespace and that [upper] does not change. *)
Definition stable_point (d : N) : bool :=
  negb (is_space d) && (d <? 0x110000)%N
  && match lookup_point d upper_table with None => true | Some _ => false end.

Definition stable_entry (e : N * list N) : bool :=
  negb (is_space (fst e))
  && match snd e with [] => false | _ => true end
  && forallb stable_point (snd e).

End Str.


(** ** Values, exceptions and the services of the interpreter *)

Definition loc := positive.

(** The values a decoded JSON document or a metadata dictionary can hold.
    Lists, dictionaries and other objects are references. *)
Inductive PyVal : Type :=
| PyNone
| PyBool (b : bool)
| PyInt (z : Z)
| PyFloat (f : float)
| PyStr (s : string)
| PyRef (l : loc).

Inductive exn : Type :=
| TypeError
| ValueError
| OverflowError
| ZeroDivisionError
| AttributeError.

Inductive outcome (A : Type) : Type :=
| Ok (a : A)
| Raise (e : exn).
Arguments Ok {A} a.
Arguments Raise {A} e.

(** What the program takes from the interpreter and the C library and
    that the repository does not define: parsing a decimal numeral
    ([float] applied to a [str]), [str()] of a value that is not a string
    (used by f-strings), and the functions [log] and [exp] of libm. *)
Record Runtime : Type := {
  float_of_str : string -> option float;
  str_of_value : PyVal -> string;
  libm_log : float -> float;
  libm_exp : float -> float
}.

Module Float.

(** Conversion of an [int], rounded to nearest even. *)
Definition of_Z (z : Z) : float := SF2Prim (binary_normalize prec emax z 0 false).

Definition of_nat (n : nat) : float := of_Z (Z.of_nat n).

(** [float("inf")] *)
Definition inf : float := infinity.

(** [float(v)] *)
Definition py_float (rt : Runtime) (v : PyVal) : outcome float :=
  match v with
  | PyNone => Raise TypeError
  | PyBool b => Ok (if b then 1%float else 0%float)
  | PyInt z =>
      let f := of_Z z in
      if is_infinity f then Raise OverflowError else Ok f
  | PyFloat f => Ok f
  | PyStr s =>
      match float_of_str rt s with
      | Some f => Ok f
      | None => Raise ValueError
      end
  | PyRef _ => Raise TypeError
  end.

(** [a / b] on two [int]s.  The quotient is the one of the converted
    operands, which is CPython's result when both are below [2^53], as
    every count of list elements is. *)
Definition int_truediv (a b : nat) : outcome float :=
  match b with
  | O => Raise ZeroDivisionError
  | _ => Ok (of_nat a / of_nat b)%float
  end.

(** [x / n] with [x] a [float] and [n] an [int]. *)
Definition float_int_truediv (x : float) (n : nat) : outcome float :=
  match n with
  | O => Raise ZeroDivisionError
  | _ => Ok (x / of_nat n)%float
  end.

(** [x / y] on two [float]s. *)
Definition truediv (x y : float) : outcome float :=
  if (y =? 0)%float then Raise ZeroDivisionError else Ok (x / y)%float.

(** [max(a, b)]: the first argument unless the second is greater. *)
Definition max (a b : float) : float := if (a <? b)%float then b else a.

(** [math.log(x)]: a domain error unless [x] is positive, infinite or
    not a number. *)
Definition math_log (rt : Runtime) (x : float) : outcome float :=
  if (x <=? 0)%float then Raise ValueError else Ok (libm_log rt x).

(** [math.exp(x)].  CPython reports a range error when the result
    overflows on a finite argument, which needs an argument above 709.
    This program passes [- log_likelihood / n] and [- log(max(accuracy,
    0.01))], where every logarithm is taken of a number that is at least
    1e-10, infinite or not a number: a finite argument stays near 23 at
    most, so the error is not represented. *)
Definition math_exp (rt : Runtime) (x : float) : float := libm_exp rt x.

End Float.

(** ** The exception monad of pure computations *)

Definition obind {A B : Type} (o : outcome A) (k : A -> outcome B) : outcome B :=
  match o with
  | Ok a => k a
  | Raise e => Raise e
  end.

Notation "'let?' x := o 'in' k" := (obind o (fun x => k))
  (at level 10, x name, o at level 100, k at level 200).

(** ** What [compute_aggregate] takes from the interpreter *)

(** The built-in [sum] over floats (a plain or a compensated summation,
    by the version of the interpreter) and [x ** 2] on a float, which
    goes through libm's [pow] and reports a range error by the platform's
    rules.  Neither is defined by the repository. *)
Record Numerics : Type := {
  float_sum : list float -> float;
  float_square : float -> outcome float
}.

Module Math.

(** [math.isinf(x)] *)
Definition isinf (x : float) : bool := is_infinity x.

(** [math.sqrt(x)]: the correctly rounded root, and a domain error when
    it is not a number although [x] is one (a negative [x]). *)
Definition sqrt (x : float) : outcome float :=
  let r := PrimFloat.sqrt x in
  if is_nan r && negb (is_nan x) then Raise ValueError
  else if is_infinity r && is_finite x then Raise ValueError
  else Ok r.

End Math.

(** ** [ace/metrics.py] *)

Module MetricsCalculator.

Record t : Type := {
  predictions : list string;
  labels : list string;
  probabilities : list float
}.

(** [reset] binds the three attributes to new empty lists. *)
Definition reset (self : t) : t :=
  {| predictions := []; labels := []; probabilities := [] |}.

(** [__init__] only calls [reset]. *)
Definition new : t := {| predictions := []; labels := []; probabilities := [] |}.

Definition add (self : t) (prediction label : string) (probability : option float) : t :=
  {| predictions := predictions self ++ [prediction];
     labels := labels self ++ [label];
     probabilities :=
       match probability with
       | Some p => probabilities self ++ [p]
       | None => probabilities self
       end |}.

(** [sum(1 for x in xs if f x)] *)
Definition count_if {A : Type} (f : A -> bool) (xs : list A) : nat :=
  length (List.filter f xs).

(** Insertion into a strictly increasing list. *)
Fixpoint insert_class (x : string) (l : list string) : list string :=
  match l with
  | [] => [x]
  | y :: l' =>
      match String.compare x y with
      | Lt => x :: l
      | Eq => l
      | Gt => y :: insert_class x l'
      end
  end.

(** [sorted(set(xs))] *)
Definition sorted_set (xs : list string) : list string :=
  fold_right insert_class [] xs.

(** ["X" in xs] *)
Definition mem (x : string) (xs : list string) : bool :=
  existsb (String.eqb x) xs.

(** Lines 62-73: the class counted as positive. *)
Definition positive_class_of (unique_classes : list string) : string :=
  match unique_classes with
  | [] => "X"
  | [c] => c
  | c0 :: c1 :: rest =>
      if mem "X" unique_classes then "X"
      else match rest with
           | [] => c1
           | _ => c0
           end
  end.

Definition positive_class (self : t) : string :=
  positive_class_of (sorted_set (labels self)).

Definition pairs (self : t) : list (string * string) :=
  combine (predictions self) (labels self).

Definition true_positives (self : t) (c : string) : nat :=
  count_if (fun pl => String.eqb (fst pl) c && String.eqb (snd pl) c) (pairs self).

Definition false_positives (self : t) (c : string) : nat :=
  count_if (fun pl => String.eqb (fst pl) c && negb (String.eqb (snd pl) c)) (pairs self).

Definition false_negatives (self : t) (c : string) : nat :=
  count_if (fun pl => negb (String.eqb (fst pl) c) && String.eqb (snd pl) c) (pairs self).

Definition true_negatives (self : t) (c : string) : nat :=
  count_if (fun pl => negb (String.eqb (fst pl) c) && negb (String.eqb (snd pl) c)) (pairs self).

(** Lines 117-129: the loop over [zip(probabilities, predictions, labels)]. *)
Fixpoint log_likelihood_loop (rt : Runtime) (log_likelihood : float)
    (rows : list (float * (string * string))) : outcome float :=
  match rows with
  | [] => Ok log_likelihood
  | (prob, (pred, label)) :: rows' =>
      let actual_prob :=
        if String.eqb pred label
        then Float.max prob 1e-10%float
        else Float.max (1 - prob)%float 1e-10%float in
      let? l := Float.math_log rt actual_prob in
      log_likelihood_loop rt (log_likelihood + l)%float rows'
  end.

(** Lines 114-143. *)
Definition perplexity (rt : Runtime) (self : t) (accuracy : float) : outcome float :=
  if negb (bool_decide (probabilities self = []))
     && (length (probabilities self) =? length (predictions self))%nat
  then
    let? log_likelihood :=
      log_likelihood_loop rt 0%float
        (combine (probabilities self) (combine (predictions self) (labels self))) in
    let? avg_neg_log_likelihood :=
      Float.float_int_truediv (- log_likelihood)%float (length (probabilities self)) in
    Ok (Float.math_exp rt avg_neg_log_likelihood)
  else if (0 <? accuracy)%float
  then
    let? l := Float.math_log rt (Float.max accuracy 0.01%float) in
    Ok (Float.math_exp rt (- l)%float)
  else Ok Float.inf.

Definition compute (rt : Runtime) (self : t) : outcome (gmap string float) :=
  match predictions self, labels self with
  | [], _ | _, [] =>
      Ok (<["perplexity" := Float.inf]> (<["f1" := 0%float]> (<["recall" := 0%float]>
         (<["precision" := 0%float]> (<["accuracy" := 0%float]> ∅)))))
  | _, _ =>
      let correct := count_if (fun pl => String.eqb (fst pl) (snd pl)) (pairs self) in
      let? accuracy := Float.int_truediv correct (length (predictions self)) in
      let c := positive_class self in
      let tp := true_positives self c in
      let fp := false_positives self c in
      let fn := false_negatives self c in
      let tn := true_negatives self c in
      let? precision :=
        if (0 <? tp + fp)%nat then Float.int_truediv tp (tp + fp) else Ok 0%float in
      let? recall :=
        if (0 <? tp + fn)%nat then Float.int_truediv tp (tp + fn) else Ok 0%float in
      let? f1 :=
        if (0 <? precision + recall)%float
        then Float.truediv (2 * precision * recall)%float (precision + recall)%float
        else Ok 0%float in
      let? ppl := perplexity rt self accuracy in
      Ok (<["perplexity" := ppl]> (<["f1" := f1]> (<["recall" := recall]>
         (<["precision" := precision]> (<["accuracy" := accuracy]> ∅)))))
  end.

(** Line 164: the values of [key] over the steps that have it, the
    infinite ones left out. *)
Definition finite_values (step_results : list (gmap string float)) (key : string)
    : list float :=
  omap (fun r : gmap string float =>
          match r !! key with
          | Some v => if Math.isinf v then None else Some v
          | None => None
          end) step_results.

(** The generator [(v - mean) ** 2 for v in values], consumed in order. *)
Fixpoint squared_deviations (nm : Numerics) (mean : float) (values : list float)
    : outcome (list float) :=
  match values with
  | [] => Ok []
  | v :: values' =>
      let? sq := float_square nm (v - mean)%float in
      let? rest := squared_deviations nm mean values' in
      Ok (sq :: rest)
  end.

(** Lines 164-173: the mean and the standard deviation of one key. *)
Definition aggregate_key (nm : Numerics) (step_results : list (gmap string float))
    (key : string) : outcome (float * float) :=
  let values := finite_values step_results key in
  match values with
  | [] => Ok (0%float, 0%float)
  | _ =>
      let? mean := Float.float_int_truediv (float_sum nm values) (length values) in
      let? squares := squared_deviations nm mean values in
      let? variance := Float.float_int_truediv (float_sum nm squares) (length values) in
      let? std := Math.sqrt variance in
      Ok (mean, std)
  end.

(** The loop of lines 163-173 over a list of keys. *)
Fixpoint aggregate_keys (nm : Numerics) (step_results : list (gmap string float))
    (keys : list string) (aggregates : gmap string float)
    : outcome (gmap string float) :=
  match keys with
  | [] => Ok aggregates
  | key :: keys' =>
      let? ms := aggregate_key nm step_results key in
      aggregate_keys nm step_results keys'
        (<[key +:+ "_std" := snd ms]> (<[key +:+ "_mean" := fst ms]> aggregates))
  end.

(** [compute_aggregate(step_results)].  The keys of the first step are
    visited in the order of [map_to_list], not in the insertion order
    that CPython follows: the two agree on whether the call returns and
    on the dictionary it returns, and differ at most in which key's
    error is the one raised. *)
Definition compute_aggregate (nm : Numerics) (step_results : list (gmap string float))
    : outcome (gmap string float) :=
  match step_results with
  | [] => Ok ∅
  | first :: _ =>
      aggregate_keys nm step_results (map fst (map_to_list first)) ∅
  end.

End MetricsCalculator.

(** ** Samples, outputs and results *)

(** The base [Sample] of the adaptation core.  [metadata] refers to a
    dictionary object of the store. *)
Module Sample.
Record t : Type := {
  question : string;
  context : string;
  ground_truth : option string;
  metadata : loc
}.
End Sample.

(** [PatentSample(Sample)]: the inherited fields and the two new ones.
    A dataclass does not check the annotations, so [claim] and
    [paragraph] hold whatever the caller passed. *)
Module PatentSample.
Record t : Type := {
  base : Sample.t;
  claim : PyVal;
  paragraph : PyVal
}.
End PatentSample.

Module GeneratorOutput.
Record t : Type := {
  reasoning : string;
  final_answer : string;
  bullet_ids : list string;
  raw : gmap string PyVal
}.
End GeneratorOutput.

Module EnvironmentResult.
Record t : Type := {
  feedback : string;
  ground_truth : string;
  metrics : gmap string float
}.
End EnvironmentResult.

Module PatentEnvironmentResult.
Record t : Type := {
  base : EnvironmentResult.t;
  prediction : string;
  probability : option float
}.
End PatentEnvironmentResult.

(** What [evaluate] returns: an instance of the base class or of the
    patent subclass. *)
Inductive result : Type :=
| BaseResult (r : EnvironmentResult.t)
| PatentResult (r : PatentEnvironmentResult.t).

Definition result_base (r : result) : EnvironmentResult.t :=
  match r with
  | BaseResult b => b
  | PatentResult p => PatentEnvironmentResult.base p
  end.

Definition result_metrics (r : result) : gmap string float :=
  EnvironmentResult.metrics (result_base r).

(** ** The store and the monad of methods *)

Inductive object : Type :=
| OSample (s : Sample.t)
| OPatentSample (s : PatentSample.t)
| ODict (d : gmap string PyVal).

(** The state of a [PatentMatchEnvironment]. *)
Module Env.
Record t : Type := {
  metrics_calculator : MetricsCalculator.t;
  step_metrics : list (gmap string float)
}.
End Env.

Record world : Type := {
  store : gmap loc object;
  self : Env.t
}.

Definition M (A : Type) : Type := world -> outcome A * world.

Definition ret {A : Type} (a : A) : M A := fun w => (Ok a, w).

Definition bind {A B : Type} (m : M A) (k : A -> M B) : M B := fun w =>
  match m w with
  | (Ok a, w') => k a w'
  | (Raise e, w') => (Raise e, w')
  end.

Notation "x <- m ;; k" := (bind m (fun x => k))
  (at level 100, m at next level, right associativity).

Definition raise {A : Type} (e : exn) : M A := fun w => (Raise e, w).

Definition lift {A : Type} (o : outcome A) : M A := fun w => (o, w).

Definition get_self : M Env.t := fun w => (Ok (self w), w).

Definition set_self (e : Env.t) : M unit :=
  fun w => (Ok tt, {| store := store w; self := e |}).

(** Creation of an object at an unused location. *)
Definition alloc (o : object) : M loc := fun w =>
  let l := fresh (dom (store w)) in
  (Ok l, {| store := <[l := o]> (store w); self := self w |}).

Definition write (l : loc) (o : object) : M unit := fun w =>
  (Ok tt, {| store := <[l := o]> (store w); self := self w |}).

(** The fields every sample has; [AttributeError] on anything else. *)
Definition sample_fields (l : loc) : M Sample.t := fun w =>
  match store w !! l with
  | Some (OSample s) => (Ok s, w)
  | Some (OPatentSample p) => (Ok (PatentSample.base p), w)
  | _ => (Raise AttributeError, w)
  end.

(** [isinstance(sample, PatentSample)] *)
Definition is_patent_sample (l : loc) : M bool := fun w =>
  match store w !! l with
  | Some (OPatentSample _) => (Ok true, w)
  | _ => (Ok false, w)
  end.

(** [d.get(key, default)] on the dictionary at [l]. *)
Definition dict_get (l : loc) (key : string) (default : PyVal) : M PyVal := fun w =>
  match store w !! l with
  | Some (ODict d) =>
      (Ok (match d !! key with Some v => v | None => default end), w)
  | _ => (Raise AttributeError, w)
  end.

(** ** [ace/patent.py] *)

(** A value inside an f-string. *)
Definition format_value (rt : Runtime) (v : PyVal) : string :=
  match v with
  | PyStr s => s
  | _ => str_of_value rt v
  end.

(** [PatentSample.__post_init__] *)
Definition post_init (rt : Runtime) (this : loc) : M unit := fun w =>
  match store w !! this with
  | Some (OPatentSample p) =>
      if Str.is_empty (Sample.question (PatentSample.base p))
      then
        let q := "Claim: " +:+ format_value rt (PatentSample.claim p)
                 +:+ Str.newline +:+ Str.newline
                 +:+ "Paragraph: " +:+ format_value rt (PatentSample.paragraph p) in
        write this
          (OPatentSample
             {| PatentSample.base :=
                  {| Sample.question := q;
                     Sample.context := Sample.context (PatentSample.base p);
                     Sample.ground_truth := Sample.ground_truth (PatentSample.base p);
                     Sample.metadata := Sample.metadata (PatentSample.base p) |};
                PatentSample.claim := PatentSample.claim p;
                PatentSample.paragraph := PatentSample.paragraph p |}) w
      else (Ok tt, w)
  | _ => (Raise AttributeError, w)
  end.

(** [PatentSample(...)]: the generated [__init__] stores the arguments,
    then calls [__post_init__]. *)
Definition new_PatentSample (rt : Runtime) (question context : string)
    (ground_truth : option string) (metadata : loc) (claim paragraph : PyVal) : M loc :=
  this <- alloc (OPatentSample
                  {| PatentSample.base :=
                       {| Sample.question := question;
                          Sample.context := context;
                          Sample.ground_truth := ground_truth;
                          Sample.metadata := metadata |};
                     PatentSample.claim := claim;
                     PatentSample.paragraph := paragraph |}) ;;
  _ <- post_init rt this ;;
  ret this.

(** Lines 88-93 of [evaluate]. *)
Definition extract_probability (rt : Runtime) (raw : gmap string PyVal)
    : outcome (option float) :=
  match raw !! "confidence" with
  | Some v => let? f := Float.py_float rt v in Ok (Some f)
  | None =>
      match raw !! "probability" with
      | Some v => let? f := Float.py_float rt v in Ok (Some f)
      | None => Ok None
      end
  end.

(** [prediction in {"X", "A"}] *)
Definition valid_label (prediction : string) : bool :=
  String.eqb prediction "X" || String.eqb prediction "A".

(** Lines 108-124 of [evaluate]. *)
Definition feedback_for (prediction ground_truth : string) : string :=
  if String.eqb prediction ground_truth
  then
    if String.eqb prediction "X"
    then "Correct: The paragraph does break novelty (X classification)"
    else "Correct: The paragraph does not break novelty (A classification)"
  else
    if String.eqb prediction "X"
    then "Incorrect: Classified as X (match) but should be A (no match). "
         +:+ "The paragraph does not contain all key features of the claim."
    else "Incorrect: Classified as A (no match) but should be X (match). "
         +:+ "The paragraph actually describes the same invention and breaks novelty.".

Module PatentMatchEnvironment.

(** [__init__] *)
Definition new : Env.t :=
  {| Env.metrics_calculator := MetricsCalculator.new; Env.step_metrics := [] |}.

(** Lines 75-83 of [evaluate]: a sample of another class is replaced,
    in the local variable only, by a new [PatentSample] that shares its
    metadata dictionary. *)
Definition as_patent_sample (rt : Runtime) (sample : loc) : M loc :=
  patent <- is_patent_sample sample ;;
  if patent then ret sample
  else
    s <- sample_fields sample ;;
    claim <- dict_get (Sample.metadata s) "claim" (PyStr "") ;;
    paragraph <- dict_get (Sample.metadata s) "paragraph" (PyStr "") ;;
    new_PatentSample rt "" (Sample.context s) (Sample.ground_truth s)
      (Sample.metadata s) claim paragraph.

Definition evaluate (rt : Runtime) (sample : loc)
    (generator_output : GeneratorOutput.t) : M result :=
  sample <- as_patent_sample rt sample ;;
  s <- sample_fields sample ;;
  let ground_truth :=
    Str.upper (Str.strip (match Sample.ground_truth s with
                          | Some g => g
                          | None => ""
                          end)) in
  let prediction := Str.upper (Str.strip (GeneratorOutput.final_answer generator_output)) in
  probability <- lift (extract_probability rt (GeneratorOutput.raw generator_output)) ;;
  if negb (valid_label prediction)
  then
    let feedback := "Invalid classification '" +:+ prediction
                    +:+ "'. Must be 'X' (match) or 'A' (no match)." in
    ret (BaseResult
            {| EnvironmentResult.feedback := feedback;
               EnvironmentResult.ground_truth := ground_truth;
               EnvironmentResult.metrics :=
                 <["error" := 1%float]> (<["accuracy" := 0%float]> ∅) |})
  else
    let feedback := feedback_for prediction ground_truth in
    env <- get_self ;;
    let calc := MetricsCalculator.add (Env.metrics_calculator env)
                  prediction ground_truth probability in
    _ <- set_self {| Env.metrics_calculator := calc;
                    Env.step_metrics := Env.step_metrics env |} ;;
    current_metrics <- lift (MetricsCalculator.compute rt calc) ;;
    env <- get_self ;;
    _ <- set_self {| Env.metrics_calculator := Env.metrics_calculator env;
                    Env.step_metrics := Env.step_metrics env ++ [current_metrics] |} ;;
    ret (PatentResult
            {| PatentEnvironmentResult.base :=
                 {| EnvironmentResult.feedback := feedback;
                    EnvironmentResult.ground_truth := ground_truth;
                    EnvironmentResult.metrics := current_metrics |};
               PatentEnvironmentResult.prediction := prediction;
               PatentEnvironmentResult.probability := probability |}).

Definition reset_metrics : M unit :=
  env <- get_self ;;
  set_self {| Env.metrics_calculator := MetricsCalculator.reset (Env.metrics_calculator env);
              Env.step_metrics := [] |}.

Definition get_aggregate_metrics (nm : Numerics) : M (gmap string float) :=
  env <- get_self ;;
  lift (MetricsCalculator.compute_aggregate nm (Env.step_metrics env)).

End PatentMatchEnvironment.

(** ** The playbook of the adaptation core *)

Module Playbook.

(** Modelled from the spec: the [Bullet] record of [ace/playbook.py],
    which is not among the sources; the fields are those of the data
    model, the identifier being the value of the playbook's counter. *)
Record Bullet : Type := {
  id : nat;
  section : string;
  content : string;
  helpful_count : nat;
  harmful_count : nat
}.

(** Modelled from the spec: the [Playbook] store, an ordered mapping from
    section names to ordered sequences of bullets together with a
    monotonically increasing identifier counter. *)
Record t : Type := {
  sections : list (string * list Bullet);
  next_id : nat
}.

(** Modelled from the spec: a playbook is created empty. *)
Definition empty : t := {| sections := []; next_id := 0 |}.

(** Modelled from the spec: [bullets()], the snapshot of all bullets,
    section by section in insertion order. *)
Definition bullets (pb : t) : list Bullet :=
  concat (map snd (sections pb)).

(** Modelled from the spec: appending a bullet to its section, which is
    created at the end when it does not exist yet. *)
Fixpoint append_to (name : string) (b : Bullet) (secs : list (string * list Bullet))
    : list (string * list Bullet) :=
  match secs with
  | [] => [(name, [b])]
  | (n, bs) :: secs' =>
      if String.eqb n name then (n, (bs ++ [b])%list) :: secs'
      else (n, bs) :: append_to name b secs'
  end.

(** Modelled from the spec: [add(section, content) -> id] creates a
    bullet with a fresh identifier and never fails. *)
Definition add (name text : string) (pb : t) : nat * t :=
  let b := {| id := next_id pb; section := name; content := text;
              helpful_count := 0; harmful_count := 0 |} in
  (next_id pb,
   {| sections := append_to name b (sections pb); next_id := S (next_id pb) |}).

(** Modelled from the spec: whether a bullet with this identifier is
    present. *)
Definition known (i : nat) (pb : t) : bool :=
  existsb (fun b => Nat.eqb (id b) i) (bullets pb).

(** Modelled from the spec: a change applied in place to the bullet with
    identifier [i]. *)
Definition alter_bullet (f : Bullet -> Bullet) (i : nat) (pb : t) : t :=
  {| sections :=
       map (fun s => (fst s, map (fun b => if Nat.eqb (id b) i then f b else b) (snd s)))
           (sections pb);
     next_id := next_id pb |}.

(** Modelled from the spec: [update(id, content)] replaces the content
    and fails with [UnknownBulletError] ([None]) on an absent identifier. *)
Definition update (i : nat) (text : string) (pb : t) : option t :=
  if known i pb
  then Some (alter_bullet
               (fun b => {| id := id b; section := section b; content := text;
                            helpful_count := helpful_count b;
                            harmful_count := harmful_count b |}) i pb)
  else None.

(** Modelled from the spec: [tag(id, helpful)] increments the matching
    counter and fails on an absent identifier. *)
Definition tag (i : nat) (helpful : bool) (pb : t) : option t :=
  if known i pb
  then Some (alter_bullet
               (fun b => {| id := id b; section := section b; content := content b;
                            helpful_count :=
                              if helpful then S (helpful_count b) else helpful_count b;
                            harmful_count :=
                              if helpful then harmful_count b else S (harmful_count b) |})
               i pb)
  else None.

(** Modelled from the spec: [remove(id)] deletes the bullet from its
    section and fails on an absent identifier. *)
Definition remove (i : nat) (pb : t) : option t :=
  if known i pb
  then Some {| sections :=
                 map (fun s => (fst s, List.filter (fun b => negb (Nat.eqb (id b) i)) (snd s)))
                     (sections pb);
               next_id := next_id pb |}
  else None.

(** Modelled from the spec: the four kinds of curator operations. *)
Inductive Operation : Type :=
| ADD (name text : string)
| UPDATE (bullet_id : nat) (text : string)
| TAG (bullet_id : nat) (helpful : bool)
| REMOVE (bullet_id : nat).

(** Modelled from the spec: the trace of a batch, the identifiers
    returned by its ADD operations in order and the number of operations
    dropped for naming an unknown identifier. *)
Record trace : Type := {
  added : list nat;
  dropped : nat
}.

(** Modelled from the spec: operations are applied in emitted order; one
    that names an unknown identifier is skipped and counted. *)
Fixpoint apply_operations (ops : list Operation) (pb : t) (tr : trace) : t * trace :=
  match ops with
  | [] => (pb, tr)
  | op :: ops' =>
      let skip := {| added := added tr; dropped := S (dropped tr) |} in
      match op with
      | ADD name text =>
          let '(i, pb') := add name text pb in
          apply_operations ops' pb' {| added := added tr ++ [i]; dropped := dropped tr |}
      | UPDATE i text =>
          match update i text pb with
          | Some pb' => apply_operations ops' pb' tr
          | None => apply_operations ops' pb skip
          end
      | TAG i helpful =>
          match tag i helpful pb with
          | Some pb' => apply_operations ops' pb' tr
          | None => apply_operations ops' pb skip
          end
      | REMOVE i =>
          match remove i pb with
          | Some pb' => apply_operations ops' pb' tr
          | None => apply_operations ops' pb skip
          end
      end
  end.

(** Modelled from the spec: a run of the curation protocol from the
    empty playbook. *)
Definition run (ops : list Operation) : t * trace :=
  apply_operations ops empty {| added := []; dropped := 0 |}.

End Playbook.

(** ** Calls, well-formed arguments and concrete inputs *)

(** The argument [l] of [evaluate] is a sample whose [ground_truth] is
    [gt]: a [PatentSample], or a base [Sample] whose [metadata] is a
    dictionary. *)
Definition is_sample (w : world) (l : loc) (gt : option string) : Prop :=
  (exists p, store w !! l = Some (OPatentSample p)
             /\ Sample.ground_truth (PatentSample.base p) = gt)
  \/ (exists s d, store w !! l = Some (OSample s)
                  /\ store w !! Sample.metadata s = Some (ODict d)
                  /\ Sample.ground_truth s = gt).

(** [final_answer.strip().upper()] *)
Definition normalized_answer (g : GeneratorOutput.t) : string :=
  Str.upper (Str.strip (GeneratorOutput.final_answer g)).

(** [g] with its [final_answer] replaced. *)
Definition with_final_answer (g : GeneratorOutput.t) (a : string) : GeneratorOutput.t :=
  {| GeneratorOutput.reasoning := GeneratorOutput.reasoning g;
     GeneratorOutput.final_answer := a;
     GeneratorOutput.bullet_ids := GeneratorOutput.bullet_ids g;
     GeneratorOutput.raw := GeneratorOutput.raw g |}.

(** A caller that evaluates one pair after the other on the same
    environment, going on after an exception. *)
Fixpoint evaluate_all (rt : Runtime) (calls : list (loc * GeneratorOutput.t))
    (w : world) : world :=
  match calls with
  | [] => w
  | (l, g) :: calls' =>
      evaluate_all rt calls' (snd (PatentMatchEnvironment.evaluate rt l g w))
  end.

(** A runtime to run the model with: its numeral parser accepts nothing
    and its [log] and [exp] are the identity.  It is used on inputs whose
    outcome does not depend on these three functions. *)
Definition plain_runtime : Runtime :=
  {| float_of_str := fun _ => None;
     str_of_value := fun _ => "object";
     libm_log := fun x => x;
     libm_exp := fun x => x |}.

Definition output (answer : string) (raw : gmap string PyVal) : GeneratorOutput.t :=
  {| GeneratorOutput.reasoning := "Both features are present";
     GeneratorOutput.final_answer := answer;
     GeneratorOutput.bullet_ids := [];
     GeneratorOutput.raw := raw |}.

(** A new environment and a store with an empty dictionary at 1, a
    [PatentSample] labelled X at 2 and a base [Sample] labelled A at 3. *)
Definition demo_world : world :=
  {| store :=
       <[3%positive := OSample
           {| Sample.question := "Does this match?";
              Sample.context := "";
              Sample.ground_truth := Some "A";
              Sample.metadata := 1%positive |}]>
       (<[2%positive := OPatentSample
           {| PatentSample.base :=
                {| Sample.question := "Claim: a device";
                   Sample.context := "";
                   Sample.ground_truth := Some "X";
                   Sample.metadata := 1%positive |};
              PatentSample.claim := PyStr "a device";
              PatentSample.paragraph := PyStr "the invention" |}]>
       (<[1%positive := ODict ∅]> ∅));
     self := PatentMatchEnvironment.new |}.

(** The outcome of [evaluate] once lines 75-83 have run, written without
    the monad: [gt] is the ground truth of the sample, [st] the store and
    [env] the environment at that point. *)
Definition judged (rt : Runtime) (gt : option string) (g : GeneratorOutput.t)
    (st : gmap loc object) (env : Env.t) : outcome result * world :=
  let ground_truth :=
    Str.upper (Str.strip (match gt with Some x => x | None => "" end)) in
  let prediction := normalized_answer g in
  match extract_probability rt (GeneratorOutput.raw g) with
  | Raise e => (Raise e, {| store := st; self := env |})
  | Ok probability =>
      if valid_label prediction
      then
        let calc := MetricsCalculator.add (Env.metrics_calculator env)
                      prediction ground_truth probability in
        match MetricsCalculator.compute rt calc with
        | Raise e =>
            (Raise e,
             {| store := st;
                self := {| Env.metrics_calculator := calc;
                           Env.step_metrics := Env.step_metrics env |} |})
        | Ok m =>
            (Ok (PatentResult
                   {| PatentEnvironmentResult.base :=
                        {| EnvironmentResult.feedback := feedback_for prediction ground_truth;
                           EnvironmentResult.ground_truth := ground_truth;
                           EnvironmentResult.metrics := m |};
                      PatentEnvironmentResult.prediction := prediction;
                      PatentEnvironmentResult.probability := probability |}),
             {| store := st;
                self := {| Env.metrics_calculator := calc;
                           Env.step_metrics := Env.step_metrics env ++ [m] |} |})
        end
      else
        (Ok (BaseResult
               {| EnvironmentResult.feedback :=
                    "Invalid classification '" +:+ prediction
                    +:+ "'. Must be 'X' (match) or 'A' (no match).";
                  EnvironmentResult.ground_truth := ground_truth;
                  EnvironmentResult.metrics :=
                    <["error" := 1%float]> (<["accuracy" := 0%float]> ∅) |}),
         {| store := st; self := env |})
  end.

(** [a / b] when [b] is positive and [0.0] otherwise, as the claims
    about precision and recall word it. *)
Definition ratio (a b : nat) : float :=
  if (0 <? b)%nat then (Float.of_nat a / Float.of_nat b)%float else 0%float.

(** The five names of a computed metrics dictionary. *)
Definition metric_names : gset string :=
  {[ "accuracy"; "precision"; "recall"; "f1"; "perplexity" ]}.

(** Numerics to run the model with: a left-to-right sum and a square by
    multiplication that reports no error. *)
Definition plain_numerics : Numerics :=
  {| float_sum := fun xs => fold_left (fun a x => (a + x)%float) xs 0%float;
     float_square := fun x => Ok (x * x)%float |}.

(** [ground_truth] as [evaluate] reads it:
    [(sample.ground_truth or "").strip().upper()]. *)
Definition normalized_truth (gt : option string) : string :=
  Str.upper (Str.strip (match gt with Some x => x | None => "" end)).

(** The shape of an environment that only [evaluate] and [reset_metrics]
    have touched: one label and one step dictionary, with the five
    metric names, per recorded prediction, and at most as many
    probabilities. *)
Definition balanced (env : Env.t) : Prop :=
  let calc := Env.metrics_calculator env in
  length (MetricsCalculator.labels calc) = length (MetricsCalculator.predictions calc)
  /\ length (Env.step_metrics env) = length (MetricsCalculator.predictions calc)
  /\ length (MetricsCalculator.probabilities calc)
     <= length (MetricsCalculator.predictions calc)
  /\ Forall (fun m : gmap string float => dom m = metric_names) (Env.step_metrics env).

(** The calculator with its probabilities forgotten. *)
Definition without_probabilities (calc : MetricsCalculator.t) : MetricsCalculator.t :=
  {| MetricsCalculator.predictions := MetricsCalculator.predictions calc;
     MetricsCalculator.labels := MetricsCalculator.labels calc;
     MetricsCalculator.probabilities := [] |}.

(** The object that lines 77-83 create for a base [Sample]. *)
Definition converted (rt : Runtime) (s : Sample.t) (d : gmap string PyVal) : PatentSample.t :=
  let claim := match d !! "claim" with Some v => v | None => PyStr "" end in
  let paragraph := match d !! "paragraph" with Some v => v | None => PyStr "" end in
  {| PatentSample.base :=
       {| Sample.question :=
            "Claim: " +:+ format_value rt claim +:+ Str.newline +:+ Str.newline
            +:+ "Paragraph: " +:+ format_value rt paragraph;
          Sample.context := Sample.context s;
          Sample.ground_truth := Sample.ground_truth s;
          Sample.metadata := Sample.metadata s |};
     PatentSample.claim := claim;
     PatentSample.paragraph := paragraph |}.

(** A new environment and a store with one [PatentSample] that has no
    ground truth, at 2. *)
Definition unlabelled_world : world :=
  {| store :=
       <[2%positive := OPatentSample
           {| PatentSample.base :=
                {| Sample.question := "Claim: a device";
                   Sample.context := "";
                   Sample.ground_truth := None;
                   Sample.metadata := 1%positive |};
              PatentSample.claim := PyStr "a device";
              PatentSample.paragraph := PyStr "the invention" |}]>
       (<[1%positive := ODict ∅]> ∅);
     self := PatentMatchEnvironment.new |}.

(** The accuracy and the F1 score as [compute] forms them. *)
Definition accuracy_value (calc : MetricsCalculator.t) : float :=
  (Float.of_nat
     (MetricsCalculator.count_if (fun pl => String.eqb (fst pl) (snd pl))
        (MetricsCalculator.pairs calc))
   / Float.of_nat (length (MetricsCalculator.predictions calc)))%float.

Definition f1_score (p r : float) : float :=
  if (0 <? p + r)%float then (2 * p * r / (p + r))%float else 0%float.

(** The object that [PatentSample(...)] leaves in the store. *)
Definition constructed (rt : Runtime) (question context : string)
    (ground_truth : option string) (metadata : loc) (claim paragraph : PyVal)
    : PatentSample.t :=
  {| PatentSample.base :=
       {| Sample.question :=
            if Str.is_empty question
            then "Claim: " +:+ format_value rt claim +:+ Str.newline +:+ Str.newline
                 +:+ "Paragraph: " +:+ format_value rt paragraph
            else question;
          Sample.context := context;
          Sample.ground_truth := ground_truth;
          Sample.metadata := metadata |};
     PatentSample.claim := claim;
     PatentSample.paragraph := paragraph |}.

(** The names [compute_aggregate] derives from the name of a metric. *)
Definition mean_name (key : string) : string := key +:+ "_mean".
Definition std_name (key : string) : string := key +:+ "_std".

(** The ten names of the aggregate of step dictionaries that [compute]
    produced. *)
Definition aggregate_names : gset string :=
  {[ "accuracy_mean"; "accuracy_std"; "precision_mean"; "precision_std";
     "recall_mean"; "recall_std"; "f1_mean"; "f1_std";
     "perplexity_mean"; "perplexity_std" ]}.

(** The last character of a string. *)
Fixpoint last_char (s : string) : option ascii :=
  match s with
  | EmptyString => None
  | String c EmptyString => Some c
  | String _ s' => last_char s'
  end.

(** What every reachable playbook satisfies, [issued] being the
    identifiers returned by ADD so far: they are pairwise distinct and
    below the counter, and the bullets present carry distinct identifiers
    taken from them. *)
Definition consistent (pb : Playbook.t) (issued : list nat) : Prop :=
  List.NoDup issued
  /\ (forall i, In i issued -> i < Playbook.next_id pb)
  /\ List.NoDup (map Playbook.id (Playbook.bullets pb))
  /\ (forall b, In b (Playbook.bullets pb) -> In (Playbook.id b) issued).

(** * Properties *)

(** ** The repository's tests, run on the model *)

(** [test_metrics_calculator_precision_recall_f1]: two true positives,
    one false positive, one false negative and one true negative give
    2/3 three times. *)
Example test_precision_recall_f1 :
  let calc :=
    fold_left (fun c pl => MetricsCalculator.add c (fst pl) (snd pl) None)
      [("X", "X"); ("X", "X"); ("X", "A"); ("A", "X"); ("A", "A")]
      MetricsCalculator.new in
  exists m,
    MetricsCalculator.compute plain_runtime calc = Ok m
    /\ m !! "precision" = Some 0.66666666666666663%float
    /\ m !! "recall" = Some 0.66666666666666663%float
    /\ m !! "f1" = Some 0.66666666666666663%float.
Proof. eexists. split; [vm_compute; reflexivity|]. repeat split. Qed.

(** [test_patent_environment_correct_classification] *)
Example test_correct_classification :
  exists r w',
    PatentMatchEnvironment.evaluate plain_runtime 2%positive
      (output "X" (<["confidence" := PyFloat 0.9]> ∅)) demo_world = (Ok r, w')
    /\ EnvironmentResult.feedback (result_base r)
       = "Correct: The paragraph does break novelty (X classification)"
    /\ result_metrics r !! "accuracy" = Some 1%float.
Proof. eexists _, _. split; [vm_compute; reflexivity|]. split; reflexivity. Qed.

(** [test_patent_environment_incorrect_classification], on a base
    [Sample]: the answer X against the ground truth A. *)
Example test_incorrect_classification :
  exists r w',
    PatentMatchEnvironment.evaluate plain_runtime 3%positive (output "X" ∅) demo_world
    = (Ok r, w')
    /\ String.prefix "Incorrect" (EnvironmentResult.feedback (result_base r)) = true
    /\ result_metrics r !! "accuracy" = Some 0%float.
Proof. eexists _, _. split; [vm_compute; reflexivity|]. split; reflexivity. Qed.

(** Whitespace outside ASCII is stripped too: an answer x between two
    no-break spaces is the label X, and the call scores it. *)
Example test_no_break_space_answer :
  normalized_answer (output (Str.no_break_space +:+ "x" +:+ Str.no_break_space) ∅) = "X"
  /\ exists r w',
       PatentMatchEnvironment.evaluate plain_runtime 2%positive
         (output (Str.no_break_space +:+ "x" +:+ Str.no_break_space) ∅) demo_world
       = (Ok (PatentResult r), w')
       /\ PatentEnvironmentResult.prediction r = "X"
       /\ result_metrics (PatentResult r) !! "accuracy" = Some 1%float.
Proof.
  split; [reflexivity|].
  eexists _, _. split; [vm_compute; reflexivity|]. split; reflexivity.
Qed.

(** Case mapping outside ASCII: one letter can become two, and the
    whitespace of Unicode (here U+2003 and U+3000) is stripped. *)
Example test_upper_beyond_ascii :
  Str.upper "straße" = "STRASSE"
  /\ Str.upper "déjà vu" = "DÉJÀ VU"
  /\ Str.strip (Str.encode [0x2003; 0x61; 0x20; 0x62; 0x3000]%N) = "a b"
  /\ Str.decode "ß" = [0xDF%N].
Proof. repeat split; vm_compute; reflexivity. Qed.

(** ** Strings *)

Section StringFacts.

Import Str.

Local Open Scope N_scope.

(** *** The UTF-8 codec *)

Lemma N_of_byte (n : N) : n < 256 -> N_of_ascii (byte n) = n.
Proof. apply N_ascii_embedding. Qed.

Lemma decode_unfold (b1 : ascii) (s1 : string) :
  decode (String b1 s1)
  = let n1 := N_of_ascii b1 in
    if n1 <? 0x80 then n1 :: decode s1
    else
      match s1 with
      | EmptyString => []
      | String b2 s2 =>
          let n2 := N_of_ascii b2 in
          match point2 n1 n2 with
          | Some c => c :: decode s2
          | None =>
              match s2 with
              | EmptyString => decode s1
              | String b3 s3 =>
                  let n3 := N_of_ascii b3 in
                  match point3 n1 n2 n3 with
                  | Some c => c :: decode s3
                  | None =>
                      match s3 with
                      | EmptyString => decode s1
                      | String b4 s4 =>
                          match point4 n1 n2 n3 (N_of_ascii b4) with
                          | Some c => c :: decode s4
                          | None => decode s1
                          end
                      end
                  end
              end
          end
      end.
Proof. reflexivity. Qed.

Ltac split_digits c :=
  let q1 := fresh "q" in let r1 := fresh "r" in
  pose proof (N.div_mod' c 64);
  pose proof (N.mod_lt c 64 ltac:(discriminate));
  set (q1 := c / 64) in *; set (r1 := c mod 64) in *.

Ltac decide_test :=
  unfold continuation;
  repeat rewrite andb_true_iff; repeat rewrite N.leb_le; lia.

Lemma point2_encoded (c : N) :
  0x80 <= c < 0x800 -> point2 (0xC0 + c / 64) (0x80 + c mod 64) = Some c.
Proof.
  intros Hc. split_digits c. unfold point2.
  replace (_ && _ && _)%bool with true by (symmetry; decide_test).
  f_equal. lia.
Qed.

Lemma point2_range (n1 n2 : N) : 0xE0 <= n1 -> point2 n1 n2 = None.
Proof.
  intros H. unfold point2.
  replace (n1 <=? 0xDF) with false by (symmetry; apply N.leb_gt; lia).
  now rewrite andb_false_r.
Qed.

Lemma point3_encoded (c : N) :
  0x800 <= c < 0x10000 ->
  point3 (0xE0 + c / 64 / 64) (0x80 + (c / 64) mod 64) (0x80 + c mod 64) = Some c.
Proof.
  intros Hc. split_digits c. split_digits q. unfold point3.
  assert (E : (0xE0 + q0 - 0xE0) * 4096 + (0x80 + r0 - 0x80) * 64 + (0x80 + r - 0x80) = c)
    by lia.
  cbv zeta. rewrite E.
  replace (_ && _ && _ && _)%bool with true by (symmetry; decide_test).
  reflexivity.
Qed.

Lemma point3_range (n1 n2 n3 : N) : 0xF0 <= n1 -> point3 n1 n2 n3 = None.
Proof.
  intros H. unfold point3.
  replace (n1 <=? 0xEF) with false by (symmetry; apply N.leb_gt; lia).
  now rewrite andb_false_r.
Qed.

Lemma point4_encoded (c : N) :
  0x10000 <= c < 0x110000 ->
  point4 (0xF0 + c / 64 / 64 / 64) (0x80 + (c / 64 / 64) mod 64)
    (0x80 + (c / 64) mod 64) (0x80 + c mod 64) = Some c.
Proof.
  intros Hc. split_digits c. split_digits q. split_digits q0. unfold point4.
  assert (E : (0xF0 + q1 - 0xF0) * 262144 + (0x80 + r1 - 0x80) * 4096
              + (0x80 + r0 - 0x80) * 64 + (0x80 + r - 0x80) = c) by lia.
  cbv zeta. rewrite E.
  replace (_ && _ && _ && _ && _)%bool with true by (symmetry; decide_test).
  reflexivity.
Qed.

(** Decoding reads back the code point that was encoded. *)
Lemma decode_encode_point (c : N) (s : string) :
  valid_point c -> decode (encode_point c s) = c :: decode s.
Proof.
  unfold valid_point, encode_point. intros Hc.
  destruct (N.ltb_spec c 0x80) as [H1|H1].
  { rewrite decode_unfold. cbv zeta. rewrite N_of_byte by lia.
    now replace (c <? 0x80) with true by (symmetry; apply N.ltb_lt; lia). }
  destruct (N.ltb_spec c 0x800) as [H2|H2].
  { split_digits c.
    rewrite decode_unfold. cbv zeta. rewrite !N_of_byte by lia.
    replace (0xC0 + q <? 0x80) with false by (symmetry; apply N.ltb_ge; lia).
    subst q r. now rewrite point2_encoded by lia. }
  destruct (N.ltb_spec c 0x10000) as [H3|H3].
  { pose proof (point3_encoded c ltac:(lia)) as E.
    split_digits c. split_digits q.
    rewrite decode_unfold. cbv zeta. rewrite !N_of_byte by lia.
    replace (0xE0 + q0 <? 0x80) with false by (symmetry; apply N.ltb_ge; lia).
    rewrite point2_range by lia. now rewrite E. }
  pose proof (point4_encoded c ltac:(lia)) as E.
  split_digits c. split_digits q. split_digits q0.
  rewrite decode_unfold. cbv zeta. rewrite !N_of_byte by lia.
  replace (0xF0 + q1 <? 0x80) with false by (symmetry; apply N.ltb_ge; lia).
  rewrite point2_range by lia. rewrite point3_range by lia. now rewrite E.
Qed.

Lemma decode_encode (l : list N) :
  Forall valid_point l -> decode (encode l) = l.
Proof.
  induction 1 as [|c l Hc _ IH]; [reflexivity|].
  cbn [encode]. now rewrite decode_encode_point, IH.
Qed.

Lemma point2_valid (n1 n2 c : N) : point2 n1 n2 = Some c -> valid_point c.
Proof.
  unfold point2, valid_point, continuation.
  destruct (_ && _ && _)%bool eqn:E; [|discriminate].
  intros [= <-]. repeat rewrite andb_true_iff in E. repeat rewrite N.leb_le in E. lia.
Qed.

Lemma point3_valid (n1 n2 n3 c : N) : point3 n1 n2 n3 = Some c -> valid_point c.
Proof.
  unfold point3, valid_point, continuation. cbv zeta.
  destruct (_ && _ && _ && _)%bool eqn:E; [|discriminate].
  intros [= <-]. repeat rewrite andb_true_iff in E. repeat rewrite N.leb_le in E. lia.
Qed.

Lemma point4_valid (n1 n2 n3 n4 c : N) : point4 n1 n2 n3 n4 = Some c -> valid_point c.
Proof.
  unfold point4, valid_point, continuation. cbv zeta.
  destruct (_ && _ && _ && _ && _)%bool eqn:E; [|discriminate].
  intros [= <-]. repeat rewrite andb_true_iff in E. repeat rewrite N.leb_le in E. lia.
Qed.

(** Decoding yields code points only, whatever the bytes are. *)
Lemma decode_valid (s : string) : Forall valid_point (decode s).
Proof.
  assert (G : forall n s, (String.length s <= n)%nat -> Forall valid_point (decode s)).
  { clear s. induction n as [|n IH]; intros s Hs.
    - destruct s; [constructor | cbn in Hs; lia].
    - destruct s as [|b1 s1]; [constructor|].
      cbn [String.length] in Hs.
      assert (T1 : Forall valid_point (decode s1)) by (apply IH; lia).
      rewrite decode_unfold. cbv zeta.
      destruct (N.ltb_spec (N_of_ascii b1) 0x80) as [H1|H1].
      { constructor; [unfold valid_point; lia | exact T1]. }
      destruct s1 as [|b2 s2]; [constructor|].
      cbn [String.length] in Hs.
      destruct (point2 _ _) as [c|] eqn:E2.
      { constructor; [eapply point2_valid, E2 | apply IH; lia]. }
      destruct s2 as [|b3 s3]; [exact T1|].
      cbn [String.length] in Hs.
      destruct (point3 _ _ _) as [c|] eqn:E3.
      { constructor; [eapply point3_valid, E3 | apply IH; lia]. }
      destruct s3 as [|b4 s4]; [exact T1|].
      cbn [String.length] in Hs.
      destruct (point4 _ _ _ _) as [c|] eqn:E4; [|exact T1].
      constructor; [eapply point4_valid, E4 | apply IH; lia]. }
  exact (G (String.length s) s (le_n _)).
Qed.

(** *** Case mapping and whitespace on code points *)

Lemma lookup_point_In (c : N) (t : list (N * list N)) (v : list N) :
  lookup_point c t = Some v -> In (c, v) t.
Proof.
  induction t as [|[d w] t IH]; cbn [lookup_point]; [discriminate|].
  destruct (N.eqb_spec c d) as [->|_].
  - intros [= ->]. now left.
  - intros H. right. now apply IH.
Qed.

Lemma upper_table_stable : forallb stable_entry upper_table = true.
Proof. vm_compute. reflexivity. Qed.

Lemma upper_point_cases (c : N) :
  upper_point c = [c]
  \/ is_space c = false /\ upper_point c <> []
     /\ Forall (fun d => stable_point d = true) (upper_point c).
Proof.
  unfold upper_point. destruct (lookup_point c upper_table) as [v|] eqn:E; [|now left].
  right. apply lookup_point_In in E.
  pose proof upper_table_stable as T. rewrite forallb_forall in T.
  specialize (T _ E). unfold stable_entry in T. cbn [fst snd] in T.
  repeat rewrite andb_true_iff in T. destruct T as [[T1 T2] T3].
  split; [now apply negb_true_iff|]. split; [now destruct v|].
  apply List.Forall_forall. now apply forallb_forall.
Qed.

Lemma stable_point_upper (d : N) : stable_point d = true -> upper_point d = [d].
Proof.
  unfold stable_point, upper_point. repeat rewrite andb_true_iff. intros [_ H].
  now destruct (lookup_point d upper_table).
Qed.

Lemma stable_point_not_space (d : N) : stable_point d = true -> is_space d = false.
Proof.
  unfold stable_point. repeat rewrite andb_true_iff. intros [[H _] _].
  now apply negb_true_iff.
Qed.

Lemma stable_point_valid (d : N) : stable_point d = true -> valid_point d.
Proof.
  unfold stable_point, valid_point. repeat rewrite andb_true_iff. intros [[_ H] _].
  now apply N.ltb_lt.
Qed.

Lemma upper_point_valid (c : N) : valid_point c -> Forall valid_point (upper_point c).
Proof.
  intros Hc. destruct (upper_point_cases c) as [-> | (_ & _ & H)].
  - now repeat constructor.
  - eapply List.Forall_impl; [|exact H]. exact stable_point_valid.
Qed.

Lemma upper_point_space (c : N) : is_space c = true -> upper_point c = [c].
Proof.
  intros Hc. destruct (upper_point_cases c) as [H | (H & _)]; [exact H | congruence].
Qed.

Lemma upper_point_not_space (c : N) :
  is_space c = false -> Forall (fun d => is_space d = false) (upper_point c).
Proof.
  intros Hc. destruct (upper_point_cases c) as [-> | (_ & _ & H)].
  - now repeat constructor.
  - eapply List.Forall_impl; [|exact H]. exact stable_point_not_space.
Qed.

Lemma upper_point_nonempty (c : N) : upper_point c <> [].
Proof.
  destruct (upper_point_cases c) as [-> | (_ & H & _)]; [discriminate | exact H].
Qed.

Lemma upper_points_stable (l : list N) :
  Forall (fun d => stable_point d = true) l -> upper_points l = l.
Proof.
  induction 1 as [|d l Hd _ IH]; [reflexivity|].
  unfold upper_points in *. cbn [flat_map]. now rewrite stable_point_upper, IH.
Qed.

Lemma upper_point_idempotent (c : N) : upper_points (upper_point c) = upper_point c.
Proof.
  destruct (upper_point_cases c) as [E | (_ & _ & H)].
  - rewrite E. unfold upper_points. cbn [flat_map]. rewrite E. reflexivity.
  - now apply upper_points_stable.
Qed.

Lemma upper_points_app (l k : list N) :
  upper_points (l ++ k) = (upper_points l ++ upper_points k)%list.
Proof. apply flat_map_app. Qed.

Lemma upper_points_idempotent (l : list N) : upper_points (upper_points l) = upper_points l.
Proof.
  induction l as [|c l IH]; [reflexivity|].
  change (upper_points (c :: l)) with (upper_point c ++ upper_points l)%list.
  now rewrite upper_points_app, upper_point_idempotent, IH.
Qed.

Lemma upper_points_valid (l : list N) :
  Forall valid_point l -> Forall valid_point (upper_points l).
Proof.
  induction 1 as [|c l Hc _ IH]; [constructor|].
  change (upper_points (c :: l)) with (upper_point c ++ upper_points l)%list.
  apply List.Forall_app. split; [now apply upper_point_valid | exact IH].
Qed.

Lemma lstrip_not_space (l k : list N) :
  l <> [] -> Forall (fun d => is_space d = false) l -> lstrip (l ++ k) = (l ++ k)%list.
Proof.
  destruct l as [|d l]; [congruence|]. intros _ H. inversion_clear H as [|? ? Hd _].
  cbn [app lstrip]. now rewrite Hd.
Qed.

Lemma lstrip_upper_points (l : list N) :
  lstrip (upper_points l) = upper_points (lstrip l).
Proof.
  induction l as [|c l IH]; [reflexivity|].
  change (upper_points (c :: l)) with (upper_point c ++ upper_points l)%list.
  cbn [lstrip]. destruct (is_space c) eqn:Ec.
  - rewrite (upper_point_space c Ec). cbn [app lstrip]. now rewrite Ec.
  - now rewrite lstrip_not_space by
      (first [apply upper_point_nonempty | now apply upper_point_not_space]).
Qed.

Lemma rev_upper_points (l : list N) :
  rev (upper_points l) = flat_map (fun c => rev (upper_point c)) (rev l).
Proof.
  induction l as [|c l IH]; [reflexivity|].
  change (upper_points (c :: l)) with (upper_point c ++ upper_points l)%list.
  cbn [rev]. rewrite rev_app_distr, IH, flat_map_app. cbn [flat_map].
  now rewrite app_nil_r.
Qed.

Lemma lstrip_rev_upper_points (l : list N) :
  lstrip (flat_map (fun c => rev (upper_point c)) l)
  = flat_map (fun c => rev (upper_point c)) (lstrip l).
Proof.
  induction l as [|c l IH]; [reflexivity|].
  cbn [flat_map lstrip]. destruct (is_space c) eqn:Ec.
  - rewrite (upper_point_space c Ec). cbn [rev app lstrip]. now rewrite Ec.
  - rewrite lstrip_not_space; [reflexivity | |].
    + intros E. apply (upper_point_nonempty c).
      apply (f_equal (@rev N)) in E. now rewrite rev_involutive in E.
    + apply List.Forall_rev. now apply upper_point_not_space.
Qed.

Lemma rstrip_upper_points (l : list N) :
  rstrip (upper_points l) = upper_points (rstrip l).
Proof.
  unfold rstrip.
  rewrite rev_upper_points, lstrip_rev_upper_points.
  rewrite <- (rev_involutive (lstrip (rev l))) at 1.
  now rewrite <- rev_upper_points, rev_involutive.
Qed.

Lemma lstrip_idempotent (l : list N) : lstrip (lstrip l) = lstrip l.
Proof.
  induction l as [|c l IH]; [reflexivity|].
  cbn [lstrip]. destruct (is_space c) eqn:E; [exact IH | cbn [lstrip]; now rewrite E].
Qed.

Lemma rstrip_idempotent (l : list N) : rstrip (rstrip l) = rstrip l.
Proof. unfold rstrip. now rewrite rev_involutive, lstrip_idempotent. Qed.

Lemma lstrip_app_not_space (l : list N) (c : N) :
  is_space c = false -> lstrip (l ++ [c]) = (lstrip l ++ [c])%list.
Proof.
  intros Hc. induction l as [|d l IH]; cbn [app lstrip]; [now rewrite Hc|].
  destruct (is_space d); [exact IH | reflexivity].
Qed.

(** Stripping the two ends in either order gives the same string. *)
Lemma rstrip_lstrip (l : list N) : rstrip (lstrip l) = lstrip (rstrip l).
Proof.
  unfold rstrip. induction l as [|c l IH] using rev_ind; [reflexivity|].
  rewrite rev_app_distr. cbn [rev app lstrip].
  destruct (is_space c) eqn:Ec.
  - rewrite <- IH. f_equal. clear IH.
    induction l as [|d l IH]; cbn [app lstrip]; [now rewrite Ec|].
    destruct (is_space d) eqn:Ed; [exact IH|].
    cbn [rev]. rewrite !rev_app_distr. cbn [rev app lstrip]. now rewrite Ec.
  - cbn [rev]. rewrite rev_involutive, lstrip_app_not_space by exact Ec.
    rewrite rev_app_distr. cbn [rev app lstrip]. rewrite Ec.
    cbn [rev]. now rewrite rev_involutive.
Qed.

Lemma lstrip_valid (l : list N) : Forall valid_point l -> Forall valid_point (lstrip l).
Proof.
  induction 1 as [|c l Hc H IH]; [constructor|].
  cbn [lstrip]. destruct (is_space c); [exact IH | now constructor].
Qed.

Lemma rstrip_valid (l : list N) : Forall valid_point l -> Forall valid_point (rstrip l).
Proof.
  intros H. unfold rstrip. now apply List.Forall_rev, lstrip_valid, List.Forall_rev.
Qed.

(** *** The normalization of a label *)

Lemma upper_strip (s : string) :
  upper (strip s) = encode (upper_points (lstrip (rstrip (decode s)))).
Proof.
  unfold upper, strip. now rewrite decode_encode by apply lstrip_valid, rstrip_valid, decode_valid.
Qed.

(** [s.strip().upper()] is a fixed point of the normalization. *)
Lemma normalize_idempotent (s : string) :
  upper (strip (upper (strip s))) = upper (strip s).
Proof.
  rewrite (upper_strip (upper (strip s))), (upper_strip s).
  rewrite decode_encode
    by apply upper_points_valid, lstrip_valid, rstrip_valid, decode_valid.
  rewrite rstrip_upper_points, lstrip_upper_points.
  now rewrite (rstrip_lstrip (rstrip _)), rstrip_idempotent, lstrip_idempotent,
    upper_points_idempotent.
Qed.

End StringFacts.

(** ** Floating-point guards *)

Section FloatFacts.

(** A float above zero is not equal to zero: the divisor of the F1 score
    is safe behind its test. *)
Lemma positive_float_nonzero (x : float) :
  (0 <? x)%float = true -> (x =? 0)%float = false.
Proof.
  rewrite ltb_spec, FloatAxioms.eqb_spec.
  change (Prim2SF 0) with (S754_zero false).
  destruct (Prim2SF x) as [s|s| |s m e]; cbn; try destruct s; congruence.
Qed.

(** Conversely a sum that equals zero fails the test. *)
Lemma zero_float_not_positive (x : float) :
  (x =? 0)%float = true -> (0 <? x)%float = false.
Proof.
  intros H. destruct (0 <? x)%float eqn:E; [|reflexivity].
  apply positive_float_nonzero in E. congruence.
Qed.

(** [max(p, c)] is never at or below zero when [c] is a positive finite
    constant, whatever [p] is (a number, an infinity or not a number). *)
Lemma max_above_zero (p c : float) (m : positive) (e : Z) :
  Prim2SF c = S754_finite false m e ->
  (Float.max p c <=? 0)%float = false.
Proof.
  intros Hc. unfold Float.max.
  destruct (p <? c)%float eqn:E; rewrite leb_spec;
    change (Prim2SF 0) with (S754_zero false).
  - now rewrite Hc.
  - rewrite ltb_spec, Hc in E.
    destruct (Prim2SF p) as [s|s| |s m' e']; cbn in *; try destruct s;
      congruence.
Qed.

Lemma math_log_smoothed (rt : Runtime) (p : float) :
  Float.math_log rt (Float.max p 1e-10%float)
  = Ok (libm_log rt (Float.max p 1e-10%float)).
Proof.
  unfold Float.math_log.
  now rewrite (max_above_zero p 1e-10%float 7737125245533627 (-86)%Z).
Qed.

Lemma math_log_floor (rt : Runtime) (p : float) :
  Float.math_log rt (Float.max p 0.01%float)
  = Ok (libm_log rt (Float.max p 0.01%float)).
Proof.
  unfold Float.math_log.
  now rewrite (max_above_zero p 0.01%float 5764607523034235 (-59)%Z).
Qed.

End FloatFacts.

(** ** The metrics calculator *)

Section CalculatorFacts.

Import MetricsCalculator.

Variable rt : Runtime.

Lemma log_likelihood_loop_returns (rows : list (float * (string * string))) :
  forall acc, exists ll, log_likelihood_loop rt acc rows = Ok ll.
Proof.
  induction rows as [|[prob [pred label]] rows IH]; intros acc; cbn [log_likelihood_loop].
  - now exists acc.
  - destruct (String.eqb pred label); rewrite math_log_smoothed; cbn [obind]; apply IH.
Qed.

Lemma perplexity_returns (calc : t) (accuracy : float) :
  exists ppl, perplexity rt calc accuracy = Ok ppl.
Proof.
  unfold perplexity.
  destruct (negb (bool_decide (probabilities calc = []))
            && (length (probabilities calc) =? length (predictions calc))%nat) eqn:E.
  - destruct (log_likelihood_loop_returns
                (combine (probabilities calc) (combine (predictions calc) (labels calc)))
                0%float) as [ll ->].
    cbn [obind]. apply andb_prop in E as [E _].
    destruct (probabilities calc) as [|p ps]; [discriminate E|].
    cbn [length Float.float_int_truediv obind]. eauto.
  - destruct (0 <? accuracy)%float; [|eauto].
    rewrite math_log_floor. cbn [obind]. eauto.
Qed.

Lemma int_truediv_positive (a b : nat) :
  (0 <? b)%nat = true -> Float.int_truediv a b = Ok (Float.of_nat a / Float.of_nat b)%float.
Proof. destruct b; [discriminate | reflexivity]. Qed.

Lemma guarded_ratio (a b : nat) :
  (if (0 <? b)%nat then Float.int_truediv a b else Ok 0%float) = Ok (ratio a b).
Proof.
  unfold ratio. destruct (0 <? b)%nat eqn:E; [|reflexivity].
  now apply int_truediv_positive.
Qed.

Lemma guarded_f1 (p r : float) :
  exists f1,
    (if (0 <? p + r)%float
     then Float.truediv (2 * p * r)%float (p + r)%float
     else Ok 0%float) = Ok f1
    /\ ((p + r =? 0)%float = true -> f1 = 0%float).
Proof.
  destruct (0 <? p + r)%float eqn:E.
  - unfold Float.truediv. pose proof (positive_float_nonzero _ E) as E0.
    rewrite E0. eexists; split; [reflexivity | congruence].
  - eexists; split; [reflexivity | reflexivity].
Qed.

(** The structure of the dictionary built by [compute] on a calculator
    that holds at least one pair: no step raises. *)
Lemma compute_nonempty (calc : t) :
  predictions calc <> [] -> labels calc <> [] ->
  let c := positive_class calc in
  let tp := true_positives calc c in
  let fp := false_positives calc c in
  let fn := false_negatives calc c in
  exists accuracy f1 ppl,
    compute rt calc =
      Ok (<["perplexity" := ppl]> (<["f1" := f1]> (<["recall" := ratio tp (tp + fn)]>
         (<["precision" := ratio tp (tp + fp)]> (<["accuracy" := accuracy]> ∅)))))
    /\ ((ratio tp (tp + fp) + ratio tp (tp + fn) =? 0)%float = true -> f1 = 0%float).
Proof.
  intros Hp Hl c tp fp fn. unfold compute.
  destruct (predictions calc) as [|p ps] eqn:Ep; [congruence|].
  destruct (labels calc) as [|l ls] eqn:El; [congruence|].
  cbn [length Float.int_truediv obind].
  fold c. fold tp. fold fp. fold fn.
  rewrite !guarded_ratio. cbn [obind].
  destruct (guarded_f1 (ratio tp (tp + fp)) (ratio tp (tp + fn))) as (f1 & -> & Hf1).
  cbn [obind].
  match goal with |- context [perplexity rt calc ?a] =>
    destruct (perplexity_returns calc a) as [ppl ->] end.
  cbn [obind]. eauto.
Qed.

Lemma metric_names_of (a p r f x : float) :
  dom (<["perplexity" := x]> (<["f1" := f]> (<["recall" := r]>
      (<["precision" := p]> (<["accuracy" := a]> (∅ : gmap string float))))))
  = metric_names.
Proof. rewrite !dom_insert_L, dom_empty_L. unfold metric_names. set_solver. Qed.

(** [compute] returns on every calculator, with the five metrics. *)
Lemma compute_returns (calc : t) :
  exists m, compute rt calc = Ok m /\ dom m = metric_names.
Proof.
  destruct (predictions calc) as [|p ps] eqn:Ep.
  - unfold compute. rewrite Ep. eexists; split; [reflexivity | apply metric_names_of].
  - destruct (labels calc) as [|l ls] eqn:El.
    + unfold compute. rewrite Ep, El. eexists; split; [reflexivity | apply metric_names_of].
    + destruct (compute_nonempty calc) as (a & f & x & -> & _); [congruence..|].
      eexists; split; [reflexivity | apply metric_names_of].
Qed.

Lemma in_insert_class (x y : string) (l : list string) :
  In y (insert_class x l) <-> y = x \/ In y l.
Proof.
  induction l as [|z l IH]; cbn [insert_class In]; [intuition congruence|].
  destruct (String.compare x z) eqn:E; cbn [In].
  - apply String.compare_eq_iff in E. subst. intuition congruence.
  - intuition congruence.
  - rewrite IH. intuition congruence.
Qed.

Lemma in_sorted_set (y : string) (xs : list string) :
  In y (sorted_set xs) <-> In y xs.
Proof.
  unfold sorted_set. induction xs as [|x xs IH]; cbn [fold_right In]; [tauto|].
  rewrite in_insert_class, IH. intuition congruence.
Qed.

Lemma mem_true (x : string) (xs : list string) : In x xs -> mem x xs = true.
Proof.
  intros H. unfold mem. apply existsb_exists. exists x. split; [exact H|].
  apply String.eqb_refl.
Qed.

(** X is the positive class as soon as it occurs among the labels. *)
Lemma positive_class_X (calc : t) :
  In "X" (labels calc) -> positive_class calc = "X".
Proof.
  intros H. apply in_sorted_set in H. unfold positive_class.
  destruct (sorted_set (labels calc)) as [|c0 [|c1 rest]].
  - destruct H.
  - destruct H as [<-|[]]. reflexivity.
  - unfold positive_class_of. now rewrite (mem_true _ _ H).
Qed.

End CalculatorFacts.

(** ** The store *)

Section StoreFacts.

Variable rt : Runtime.

Lemma is_sample_functional (w : world) (l : loc) (gt gt' : option string) :
  is_sample w l gt -> is_sample w l gt' -> gt = gt'.
Proof.
  intros [(p & Hp & <-)|(s & d & Hs & _ & <-)] [(p' & Hp' & <-)|(s' & d' & Hs' & _ & <-)];
    congruence.
Qed.

Lemma fresh_location_unused (st : gmap loc object) (l : loc) (o : object) :
  st !! l = Some o -> l <> fresh (dom st).
Proof.
  intros H ->. apply (is_fresh (dom st)). apply elem_of_dom. now exists o.
Qed.

(** Lines 75-83 leave the environment and every object of the store as
    they are; on a sample they yield a [PatentSample] with the same
    ground truth, and on anything else an [AttributeError]. *)
Lemma as_patent_sample_outcome (l : loc) (w : world) :
  exists r st',
    PatentMatchEnvironment.as_patent_sample rt l w = (r, {| store := st'; self := self w |})
    /\ (forall l' o, store w !! l' = Some o -> st' !! l' = Some o)
    /\ ((r = Raise AttributeError /\ forall gt, ~ is_sample w l gt)
        \/ (exists l2 p, r = Ok l2 /\ st' !! l2 = Some (OPatentSample p)
                         /\ is_sample w l (Sample.ground_truth (PatentSample.base p)))).
Proof.
  destruct w as [st env].
  unfold PatentMatchEnvironment.as_patent_sample, bind, is_patent_sample, sample_fields,
    dict_get.
  cbn [store self].
  destruct (st !! l) as [[s|p|d]|] eqn:E; cbn [store self ret]; rewrite ?E.
  - destruct (st !! Sample.metadata s) as [[s'|p'|d]|] eqn:Em;
      repeat (first [rewrite Em | progress cbn [store self]]).
    1,2,4: (exists (Raise AttributeError), st; split; [reflexivity|];
            split; [auto|]; left; split; [reflexivity|];
            intros gt [(p & Hp & _)|(s2 & d2 & Hs & Hd & _)];
            cbn [store] in *; congruence).
    unfold new_PatentSample, bind, alloc, post_init. cbn [store self].
    rewrite lookup_insert_eq.
    cbn [PatentSample.base Sample.question Str.is_empty write store self ret
         Sample.context Sample.ground_truth Sample.metadata
         PatentSample.claim PatentSample.paragraph].
    eexists (Ok (fresh (dom st))), _. split; [reflexivity|].
    split.
    + intros l' o Hl'. pose proof (fresh_location_unused _ _ _ Hl') as Hne.
      rewrite !lookup_insert_ne by congruence. exact Hl'.
    + right. eexists _, _. split; [reflexivity|]. split; [apply lookup_insert_eq|].
      right. exists s, d. auto.
  - exists (Ok l), st. split; [reflexivity|]. split; [auto|].
    right. exists l, p. split; [reflexivity|]. split; [exact E|].
    left. exists p. auto.
  - exists (Raise AttributeError), st. split; [reflexivity|]. split; [auto|].
    left. split; [reflexivity|].
    intros gt [(p & Hp & _)|(s2 & d2 & Hs & _)]; cbn [store] in *; congruence.
  - exists (Raise AttributeError), st. split; [reflexivity|]. split; [auto|].
    left. split; [reflexivity|].
    intros gt [(p & Hp & _)|(s2 & d2 & Hs & _)]; cbn [store] in *; congruence.
Qed.

(** [evaluate] in two steps: the sample is resolved, which keeps the
    store's objects and the environment, then the answer is judged. *)
Lemma evaluate_outcome (l : loc) (g : GeneratorOutput.t) (w : world) :
  exists st',
    (forall l' o, store w !! l' = Some o -> st' !! l' = Some o)
    /\ ((PatentMatchEnvironment.evaluate rt l g w
         = (Raise AttributeError, {| store := st'; self := self w |})
         /\ forall gt, ~ is_sample w l gt)
        \/ (exists gt, is_sample w l gt
                       /\ PatentMatchEnvironment.evaluate rt l g w
                          = judged rt gt g st' (self w))).
Proof.
  destruct (as_patent_sample_outcome l w)
    as (r & st' & Has & Hframe & [[-> Hno]|(l2 & p & -> & Hl2 & Hs)]);
    exists st'; (split; [exact Hframe|]);
    unfold PatentMatchEnvironment.evaluate, bind; rewrite Has.
  - left. split; [reflexivity | exact Hno].
  - right. eexists. split; [exact Hs|].
    unfold sample_fields. cbn [store]. rewrite Hl2.
    unfold judged, lift, normalized_answer.
    destruct (extract_probability rt (GeneratorOutput.raw g)) as [prob|e]; [|reflexivity].
    destruct (valid_label (Str.upper (Str.strip (GeneratorOutput.final_answer g))));
      cbn [negb]; [|reflexivity].
    unfold get_self, set_self, ret. cbn [store self Env.metrics_calculator Env.step_metrics].
    destruct (MetricsCalculator.compute rt _) as [m|e]; reflexivity.
Qed.

End StoreFacts.

(** ** [PatentMatchEnvironment.evaluate] *)

Lemma valid_label_false (s : string) : s <> "X" -> s <> "A" -> valid_label s = false.
Proof.
  intros HX HA. unfold valid_label.
  apply String.eqb_neq in HX, HA. now rewrite HX, HA.
Qed.

Lemma valid_label_true (s : string) : s = "X" \/ s = "A" -> valid_label s = true.
Proof. intros [->| ->]; reflexivity. Qed.

(** C1, as the claim states it, fails: an answer that is neither X nor A
    together with a [confidence] of [None] in [raw] makes [evaluate] raise
    [TypeError], since the probability is converted before the label is
    checked. *)
Lemma evaluate_invalid_label_can_raise :
  is_sample demo_world 2%positive (Some "X")
  /\ normalized_answer (output "maybe" (<["confidence" := PyNone]> ∅)) = "MAYBE"
  /\ fst (PatentMatchEnvironment.evaluate plain_runtime 2%positive
            (output "maybe" (<["confidence" := PyNone]> ∅)) demo_world)
     = Raise TypeError.
Proof.
  split; [|split].
  - left. eexists. split; reflexivity.
  - reflexivity.
  - vm_compute. reflexivity.
Qed.

(** C1, amended: when the normalized answer is neither X nor A and the
    confidence (or, without one, the probability) of [raw] is absent or
    convertible by [float], [evaluate] returns an ordinary
    [EnvironmentResult] whose feedback begins with the words Invalid
    classification and whose metrics map accuracy to 0.0. *)
Theorem evaluate_invalid_label (rt : Runtime) (l : loc) (g : GeneratorOutput.t)
    (w : world) (gt : option string) (p : option float) :
  is_sample w l gt ->
  normalized_answer g <> "X" ->
  normalized_answer g <> "A" ->
  extract_probability rt (GeneratorOutput.raw g) = Ok p ->
  exists r w',
    PatentMatchEnvironment.evaluate rt l g w = (Ok (BaseResult r), w')
    /\ String.prefix "Invalid classification" (EnvironmentResult.feedback r) = true
    /\ EnvironmentResult.metrics r !! "accuracy" = Some 0%float.
Proof.
  intros Hs HX HA Hp.
  destruct (evaluate_outcome rt l g w) as (st' & _ & [[_ Hno]|(gt' & _ & ->)]).
  - destruct (Hno gt Hs).
  - unfold judged. rewrite Hp, (valid_label_false _ HX HA).
    eexists _, _. split; [reflexivity|]. split; reflexivity.
Qed.

Lemma evaluate_invalid_label_witness :
  exists r w',
    PatentMatchEnvironment.evaluate plain_runtime 3%positive
      (output " maybe " (<["confidence" := PyFloat 0.5]> ∅)) demo_world
    = (Ok (BaseResult r), w')
    /\ String.prefix "Invalid classification" (EnvironmentResult.feedback r) = true
    /\ EnvironmentResult.metrics r !! "accuracy" = Some 0%float.
Proof.
  apply (evaluate_invalid_label plain_runtime 3%positive
           (output " maybe " (<["confidence" := PyFloat 0.5]> ∅)) demo_world
           (Some "A") (Some 0.5%float)).
  - right. eexists _, _. split; [reflexivity|]. split; reflexivity.
  - vm_compute. discriminate.
  - vm_compute. discriminate.
  - reflexivity.
Defined.

(** C2: [evaluate] normalizes the answer itself.  A call on [g] has the
    very outcome (result or exception, environment and store) of the call
    on [g] with [final_answer] replaced by [final_answer.strip().upper()],
    and the prediction of a returned [PatentEnvironmentResult] is that
    normalized answer. *)
Theorem evaluate_normalizes (rt : Runtime) (l : loc) (g : GeneratorOutput.t) (w : world) :
  PatentMatchEnvironment.evaluate rt l g w
  = PatentMatchEnvironment.evaluate rt l (with_final_answer g (normalized_answer g)) w
  /\ (forall r w',
        PatentMatchEnvironment.evaluate rt l g w = (Ok (PatentResult r), w') ->
        PatentEnvironmentResult.prediction r
        = Str.upper (Str.strip (GeneratorOutput.final_answer g))).
Proof.
  split.
  - unfold PatentMatchEnvironment.evaluate, with_final_answer, normalized_answer.
    cbn [GeneratorOutput.final_answer GeneratorOutput.raw].
    now rewrite normalize_idempotent.
  - intros r w'.
    destruct (evaluate_outcome rt l g w) as (st' & _ & [[-> _]|(gt' & _ & ->)]);
      [discriminate|].
    unfold judged, normalized_answer.
    destruct (extract_probability rt _); [|discriminate].
    destruct (valid_label _); [|discriminate].
    destruct (MetricsCalculator.compute rt _); [|discriminate].
    intros [= <- _]. reflexivity.
Qed.

Lemma evaluate_normalizes_witness :
  exists r w',
    PatentMatchEnvironment.evaluate plain_runtime 2%positive
      (output (Str.no_break_space +:+ " x" +:+ Str.newline) ∅) demo_world
    = (Ok (PatentResult r), w')
    /\ PatentEnvironmentResult.prediction r = "X".
Proof.
  assert (exists r w',
            PatentMatchEnvironment.evaluate plain_runtime 2%positive
              (output (Str.no_break_space +:+ " x" +:+ Str.newline) ∅)
              demo_world = (Ok (PatentResult r), w')) as (r & w' & E)
    by (eexists _, _; vm_compute; reflexivity).
  exists r, w'. split; [exact E|].
  now rewrite (proj2 (evaluate_normalizes _ _ _ _) r w' E).
Defined.

(** Once the sample is resolved and the label is valid, the call returns
    a [PatentEnvironmentResult] carrying the extracted probability and
    the five metrics. *)
Lemma judged_valid (rt : Runtime) (gt : option string) (g : GeneratorOutput.t)
    (st : gmap loc object) (env : Env.t) (p : option float) :
  valid_label (normalized_answer g) = true ->
  extract_probability rt (GeneratorOutput.raw g) = Ok p ->
  exists r w',
    judged rt gt g st env = (Ok (PatentResult r), w')
    /\ PatentEnvironmentResult.probability r = p
    /\ dom (EnvironmentResult.metrics (PatentEnvironmentResult.base r)) = metric_names.
Proof.
  intros Hv Hp. unfold judged. rewrite Hp, Hv.
  match goal with |- context [MetricsCalculator.compute rt ?c] =>
    destruct (compute_returns rt c) as (m & -> & Hm) end.
  eexists _, _. split; [reflexivity|]. split; [reflexivity | exact Hm].
Qed.

(** C3: on a call whose normalized answer is X or A, every returned
    result has a metrics mapping whose names are exactly accuracy,
    precision, recall, f1 and perplexity; and the call does return as soon
    as the confidence of [raw] is absent or convertible. *)
Theorem evaluate_valid_metrics (rt : Runtime) (l : loc) (g : GeneratorOutput.t)
    (w : world) (gt : option string) :
  is_sample w l gt ->
  normalized_answer g = "X" \/ normalized_answer g = "A" ->
  (forall p, extract_probability rt (GeneratorOutput.raw g) = Ok p ->
             exists r w', PatentMatchEnvironment.evaluate rt l g w = (Ok r, w'))
  /\ (forall r w', PatentMatchEnvironment.evaluate rt l g w = (Ok r, w') ->
                   dom (result_metrics r) = metric_names).
Proof.
  intros Hs Hv. apply valid_label_true in Hv.
  destruct (evaluate_outcome rt l g w) as (st' & _ & [[_ Hno]|(gt' & _ & ->)]);
    [destruct (Hno gt Hs)|].
  split.
  - intros p Hp.
    destruct (judged_valid rt gt' g st' (self w) p Hv Hp) as (r & w' & -> & _).
    eauto.
  - intros r w' Hr.
    destruct (extract_probability rt (GeneratorOutput.raw g)) as [p|e] eqn:Hp.
    + destruct (judged_valid rt gt' g st' (self w) p Hv Hp) as (r0 & w0 & E & _ & Hm).
      rewrite E in Hr. injection Hr as <- _. exact Hm.
    + unfold judged in Hr. rewrite Hp in Hr. discriminate.
Qed.

Lemma evaluate_valid_metrics_witness :
  (forall p, extract_probability plain_runtime
               (GeneratorOutput.raw (output "x" (<["confidence" := PyFloat 0.5]> ∅))) = Ok p ->
             exists r w',
               PatentMatchEnvironment.evaluate plain_runtime 2%positive
                 (output "x" (<["confidence" := PyFloat 0.5]> ∅)) demo_world = (Ok r, w'))
  /\ (forall r w',
        PatentMatchEnvironment.evaluate plain_runtime 2%positive
          (output "x" (<["confidence" := PyFloat 0.5]> ∅)) demo_world = (Ok r, w') ->
        dom (result_metrics r) = metric_names).
Proof.
  apply (evaluate_valid_metrics plain_runtime 2%positive
           (output "x" (<["confidence" := PyFloat 0.5]> ∅)) demo_world (Some "X")).
  - left. eexists. split; reflexivity.
  - left. reflexivity.
Defined.

(** C4: on a call whose normalized answer is X or A, the probability of
    the returned [PatentEnvironmentResult] is [float(raw["confidence"])]
    when [raw] has that key, else [float(raw["probability"])] when it has
    that one, else [None]. *)
Theorem evaluate_probability (rt : Runtime) (l : loc) (g : GeneratorOutput.t)
    (w : world) (gt : option string) :
  is_sample w l gt ->
  normalized_answer g = "X" \/ normalized_answer g = "A" ->
  let returns_with (p : option float) :=
    exists r w',
      PatentMatchEnvironment.evaluate rt l g w = (Ok (PatentResult r), w')
      /\ PatentEnvironmentResult.probability r = p in
  (forall v f, GeneratorOutput.raw g !! "confidence" = Some v ->
               Float.py_float rt v = Ok f -> returns_with (Some f))
  /\ (forall v f, GeneratorOutput.raw g !! "confidence" = None ->
                  GeneratorOutput.raw g !! "probability" = Some v ->
                  Float.py_float rt v = Ok f -> returns_with (Some f))
  /\ (GeneratorOutput.raw g !! "confidence" = None ->
      GeneratorOutput.raw g !! "probability" = None -> returns_with None).
Proof.
  intros Hs Hv returns_with. apply valid_label_true in Hv.
  destruct (evaluate_outcome rt l g w) as (st' & _ & [[_ Hno]|(gt' & _ & E)]);
    [destruct (Hno gt Hs)|].
  assert (forall p, extract_probability rt (GeneratorOutput.raw g) = Ok p -> returns_with p)
    as Hret.
  { intros p Hp. unfold returns_with. rewrite E.
    destruct (judged_valid rt gt' g st' (self w) p Hv Hp) as (r & w' & -> & Hr & _).
    eauto. }
  repeat split.
  - intros v f Hc Hf. apply Hret. unfold extract_probability. now rewrite Hc, Hf.
  - intros v f Hc Hq Hf. apply Hret. unfold extract_probability. now rewrite Hc, Hq, Hf.
  - intros Hc Hq. apply Hret. unfold extract_probability. now rewrite Hc, Hq.
Qed.

Lemma evaluate_probability_witness :
  exists r w',
    PatentMatchEnvironment.evaluate plain_runtime 2%positive
      (output "x" (<["probability" := PyFloat 0.25]> (<["confidence" := PyInt 1]> ∅)))
      demo_world = (Ok (PatentResult r), w')
    /\ PatentEnvironmentResult.probability r = Some 1%float.
Proof.
  apply (proj1 (evaluate_probability plain_runtime 2%positive
                  (output "x" (<["probability" := PyFloat 0.25]>
                                 (<["confidence" := PyInt 1]> ∅)))
                  demo_world (Some "X")
                  (or_introl (ex_intro _ _ (conj eq_refl eq_refl)))
                  (or_introl eq_refl)) (PyInt 1) 1%float); reflexivity.
Defined.

(** When a conversion fails, the call raises that error and returns no
    result, whatever the label is. *)
Lemma evaluate_unconvertible (rt : Runtime) (l : loc) (g : GeneratorOutput.t)
    (w : world) (gt : option string) (e : exn) :
  is_sample w l gt ->
  extract_probability rt (GeneratorOutput.raw g) = Raise e ->
  fst (PatentMatchEnvironment.evaluate rt l g w) = Raise e.
Proof.
  intros Hs He.
  destruct (evaluate_outcome rt l g w) as (st' & _ & [[_ Hno]|(gt' & _ & ->)]);
    [destruct (Hno gt Hs)|].
  unfold judged. now rewrite He.
Qed.

Lemma judged_store (rt : Runtime) (gt : option string) (g : GeneratorOutput.t)
    (st : gmap loc object) (env : Env.t) :
  store (snd (judged rt gt g st env)) = st.
Proof.
  unfold judged.
  destruct (extract_probability rt _); [|reflexivity].
  destruct (valid_label _); [|reflexivity].
  destruct (MetricsCalculator.compute rt _); reflexivity.
Qed.

Lemma judged_invalid_self (rt : Runtime) (gt : option string) (g : GeneratorOutput.t)
    (st : gmap loc object) (env : Env.t) :
  valid_label (normalized_answer g) = false ->
  self (snd (judged rt gt g st env)) = env.
Proof.
  intros Hv. unfold judged. rewrite Hv.
  destruct (extract_probability rt _); reflexivity.
Qed.

(** C6: [evaluate] never mutates its sample argument.  Every object that
    is in the store before the call (the sample passed in, with all its
    fields, and the metadata dictionary it refers to among them) is there
    unchanged after the call, whether it returned or raised; the only
    object written is the [PatentSample] created by the call itself. *)
Theorem evaluate_keeps_sample (rt : Runtime) (l : loc) (g : GeneratorOutput.t)
    (w : world) (l' : loc) (o : object) :
  store w !! l' = Some o ->
  store (snd (PatentMatchEnvironment.evaluate rt l g w)) !! l' = Some o.
Proof.
  intros Ho.
  destruct (evaluate_outcome rt l g w) as (st' & Hframe & [[-> _]|(gt' & _ & ->)]).
  - cbn [snd store]. now apply Hframe.
  - rewrite judged_store. now apply Hframe.
Qed.

Lemma evaluate_keeps_sample_witness :
  store (snd (PatentMatchEnvironment.evaluate plain_runtime 3%positive
                (output "A" ∅) demo_world)) !! 3%positive
  = Some (OSample
            {| Sample.question := "Does this match?";
               Sample.context := "";
               Sample.ground_truth := Some "A";
               Sample.metadata := 1%positive |}).
Proof.
  apply (evaluate_keeps_sample plain_runtime 3%positive (output "A" ∅) demo_world).
  reflexivity.
Defined.

(** C8: a call whose normalized answer is neither X nor A leaves the
    environment as it was: the three lists of the metrics calculator and
    the list of step metrics are the same before and after, so the call
    contributes nothing to later cumulative metrics. *)
Theorem evaluate_invalid_keeps_metrics (rt : Runtime) (l : loc) (g : GeneratorOutput.t)
    (w : world) :
  normalized_answer g <> "X" ->
  normalized_answer g <> "A" ->
  self (snd (PatentMatchEnvironment.evaluate rt l g w)) = self w.
Proof.
  intros HX HA.
  destruct (evaluate_outcome rt l g w) as (st' & _ & [[-> _]|(gt' & _ & ->)]).
  - reflexivity.
  - apply judged_invalid_self. now apply valid_label_false.
Qed.

Lemma evaluate_invalid_keeps_metrics_witness :
  self (snd (PatentMatchEnvironment.evaluate plain_runtime 2%positive
               (output "B" ∅)
               (snd (PatentMatchEnvironment.evaluate plain_runtime 2%positive
                       (output "X" ∅) demo_world))))
  = self (snd (PatentMatchEnvironment.evaluate plain_runtime 2%positive
                 (output "X" ∅) demo_world)).
Proof.
  apply (evaluate_invalid_keeps_metrics plain_runtime 2%positive (output "B" ∅));
    vm_compute; discriminate.
Defined.

(** C5: after any sequence of [evaluate] calls, [reset_metrics] returns
    and leaves the environment in the state of a new one: the lists of
    predictions, labels and probabilities and the list of step metrics
    are empty, the store is untouched, and a following [evaluate] is the
    one of a new environment. *)
Theorem reset_metrics_restores (rt : Runtime) (calls : list (loc * GeneratorOutput.t))
    (w : world) :
  let w1 := evaluate_all rt calls w in
  let w2 := snd (PatentMatchEnvironment.reset_metrics w1) in
  fst (PatentMatchEnvironment.reset_metrics w1) = Ok tt
  /\ self w2 = PatentMatchEnvironment.new
  /\ MetricsCalculator.predictions (Env.metrics_calculator (self w2)) = []
  /\ MetricsCalculator.labels (Env.metrics_calculator (self w2)) = []
  /\ MetricsCalculator.probabilities (Env.metrics_calculator (self w2)) = []
  /\ Env.step_metrics (self w2) = []
  /\ store w2 = store w1
  /\ (forall l g,
        PatentMatchEnvironment.evaluate rt l g w2
        = PatentMatchEnvironment.evaluate rt l g
            {| store := store w1; self := PatentMatchEnvironment.new |}).
Proof.
  intros w1 w2. subst w2. generalize w1. clear. intros [st env].
  repeat split.
Qed.

(** ** [MetricsCalculator.compute] *)

(** C9: [compute] never divides by zero.  On a calculator that holds at
    least one pair it returns (no [ZeroDivisionError], no other error)
    a dictionary in which precision is TP/(TP+FP) when TP+FP is positive
    and 0.0 otherwise, recall is TP/(TP+FN) when TP+FN is positive and 0.0
    otherwise, and f1 is 0.0 when precision + recall equals zero; TP, FP
    and FN count with X as the positive class whenever X occurs among the
    labels. *)
Theorem compute_never_divides_by_zero (rt : Runtime) (calc : MetricsCalculator.t) :
  MetricsCalculator.predictions calc <> [] ->
  MetricsCalculator.labels calc <> [] ->
  let c := MetricsCalculator.positive_class calc in
  let tp := MetricsCalculator.true_positives calc c in
  let fp := MetricsCalculator.false_positives calc c in
  let fn := MetricsCalculator.false_negatives calc c in
  (In "X" (MetricsCalculator.labels calc) -> c = "X")
  /\ exists m,
       MetricsCalculator.compute rt calc = Ok m
       /\ m !! "precision" = Some (ratio tp (tp + fp))
       /\ m !! "recall" = Some (ratio tp (tp + fn))
       /\ (forall p r, m !! "precision" = Some p -> m !! "recall" = Some r ->
                       (p + r =? 0)%float = true -> m !! "f1" = Some 0%float).
Proof.
  intros Hp Hl c tp fp fn. split; [apply positive_class_X|].
  destruct (compute_nonempty rt calc Hp Hl) as (a & f1 & ppl & -> & Hf1).
  fold c tp fp fn in Hf1 |- *.
  eexists. split; [reflexivity|].
  assert (forall (x y : string) (v : float) (m : gmap string float),
            x <> y -> <[x := v]> m !! y = m !! y) as skip
    by (intros; now apply lookup_insert_ne).
  split; [|split].
  - rewrite !skip by discriminate. apply lookup_insert_eq.
  - rewrite !skip by discriminate. apply lookup_insert_eq.
  - intros p r. rewrite !skip by discriminate. rewrite !lookup_insert_eq.
    intros [= <-] [= <-] Hz. now rewrite (Hf1 Hz).
Qed.

Lemma compute_never_divides_by_zero_witness :
  let calc :=
    MetricsCalculator.add (MetricsCalculator.add MetricsCalculator.new "A" "X" None)
      "A" "A" None in
  MetricsCalculator.positive_class calc = "X"
  /\ MetricsCalculator.true_positives calc "X"
     + MetricsCalculator.false_positives calc "X" = 0
  /\ exists m,
       MetricsCalculator.compute plain_runtime calc = Ok m
       /\ m !! "precision" = Some 0%float
       /\ m !! "f1" = Some 0%float.
Proof.
  intros calc.
  destruct (compute_never_divides_by_zero plain_runtime calc)
    as (Hc & m & Hm & Hprec & Hrec & Hf1); [discriminate | discriminate |].
  split; [apply Hc; left; reflexivity|]. split; [reflexivity|].
  exists m. split; [exact Hm|]. split; [exact Hprec|].
  apply (Hf1 _ _ Hprec Hrec). reflexivity.
Defined.

(** ** [PatentSample] *)

(** C10: constructing a [PatentSample] with an empty question sets the
    question to Claim: claim, two newlines, Paragraph: paragraph; a
    question that is not empty is kept as passed. *)
Theorem new_PatentSample_question (rt : Runtime) (q ctx : string)
    (gt : option string) (md : loc) (c p : string) (w : world) :
  exists l st' ps,
    new_PatentSample rt q ctx gt md (PyStr c) (PyStr p) w
    = (Ok l, {| store := st'; self := self w |})
    /\ store w !! l = None
    /\ st' !! l = Some (OPatentSample ps)
    /\ PatentSample.claim ps = PyStr c
    /\ PatentSample.paragraph ps = PyStr p
    /\ (q = "" ->
        Sample.question (PatentSample.base ps)
        = "Claim: " +:+ c +:+ Str.newline +:+ Str.newline +:+ "Paragraph: " +:+ p)
    /\ (q <> "" -> Sample.question (PatentSample.base ps) = q).
Proof.
  unfold new_PatentSample, bind, alloc, post_init. cbn [store self].
  rewrite lookup_insert_eq. cbn [PatentSample.base Sample.question].
  assert (store w !! fresh (dom (store w)) = None) as Hfresh
    by (apply not_elem_of_dom, is_fresh).
  destruct q as [|a q]; cbn [Str.is_empty write ret store self].
  - eexists _, _, _. split; [reflexivity|]. split; [exact Hfresh|].
    split; [apply lookup_insert_eq|]. repeat split. congruence.
  - eexists _, _, _. split; [reflexivity|]. split; [exact Hfresh|].
    split; [apply lookup_insert_eq|]. repeat split. discriminate.
Qed.

Lemma new_PatentSample_question_witness :
  exists l st' ps,
    new_PatentSample plain_runtime "" "Computer Science domain" (Some "A") 1%positive
      (PyStr "A method") (PyStr "The system") demo_world
    = (Ok l, {| store := st'; self := self demo_world |})
    /\ st' !! l = Some (OPatentSample ps)
    /\ Sample.question (PatentSample.base ps)
       = "Claim: A method" +:+ Str.newline +:+ Str.newline +:+ "Paragraph: The system".
Proof.
  destruct (new_PatentSample_question plain_runtime "" "Computer Science domain"
              (Some "A") 1%positive "A method" "The system" demo_world)
    as (l & st' & ps & E & _ & Hl & _ & _ & Hq & _).
  exists l, st', ps. split; [exact E|]. split; [exact Hl|].
  rewrite (Hq eq_refl). reflexivity.
Defined.

(** ** Playbook identifiers *)

Section PlaybookFacts.

Import Playbook.

Lemma bullets_append_to (name : string) (b : Bullet) (secs : list (string * list Bullet)) :
  Permutation (concat (map snd (append_to name b secs))) (b :: concat (map snd secs)).
Proof.
  induction secs as [|[n bs] secs IH]; cbn [append_to map snd concat].
  - reflexivity.
  - destruct (String.eqb n name); cbn [map snd concat].
    + rewrite <- app_assoc. cbn [app]. symmetry.
      apply (Permutation_middle bs (concat (map snd secs)) b).
    + rewrite IH. symmetry. apply (Permutation_middle bs (concat (map snd secs)) b).
Qed.

Lemma alter_bullet_ids (f : Bullet -> Bullet) (i : nat) (pb : t) :
  (forall b, id (f b) = id b) ->
  map id (bullets (alter_bullet f i pb)) = map id (bullets pb).
Proof.
  intros Hf. unfold bullets, alter_bullet. cbn [sections].
  induction (sections pb) as [|[n bs] secs IH]; cbn [map concat snd fst]; [reflexivity|].
  rewrite !map_app, IH. f_equal.
  induction bs as [|b bs IHb]; cbn [map]; [reflexivity|].
  rewrite IHb. destruct (Nat.eqb (id b) i); now rewrite ?Hf.
Qed.

Lemma alter_bullet_consistent (f : Bullet -> Bullet) (i : nat) (pb : t) (issued : list nat) :
  (forall b, id (f b) = id b) ->
  consistent pb issued -> consistent (alter_bullet f i pb) issued.
Proof.
  intros Hf (Hi & Hlt & Hb & Hin). unfold consistent.
  rewrite (alter_bullet_ids f i pb Hf).
  repeat split; try assumption.
  intros b Hb'. apply (in_map id) in Hb'. rewrite (alter_bullet_ids f i pb Hf) in Hb'.
  apply in_map_iff in Hb' as (b0 & <- & Hb0). now apply Hin.
Qed.

Lemma bullets_remove (i : nat) (pb : t) (pb' : t) :
  remove i pb = Some pb' ->
  next_id pb' = next_id pb
  /\ bullets pb' = List.filter (fun b => negb (Nat.eqb (id b) i)) (bullets pb).
Proof.
  unfold remove. destruct (known i pb); [|discriminate]. intros [= <-].
  split; [reflexivity|]. unfold bullets. cbn [sections].
  induction (sections pb) as [|[n bs] secs IH]; cbn [map concat snd fst List.filter];
    [reflexivity|].
  now rewrite List.filter_app, IH.
Qed.

Lemma NoDup_map_filter {A B : Type} (f : A -> B) (keep : A -> bool) (l : list A) :
  List.NoDup (map f l) -> List.NoDup (map f (List.filter keep l)).
Proof.
  induction l as [|a l IH]; cbn [map List.filter]; [auto|].
  intros H. apply List.NoDup_cons_iff in H as [Hnotin Hnd].
  destruct (keep a); cbn [map]; [|now apply IH].
  apply List.NoDup_cons_iff. split; [|now apply IH].
  intros Hin. apply Hnotin. apply in_map_iff in Hin as (x & Hx & Hin).
  apply in_map_iff. exists x. split; [exact Hx|].
  now apply List.filter_In in Hin as [Hin _].
Qed.

Lemma add_consistent (name text : string) (pb : t) (issued : list nat) :
  consistent pb issued ->
  consistent (snd (add name text pb)) (issued ++ [fst (add name text pb)]).
Proof.
  intros (Hi & Hlt & Hb & Hin). unfold add, consistent. cbn [fst snd next_id].
  assert (~ In (next_id pb) issued) as Hnew
    by (intros H; apply Hlt in H; lia).
  split; [|split; [|split]].
  - apply (Permutation_NoDup (l := next_id pb :: issued)).
    + apply Permutation_cons_append.
    + now apply List.NoDup_cons.
  - intros i H. apply in_app_iff in H as [H|[<-|[]]]; [apply Hlt in H|]; lia.
  - unfold bullets. cbn [sections].
    eapply Permutation_NoDup.
    + symmetry. apply Permutation_map. apply bullets_append_to.
    + cbn [map id]. apply List.NoDup_cons; [|exact Hb].
      intros H. apply in_map_iff in H as (b & Hid & Hbin).
      apply Hin in Hbin. rewrite Hid in Hbin. contradiction.
  - intros b H. unfold bullets in H. cbn [sections] in H.
    apply (Permutation_in _ (bullets_append_to _ _ _)) in H.
    apply in_app_iff. destruct H as [<-|H]; [right; now left | left; now apply Hin].
Qed.

Lemma remove_consistent (i : nat) (pb pb' : t) (issued : list nat) :
  remove i pb = Some pb' -> consistent pb issued -> consistent pb' issued.
Proof.
  intros Hr (Hi & Hlt & Hb & Hin).
  apply bullets_remove in Hr as [Hn Hbs]. unfold consistent. rewrite Hn, Hbs.
  repeat split; try assumption.
  - now apply NoDup_map_filter.
  - intros b H. apply List.filter_In in H as [H _]. now apply Hin.
Qed.

(** Every batch keeps the playbook consistent with the identifiers
    returned so far. *)
Lemma apply_operations_consistent (ops : list Operation) :
  forall pb tr,
    consistent pb (added tr) ->
    consistent (fst (apply_operations ops pb tr)) (added (snd (apply_operations ops pb tr))).
Proof.
  induction ops as [|op ops IH]; intros pb tr H; [exact H|].
  destruct op as [name text|i text|i helpful|i]; cbn [apply_operations].
  - destruct (add name text pb) as [j pb'] eqn:E. apply IH. cbn [added].
    pose proof (add_consistent name text pb (added tr) H) as H'.
    now rewrite E in H'.
  - unfold update. destruct (known i pb); apply IH; [|exact H].
    now apply alter_bullet_consistent.
  - unfold tag. destruct (known i pb); apply IH; [|exact H].
    now apply alter_bullet_consistent.
  - destruct (remove i pb) as [pb'|] eqn:E; apply IH; [|exact H].
    now apply (remove_consistent i pb pb').
Qed.

End PlaybookFacts.

(** C7: over every sequence of operations applied to a playbook created
    empty, the identifiers returned by ADD are pairwise distinct, also
    after bullets were removed (no identifier is issued twice), and the
    bullets of the resulting playbook, over all its sections, carry
    pairwise distinct identifiers, each of them one that ADD returned. *)
Theorem playbook_ids_unique (ops : list Playbook.Operation) :
  List.NoDup (Playbook.added (snd (Playbook.run ops)))
  /\ List.NoDup (map Playbook.id (Playbook.bullets (fst (Playbook.run ops))))
  /\ (forall b, In b (Playbook.bullets (fst (Playbook.run ops))) ->
                In (Playbook.id b) (Playbook.added (snd (Playbook.run ops)))).
Proof.
  destruct (apply_operations_consistent ops Playbook.empty
              {| Playbook.added := []; Playbook.dropped := 0 |})
    as (Hi & _ & Hb & Hin).
  - repeat split; cbn; try constructor; intros ? [].
  - unfold Playbook.run. auto.
Qed.

(** * Further properties of the code *)

(** ** More on [evaluate] *)

Section EvaluateMore.

Variable rt : Runtime.

(** Once lines 75-83 have yielded a [PatentSample], the rest of
    [evaluate] is [judged] on its ground truth. *)
Lemma evaluate_resolved (l l2 : loc) (g : GeneratorOutput.t) (w : world)
    (st' : gmap loc object) (p : PatentSample.t) :
  PatentMatchEnvironment.as_patent_sample rt l w
  = (Ok l2, {| store := st'; self := self w |}) ->
  st' !! l2 = Some (OPatentSample p) ->
  PatentMatchEnvironment.evaluate rt l g w
  = judged rt (Sample.ground_truth (PatentSample.base p)) g st' (self w).
Proof.
  intros Has Hl2. unfold PatentMatchEnvironment.evaluate, bind. rewrite Has.
  unfold sample_fields. cbn [store]. rewrite Hl2.
  unfold judged, lift, normalized_answer.
  destruct (extract_probability rt (GeneratorOutput.raw g)) as [prob|e]; [|reflexivity].
  destruct (valid_label (Str.upper (Str.strip (GeneratorOutput.final_answer g))));
    cbn [negb]; [|reflexivity].
  unfold get_self, set_self, ret. cbn [store self Env.metrics_calculator Env.step_metrics].
  destruct (MetricsCalculator.compute rt _) as [m|e]; reflexivity.
Qed.

Lemma evaluate_on_patent_sample (l : loc) (g : GeneratorOutput.t) (w : world)
    (p : PatentSample.t) :
  store w !! l = Some (OPatentSample p) ->
  PatentMatchEnvironment.evaluate rt l g w
  = judged rt (Sample.ground_truth (PatentSample.base p)) g (store w) (self w).
Proof.
  intros Hl. apply (evaluate_resolved l l g w (store w) p); [|exact Hl].
  destruct w as [st env]. cbn [store self] in *.
  unfold PatentMatchEnvironment.as_patent_sample, bind, is_patent_sample.
  cbn [store self]. now rewrite Hl.
Qed.

Lemma evaluate_on_base_sample (l : loc) (g : GeneratorOutput.t) (w : world)
    (s : Sample.t) (d : gmap string PyVal) :
  store w !! l = Some (OSample s) ->
  store w !! Sample.metadata s = Some (ODict d) ->
  PatentMatchEnvironment.evaluate rt l g w
  = judged rt (Sample.ground_truth s) g
      (<[fresh (dom (store w)) := OPatentSample (converted rt s d)]> (store w)) (self w).
Proof.
  intros Hl Hd.
  apply (evaluate_resolved l (fresh (dom (store w))) g w _ (converted rt s d));
    [|apply lookup_insert_eq].
  destruct w as [st env]. cbn [store self] in *.
  unfold PatentMatchEnvironment.as_patent_sample, bind, is_patent_sample, sample_fields,
    dict_get.
  repeat (first [rewrite Hl | rewrite Hd | progress cbn [store self ret]]).
  unfold new_PatentSample, bind, alloc, post_init. cbn [store self].
  rewrite lookup_insert_eq.
  cbn [PatentSample.base Sample.question Str.is_empty write store self ret
       Sample.context Sample.ground_truth Sample.metadata
       PatentSample.claim PatentSample.paragraph].
  now rewrite insert_insert_eq.
Qed.

End EvaluateMore.

(** Evaluation of the prefix tests on the feedback literals. *)
Ltac compute_prefixes :=
  repeat match goal with
         | |- context [String.prefix ?a ?b] =>
             let v := eval vm_compute in (String.prefix a b) in
             change (String.prefix a b) with v
         end.

(** X1: a call with a valid label and a convertible confidence records
    exactly one pair.  The calculator after the call is the one before
    with the normalized answer, the normalized ground truth and the
    probability added, the list of step metrics has grown by the metrics
    of the returned result, and these metrics are what [compute] gives on
    the updated calculator. *)
Theorem evaluate_valid_records (rt : Runtime) (l : loc) (g : GeneratorOutput.t)
    (w : world) (gt : option string) (p : option float) :
  is_sample w l gt ->
  normalized_answer g = "X" \/ normalized_answer g = "A" ->
  extract_probability rt (GeneratorOutput.raw g) = Ok p ->
  exists r w',
    PatentMatchEnvironment.evaluate rt l g w = (Ok r, w')
    /\ Env.metrics_calculator (self w')
       = MetricsCalculator.add (Env.metrics_calculator (self w))
           (normalized_answer g) (normalized_truth gt) p
    /\ Env.step_metrics (self w') = (Env.step_metrics (self w) ++ [result_metrics r])%list
    /\ MetricsCalculator.compute rt (Env.metrics_calculator (self w'))
       = Ok (result_metrics r).
Proof.
  intros Hs Hv Hp. apply valid_label_true in Hv.
  destruct (evaluate_outcome rt l g w) as (st' & _ & [[_ Hno]|(gt' & Hs' & ->)]);
    [destruct (Hno gt Hs)|].
  rewrite (is_sample_functional w l gt' gt Hs' Hs).
  unfold judged. rewrite Hp, Hv. fold (normalized_truth gt).
  match goal with |- context [MetricsCalculator.compute rt ?c] =>
    destruct (MetricsCalculator.compute rt c) as [m|e] eqn:Hm;
    [|destruct (compute_returns rt c) as (m' & Hm' & _); congruence] end.
  eexists _, _. split; [reflexivity|]. cbn [self Env.metrics_calculator Env.step_metrics].
  repeat split. exact Hm.
Qed.

Lemma evaluate_valid_records_witness :
  exists r w',
    PatentMatchEnvironment.evaluate plain_runtime 3%positive
      (output " a" (<["probability" := PyBool true]> ∅)) demo_world = (Ok r, w')
    /\ Env.metrics_calculator (self w')
       = MetricsCalculator.add MetricsCalculator.new "A" "A" (Some 1%float)
    /\ Env.step_metrics (self w') = [result_metrics r]
    /\ MetricsCalculator.compute plain_runtime (Env.metrics_calculator (self w'))
       = Ok (result_metrics r).
Proof.
  apply (evaluate_valid_records plain_runtime 3%positive
           (output " a" (<["probability" := PyBool true]> ∅)) demo_world
           (Some "A") (Some 1%float)).
  - right. eexists _, _. split; [reflexivity|]. split; reflexivity.
  - right. reflexivity.
  - reflexivity.
Defined.

(** X2: with a valid label, the feedback begins with Correct exactly when
    the normalized answer equals the normalized ground truth of the
    sample, and with Incorrect exactly when it differs: the comparison
    ignores case and surrounding whitespace on both sides. *)
Theorem evaluate_feedback_verdict (rt : Runtime) (l : loc) (g : GeneratorOutput.t)
    (w : world) (gt : option string) (p : option float) :
  is_sample w l gt ->
  normalized_answer g = "X" \/ normalized_answer g = "A" ->
  extract_probability rt (GeneratorOutput.raw g) = Ok p ->
  exists r w',
    PatentMatchEnvironment.evaluate rt l g w = (Ok r, w')
    /\ (String.prefix "Correct" (EnvironmentResult.feedback (result_base r)) = true
        <-> normalized_answer g = normalized_truth gt)
    /\ (String.prefix "Incorrect" (EnvironmentResult.feedback (result_base r)) = true
        <-> normalized_answer g <> normalized_truth gt).
Proof.
  intros Hs Hv Hp. pose proof (valid_label_true _ Hv) as Hv'.
  destruct (evaluate_outcome rt l g w) as (st' & _ & [[_ Hno]|(gt' & Hs' & ->)]);
    [destruct (Hno gt Hs)|].
  rewrite (is_sample_functional w l gt' gt Hs' Hs).
  unfold judged. rewrite Hp, Hv'. fold (normalized_truth gt).
  match goal with |- context [MetricsCalculator.compute rt ?c] =>
    destruct (compute_returns rt c) as (m & -> & _) end.
  eexists _, _. split; [reflexivity|].
  cbn [result_base PatentEnvironmentResult.base EnvironmentResult.feedback].
  unfold feedback_for.
  destruct (String.eqb_spec (normalized_answer g) (normalized_truth gt)) as [E|E];
    destruct (String.eqb (normalized_answer g) "X"); compute_prefixes;
    intuition congruence.
Qed.

Lemma evaluate_feedback_verdict_witness :
  exists r w',
    PatentMatchEnvironment.evaluate plain_runtime 2%positive (output "x " ∅) demo_world
    = (Ok r, w')
    /\ String.prefix "Correct" (EnvironmentResult.feedback (result_base r)) = true.
Proof.
  destruct (evaluate_feedback_verdict plain_runtime 2%positive (output "x " ∅)
              demo_world (Some "X") None)
    as (r & w' & E & Hc & _).
  - left. eexists. split; reflexivity.
  - left. reflexivity.
  - reflexivity.
  - exists r, w'. split; [exact E|]. apply Hc. reflexivity.
Defined.

(** X3: the ground truth of the sample is not validated.  When it is
    missing, blank or not one of the two labels, every valid answer is
    reported as Incorrect and the ground truth is recorded among the
    labels of the calculator as it is. *)
Theorem evaluate_unlabelled_sample (rt : Runtime) (l : loc) (g : GeneratorOutput.t)
    (w : world) (gt : option string) (p : option float) :
  is_sample w l gt ->
  normalized_truth gt <> "X" ->
  normalized_truth gt <> "A" ->
  normalized_answer g = "X" \/ normalized_answer g = "A" ->
  extract_probability rt (GeneratorOutput.raw g) = Ok p ->
  exists r w',
    PatentMatchEnvironment.evaluate rt l g w = (Ok r, w')
    /\ String.prefix "Incorrect" (EnvironmentResult.feedback (result_base r)) = true
    /\ MetricsCalculator.labels (Env.metrics_calculator (self w'))
       = (MetricsCalculator.labels (Env.metrics_calculator (self w))
          ++ [normalized_truth gt])%list.
Proof.
  intros Hs HX HA Hv Hp. pose proof (valid_label_true _ Hv) as Hv'.
  destruct (evaluate_outcome rt l g w) as (st' & _ & [[_ Hno]|(gt' & Hs' & ->)]);
    [destruct (Hno gt Hs)|].
  rewrite (is_sample_functional w l gt' gt Hs' Hs).
  unfold judged. rewrite Hp, Hv'. fold (normalized_truth gt).
  match goal with |- context [MetricsCalculator.compute rt ?c] =>
    destruct (compute_returns rt c) as (m & -> & _) end.
  eexists _, _. split; [reflexivity|]. split; [|reflexivity].
  cbn [result_base PatentEnvironmentResult.base EnvironmentResult.feedback].
  unfold feedback_for.
  destruct (String.eqb_spec (normalized_answer g) (normalized_truth gt)) as [E|E];
    [destruct Hv; congruence|].
  destruct (String.eqb (normalized_answer g) "X"); compute_prefixes; reflexivity.
Qed.

Lemma evaluate_unlabelled_sample_witness :
  exists r w',
    PatentMatchEnvironment.evaluate plain_runtime 2%positive (output "A" ∅)
      unlabelled_world = (Ok r, w')
    /\ String.prefix "Incorrect" (EnvironmentResult.feedback (result_base r)) = true
    /\ MetricsCalculator.labels (Env.metrics_calculator (self w')) = [""].
Proof.
  destruct (evaluate_unlabelled_sample plain_runtime 2%positive (output "A" ∅)
              unlabelled_world None None)
    as (r & w' & E & Hf & Hl).
  - left. eexists. split; reflexivity.
  - discriminate.
  - discriminate.
  - right. reflexivity.
  - reflexivity.
  - exists r, w'. split; [exact E|]. split; [exact Hf|]. rewrite Hl. reflexivity.
Defined.



(** X5: what [evaluate] does to the store.  On a [PatentSample] nothing:
    the store after the call is the store before.  On a base [Sample]
    exactly one object is added, at a location that was unused: a
    [PatentSample] with the sample's context and ground truth, the same
    metadata dictionary (shared, not copied), claim and paragraph read
    from that dictionary with the empty string as default, and the
    question built from them.  This holds whether the call returns or
    raises afterwards. *)
Theorem evaluate_store_effect (rt : Runtime) (l : loc) (g : GeneratorOutput.t) (w : world) :
  (forall p, store w !! l = Some (OPatentSample p) ->
             store (snd (PatentMatchEnvironment.evaluate rt l g w)) = store w)
  /\ (forall s d,
        store w !! l = Some (OSample s) ->
        store w !! Sample.metadata s = Some (ODict d) ->
        store w !! fresh (dom (store w)) = None
        /\ store (snd (PatentMatchEnvironment.evaluate rt l g w))
           = <[fresh (dom (store w)) := OPatentSample (converted rt s d)]> (store w)).
Proof.
  split.
  - intros p Hp. rewrite (evaluate_on_patent_sample rt l g w p Hp). apply judged_store.
  - intros s d Hs Hd. split; [apply not_elem_of_dom, is_fresh|].
    rewrite (evaluate_on_base_sample rt l g w s d Hs Hd). apply judged_store.
Qed.

Lemma evaluate_store_effect_witness :
  store (snd (PatentMatchEnvironment.evaluate plain_runtime 3%positive
                (output "maybe" ∅) demo_world)) !! 4%positive
  = Some (OPatentSample
            {| PatentSample.base :=
                 {| Sample.question :=
                      "Claim: " +:+ Str.newline +:+ Str.newline +:+ "Paragraph: ";
                    Sample.context := "";
                    Sample.ground_truth := Some "A";
                    Sample.metadata := 1%positive |};
               PatentSample.claim := PyStr "";
               PatentSample.paragraph := PyStr "" |}).
Proof.
  destruct (proj2 (evaluate_store_effect plain_runtime 3%positive (output "maybe" ∅)
                     demo_world) _ ∅ eq_refl eq_refl) as [_ ->].
  reflexivity.
Defined.

(** X6: a confidence that [float] cannot convert makes the call raise
    that conversion error, for any label and even when [raw] also holds a
    convertible probability; the environment is left as it was. *)
Theorem evaluate_bad_confidence (rt : Runtime) (l : loc) (g : GeneratorOutput.t)
    (w : world) (gt : option string) (v : PyVal) (e : exn) :
  is_sample w l gt ->
  GeneratorOutput.raw g !! "confidence" = Some v ->
  Float.py_float rt v = Raise e ->
  fst (PatentMatchEnvironment.evaluate rt l g w) = Raise e
  /\ self (snd (PatentMatchEnvironment.evaluate rt l g w)) = self w.
Proof.
  intros Hs Hc He.
  destruct (evaluate_outcome rt l g w) as (st' & _ & [[_ Hno]|(gt' & _ & ->)]);
    [destruct (Hno gt Hs)|].
  unfold judged, extract_probability. rewrite Hc, He. cbn [obind]. split; reflexivity.
Qed.

Lemma evaluate_bad_confidence_witness :
  fst (PatentMatchEnvironment.evaluate plain_runtime 2%positive
         (output "X" (<["probability" := PyFloat 0.5]> (<["confidence" := PyStr "high"]> ∅)))
         demo_world) = Raise ValueError
  /\ self (snd (PatentMatchEnvironment.evaluate plain_runtime 2%positive
                  (output "X" (<["probability" := PyFloat 0.5]>
                                 (<["confidence" := PyStr "high"]> ∅)))
                  demo_world)) = self demo_world.
Proof.
  apply (evaluate_bad_confidence plain_runtime 2%positive _ demo_world (Some "X")
           (PyStr "high") ValueError).
  - left. eexists. split; reflexivity.
  - reflexivity.
  - reflexivity.
Defined.

(** X7: the outcome depends on the sample's ground truth only through
    its normalization.  Two calls with the same output and environment on
    samples whose ground truths agree after trimming and upper-casing
    (a missing one counting as the empty string) give the same result or
    exception and the same environment. *)
Theorem evaluate_ground_truth_normalized (rt : Runtime) (l1 l2 : loc)
    (g : GeneratorOutput.t) (w1 w2 : world) (gt1 gt2 : option string) :
  is_sample w1 l1 gt1 ->
  is_sample w2 l2 gt2 ->
  normalized_truth gt1 = normalized_truth gt2 ->
  self w1 = self w2 ->
  fst (PatentMatchEnvironment.evaluate rt l1 g w1)
  = fst (PatentMatchEnvironment.evaluate rt l2 g w2)
  /\ self (snd (PatentMatchEnvironment.evaluate rt l1 g w1))
     = self (snd (PatentMatchEnvironment.evaluate rt l2 g w2)).
Proof.
  intros H1 H2 Hgt Hself.
  destruct (evaluate_outcome rt l1 g w1) as (st1 & _ & [[_ Hno]|(gt1' & Hs1 & ->)]);
    [destruct (Hno gt1 H1)|].
  destruct (evaluate_outcome rt l2 g w2) as (st2 & _ & [[_ Hno]|(gt2' & Hs2 & ->)]);
    [destruct (Hno gt2 H2)|].
  rewrite (is_sample_functional w1 l1 gt1' gt1 Hs1 H1).
  rewrite (is_sample_functional w2 l2 gt2' gt2 Hs2 H2).
  unfold judged. fold (normalized_truth gt1). fold (normalized_truth gt2).
  rewrite Hgt, Hself.
  destruct (extract_probability rt _); [|split; reflexivity].
  destruct (valid_label _); [|split; reflexivity].
  destruct (MetricsCalculator.compute rt _); split; reflexivity.
Qed.

Lemma evaluate_ground_truth_normalized_witness :
  fst (PatentMatchEnvironment.evaluate plain_runtime 2%positive (output "X" ∅) demo_world)
  = fst (PatentMatchEnvironment.evaluate plain_runtime 2%positive (output "X" ∅)
           {| store :=
                <[2%positive := OSample
                    {| Sample.question := "";
                       Sample.context := "";
                       Sample.ground_truth := Some " x ";
                       Sample.metadata := 1%positive |}]> (store demo_world);
              self := PatentMatchEnvironment.new |}).
Proof.
  apply (evaluate_ground_truth_normalized plain_runtime 2%positive 2%positive
           (output "X" ∅) demo_world _ (Some "X") (Some " x ")).
  - left. eexists. split; reflexivity.
  - right. eexists _, _. split; [reflexivity|]. split; reflexivity.
  - reflexivity.
  - reflexivity.
Defined.

Lemma balanced_new : balanced PatentMatchEnvironment.new.
Proof. repeat split; cbn; auto. Qed.

Lemma judged_balanced (rt : Runtime) (gt : option string) (g : GeneratorOutput.t)
    (st : gmap loc object) (env : Env.t) :
  balanced env -> balanced (self (snd (judged rt gt g st env))).
Proof.
  intros (Hl & Hs & Hp & Hm). unfold judged.
  destruct (extract_probability rt _) as [p|e]; [|repeat split; assumption].
  destruct (valid_label _); [|repeat split; assumption].
  match goal with |- context [MetricsCalculator.compute rt ?c] =>
    destruct (compute_returns rt c) as (m & -> & Hdom) end.
  unfold balanced.
  cbn [snd self Env.metrics_calculator Env.step_metrics MetricsCalculator.add
       MetricsCalculator.predictions MetricsCalculator.labels
       MetricsCalculator.probabilities].
  rewrite !length_app. cbn [length].
  split; [lia|]. split; [lia|]. split.
  - destruct p; rewrite ?length_app; cbn [length]; lia.
  - apply Forall_app. split; [exact Hm|]. constructor; [exact Hdom | constructor].
Qed.

Lemma evaluate_balanced (rt : Runtime) (l : loc) (g : GeneratorOutput.t) (w : world) :
  balanced (self w) -> balanced (self (snd (PatentMatchEnvironment.evaluate rt l g w))).
Proof.
  intros H.
  destruct (evaluate_outcome rt l g w) as (st' & _ & [[-> _]|(gt' & _ & ->)]).
  - exact H.
  - now apply judged_balanced.
Qed.

(** X8: the lists of an environment stay aligned.  From an environment
    that is new (or balanced), after any sequence of [evaluate] calls,
    returned or raised, there is exactly one label and one step
    dictionary per recorded prediction, every step dictionary has the
    five metric names, and there are at most as many probabilities as
    predictions. *)
Theorem evaluate_all_balanced (rt : Runtime) (calls : list (loc * GeneratorOutput.t))
    (w : world) :
  balanced (self w) -> balanced (self (evaluate_all rt calls w)).
Proof.
  revert w. induction calls as [|[l g] calls IH]; intros w H; cbn [evaluate_all].
  - exact H.
  - apply IH. now apply evaluate_balanced.
Qed.

Lemma evaluate_all_balanced_witness :
  balanced (self (evaluate_all plain_runtime
                    [(2%positive, output "X" (<["confidence" := PyFloat 0.5]> ∅));
                     (3%positive, output "oops" ∅);
                     (1%positive, output "A" ∅);
                     (3%positive, output "a" ∅)]
                    demo_world)).
Proof.
  apply (evaluate_all_balanced plain_runtime). exact balanced_new.
Defined.

(** ** More on [MetricsCalculator.compute] *)

Section ComputeMore.

Import MetricsCalculator.

Lemma count_partition {A : Type} (f g : A -> bool) (xs : list A) :
  count_if (fun x => f x && g x) xs + count_if (fun x => f x && negb (g x)) xs
  + count_if (fun x => negb (f x) && g x) xs
  + count_if (fun x => negb (f x) && negb (g x)) xs
  = length xs.
Proof.
  unfold count_if. induction xs as [|x xs IH]; [reflexivity|].
  cbn [List.filter]. destruct (f x), (g x); cbn [andb negb length]; lia.
Qed.

End ComputeMore.

(** X9: the four counts of the confusion matrix partition the pairs.
    Whatever class is taken as positive, TP + FP + FN + TN is the number
    of prediction and label pairs that [zip] yields, the smaller of the
    two lengths. *)
Theorem confusion_counts_partition (calc : MetricsCalculator.t) (c : string) :
  MetricsCalculator.true_positives calc c + MetricsCalculator.false_positives calc c
  + MetricsCalculator.false_negatives calc c + MetricsCalculator.true_negatives calc c
  = Nat.min (length (MetricsCalculator.predictions calc))
            (length (MetricsCalculator.labels calc)).
Proof.
  unfold MetricsCalculator.true_positives, MetricsCalculator.false_positives,
    MetricsCalculator.false_negatives, MetricsCalculator.true_negatives.
  rewrite (count_partition (fun pl => String.eqb (fst pl) c)
             (fun pl => String.eqb (snd pl) c)).
  unfold MetricsCalculator.pairs. apply length_combine.
Qed.

Section PerplexityMore.

Import MetricsCalculator.

Variable rt : Runtime.

(** [compute] on a calculator that holds a pair, up to the perplexity. *)
Lemma compute_unfold (calc : t) :
  predictions calc <> [] -> labels calc <> [] ->
  let c := positive_class calc in
  let tp := true_positives calc c in
  let precision := ratio tp (tp + false_positives calc c) in
  let recall := ratio tp (tp + false_negatives calc c) in
  compute rt calc =
    let? ppl := perplexity rt calc (accuracy_value calc) in
    Ok (<["perplexity" := ppl]> (<["f1" := f1_score precision recall]>
       (<["recall" := recall]> (<["precision" := precision]>
       (<["accuracy" := accuracy_value calc]> ∅))))).
Proof.
  intros Hp Hl c tp precision recall. unfold compute, accuracy_value.
  destruct (predictions calc) as [|p ps] eqn:Ep; [congruence|].
  destruct (labels calc) as [|l ls] eqn:El; [congruence|].
  cbn [length Float.int_truediv obind].
  fold c. fold tp. rewrite !guarded_ratio. cbn [obind].
  fold precision. fold recall.
  assert ((if (0 <? precision + recall)%float
           then Float.truediv (2 * precision * recall)%float (precision + recall)%float
           else Ok 0%float) = Ok (f1_score precision recall)) as ->.
  { unfold f1_score, Float.truediv.
    destruct (0 <? precision + recall)%float eqn:E; [|reflexivity].
    now rewrite (positive_float_nonzero _ E). }
  reflexivity.
Qed.

(** Without as many probabilities as predictions, the perplexity is the
    estimate from the accuracy. *)
Lemma perplexity_without_probabilities (calc : t) (accuracy : float) :
  length (probabilities calc) <> length (predictions calc) ->
  perplexity rt calc accuracy
  = if (0 <? accuracy)%float
    then let? l := Float.math_log rt (Float.max accuracy 0.01%float) in
         Ok (Float.math_exp rt (- l)%float)
    else Ok Float.inf.
Proof.
  intros H. unfold perplexity.
  apply Nat.eqb_neq in H. rewrite H. now rewrite andb_false_r.
Qed.

(** A quotient with numerator zero is never above zero. *)
Lemma zero_quotient_not_positive (y : float) :
  (0 <? Float.of_nat 0 / y)%float = false.
Proof.
  rewrite ltb_spec, div_spec.
  change (Prim2SF (Float.of_nat 0)) with (S754_zero false).
  change (Prim2SF 0) with (S754_zero false).
  destruct (Prim2SF y) as [s|s| |s m e]; reflexivity.
Qed.

Lemma count_if_none {A : Type} (f : A -> bool) (xs : list A) :
  Forall (fun x => f x = false) xs -> count_if f xs = 0.
Proof.
  unfold count_if. induction 1 as [|x xs Hx _ IH]; [reflexivity|].
  cbn [List.filter]. now rewrite Hx.
Qed.

End PerplexityMore.

(** X10: one prediction added without a probability switches the
    perplexity to the estimate from the accuracy.  When the calculator
    does not hold exactly as many probabilities as predictions, [compute]
    returns what it returns on the same calculator with no probability at
    all: the stored probabilities are ignored. *)
Theorem compute_ignores_partial_probabilities (rt : Runtime) (calc : MetricsCalculator.t) :
  length (MetricsCalculator.probabilities calc)
  <> length (MetricsCalculator.predictions calc) ->
  MetricsCalculator.compute rt calc
  = MetricsCalculator.compute rt (without_probabilities calc).
Proof.
  intros H.
  destruct (MetricsCalculator.predictions calc) as [|p ps] eqn:Ep.
  { unfold MetricsCalculator.compute. cbn. now rewrite Ep. }
  destruct (MetricsCalculator.labels calc) as [|l ls] eqn:El.
  { unfold MetricsCalculator.compute. cbn. now rewrite Ep, El. }
  rewrite (compute_unfold rt calc) by congruence.
  rewrite (compute_unfold rt (without_probabilities calc))
    by (cbn [without_probabilities MetricsCalculator.predictions
             MetricsCalculator.labels]; congruence).
  rewrite (perplexity_without_probabilities rt calc) by congruence.
  rewrite (perplexity_without_probabilities rt (without_probabilities calc))
    by (cbn [without_probabilities MetricsCalculator.predictions
             MetricsCalculator.probabilities length]; rewrite Ep; discriminate).
  reflexivity.
Qed.

Lemma compute_ignores_partial_probabilities_witness :
  MetricsCalculator.compute plain_runtime
    (MetricsCalculator.add (MetricsCalculator.add MetricsCalculator.new "X" "X"
                              (Some 0.5%float)) "A" "X" None)
  = MetricsCalculator.compute plain_runtime
      (MetricsCalculator.add (MetricsCalculator.add MetricsCalculator.new "X" "X" None)
         "A" "X" None).
Proof.
  apply (compute_ignores_partial_probabilities plain_runtime
           (MetricsCalculator.add (MetricsCalculator.add MetricsCalculator.new "X" "X"
                                     (Some 0.5%float)) "A" "X" None)).
  cbn. discriminate.
Defined.

(** X11: when no stored prediction equals its label and the calculator
    does not hold one probability per prediction, the perplexity that
    [compute] returns is infinite. *)
Theorem compute_all_wrong_perplexity (rt : Runtime) (calc : MetricsCalculator.t) :
  MetricsCalculator.predictions calc <> [] ->
  MetricsCalculator.labels calc <> [] ->
  Forall (fun pl => fst pl <> snd pl) (MetricsCalculator.pairs calc) ->
  length (MetricsCalculator.probabilities calc)
  <> length (MetricsCalculator.predictions calc) ->
  exists m,
    MetricsCalculator.compute rt calc = Ok m
    /\ m !! "perplexity" = Some infinity.
Proof.
  intros Hp Hl Hw Hn.
  rewrite (compute_unfold rt calc Hp Hl).
  rewrite (perplexity_without_probabilities rt calc _ Hn).
  unfold accuracy_value at 1.
  rewrite (count_if_none (fun pl => String.eqb (fst pl) (snd pl))).
  - rewrite zero_quotient_not_positive. cbn [obind].
    eexists. split; [reflexivity|]. apply lookup_insert_eq.
  - eapply Forall_impl; [exact Hw|]. intros pl. apply String.eqb_neq.
Qed.

Lemma compute_all_wrong_perplexity_witness :
  exists m,
    MetricsCalculator.compute plain_runtime
      (MetricsCalculator.add (MetricsCalculator.add MetricsCalculator.new "X" "A" None)
         "A" "X" None) = Ok m
    /\ m !! "perplexity" = Some infinity.
Proof.
  apply (compute_all_wrong_perplexity plain_runtime
           (MetricsCalculator.add (MetricsCalculator.add MetricsCalculator.new "X" "A" None)
              "A" "X" None)).
  - discriminate.
  - discriminate.
  - repeat constructor; discriminate.
  - cbn. discriminate.
Defined.

Section PositiveClassMore.

Import MetricsCalculator.

Lemma compare_same (a : string) : String.compare a a = Eq.
Proof.
  pose proof (String.compare_antisym a a) as H.
  destruct (String.compare a a); [reflexivity | discriminate H | discriminate H].
Qed.

Lemma sorted_set_single (c : string) (xs : list string) :
  Forall (fun x => x = c) xs -> sorted_set xs = [] \/ sorted_set xs = [c].
Proof.
  induction 1 as [|x xs -> _ IH]; [now left|]. right.
  unfold sorted_set in *. cbn [fold_right].
  destruct IH as [-> | ->]; cbn [insert_class]; [reflexivity|].
  now rewrite compare_same.
Qed.

(** With labels drawn from two classes [a < b], the sorted set is one of
    four lists, according to the classes that occur. *)
Lemma sorted_set_pair (a b : string) (xs : list string) :
  String.compare a b = Lt ->
  Forall (fun x => x = a \/ x = b) xs ->
  sorted_set xs = [] \/ sorted_set xs = [a] \/ sorted_set xs = [b]
  \/ sorted_set xs = [a; b].
Proof.
  intros Hab.
  assert (String.compare b a = Gt) as Hba
    by (rewrite String.compare_antisym, Hab; reflexivity).
  induction 1 as [|x xs Hx _ IH]; [now left|]. right.
  unfold sorted_set in *. cbn [fold_right].
  destruct Hx as [-> | ->];
    destruct IH as [-> | [-> | [-> | ->]]];
    repeat (progress (cbn [insert_class]; rewrite ?compare_same, ?Hab, ?Hba));
    auto 6.
Qed.

End PositiveClassMore.

(** X12: precision and recall are those of the only class that occurs.
    When every stored label is the same class, that class is the positive
    one, X or not: with only A among the labels the counts are taken for
    A. *)
Theorem positive_class_single (calc : MetricsCalculator.t) (c : string) :
  MetricsCalculator.labels calc <> [] ->
  Forall (fun x => x = c) (MetricsCalculator.labels calc) ->
  MetricsCalculator.positive_class calc = c.
Proof.
  intros Hne Hall. unfold MetricsCalculator.positive_class.
  destruct (sorted_set_single c _ Hall) as [E | ->]; [|reflexivity].
  destruct (MetricsCalculator.labels calc) as [|x xs] eqn:El; [congruence|].
  assert (In x (MetricsCalculator.sorted_set (x :: xs))) as Hin
    by (apply in_sorted_set; now left).
  rewrite E in Hin. destruct Hin.
Qed.

Lemma positive_class_single_witness :
  MetricsCalculator.positive_class
    (MetricsCalculator.add (MetricsCalculator.add MetricsCalculator.new "X" "A" None)
       "A" "A" None) = "A".
Proof.
  apply positive_class_single; [discriminate | repeat constructor].
Defined.

(** X13: with exactly two classes among the labels and X not one of
    them, the positive class is the one that sorts last, not the first
    one. *)
Theorem positive_class_two_classes (calc : MetricsCalculator.t) (a b : string) :
  String.compare a b = Lt ->
  a <> "X" -> b <> "X" ->
  In a (MetricsCalculator.labels calc) ->
  In b (MetricsCalculator.labels calc) ->
  Forall (fun x => x = a \/ x = b) (MetricsCalculator.labels calc) ->
  MetricsCalculator.positive_class calc = b.
Proof.
  intros Hab Ha Hb Hina Hinb Hall.
  assert (a <> b) as Hne
    by (intros ->; rewrite compare_same in Hab; discriminate).
  apply in_sorted_set in Hina, Hinb.
  unfold MetricsCalculator.positive_class.
  destruct (sorted_set_pair a b _ Hab Hall) as [E | [E | [E | E]]];
    rewrite E in Hina, Hinb |- *; cbn [In] in Hina, Hinb.
  - destruct Hina.
  - destruct Hinb as [? | []]. congruence.
  - destruct Hina as [? | []]. congruence.
  - unfold MetricsCalculator.positive_class_of, MetricsCalculator.mem.
    cbn [existsb].
    apply not_eq_sym, String.eqb_neq in Ha, Hb. now rewrite Ha, Hb.
Qed.

Lemma positive_class_two_classes_witness :
  MetricsCalculator.positive_class
    (MetricsCalculator.add (MetricsCalculator.add MetricsCalculator.new "A" "B" None)
       "A" "A" None) = "B".
Proof.
  apply (positive_class_two_classes _ "A" "B").
  - reflexivity.
  - discriminate.
  - discriminate.
  - right. left. reflexivity.
  - left. reflexivity.
  - constructor; [right; reflexivity|].
    constructor; [left; reflexivity|]. constructor.
Defined.

(** ** More on [PatentSample] *)

Lemma new_PatentSample_result (rt : Runtime) (q ctx : string) (gt : option string)
    (md : loc) (claim paragraph : PyVal) (w : world) :
  new_PatentSample rt q ctx gt md claim paragraph w
  = (Ok (fresh (dom (store w))),
     {| store := <[fresh (dom (store w)) :=
                     OPatentSample (constructed rt q ctx gt md claim paragraph)]> (store w);
        self := self w |}).
Proof.
  unfold new_PatentSample, bind, alloc, post_init, constructed. cbn [store self].
  rewrite lookup_insert_eq. cbn [PatentSample.base Sample.question].
  destruct q as [|a q]; cbn [Str.is_empty write ret store self].
  - now rewrite insert_insert_eq.
  - reflexivity.
Qed.

(** X14: a constructed [PatentSample] never has an empty question,
    whatever was passed as question, claim and paragraph, and running
    [__post_init__] on it again changes nothing. *)
Theorem post_init_idempotent (rt : Runtime) (q ctx : string) (gt : option string)
    (md : loc) (claim paragraph : PyVal) (w : world) :
  exists l w1 ps,
    new_PatentSample rt q ctx gt md claim paragraph w = (Ok l, w1)
    /\ store w1 !! l = Some (OPatentSample ps)
    /\ Sample.question (PatentSample.base ps) <> ""
    /\ post_init rt l w1 = (Ok tt, w1).
Proof.
  rewrite new_PatentSample_result.
  assert (Str.is_empty
            (Sample.question
               (PatentSample.base (constructed rt q ctx gt md claim paragraph)))
          = false) as Hq
    by (unfold constructed; destruct q; reflexivity).
  eexists _, _, _. split; [reflexivity|]. cbn [store].
  split; [apply lookup_insert_eq|]. split.
  - intros E. rewrite E in Hq. discriminate.
  - unfold post_init. cbn [store]. rewrite lookup_insert_eq. now rewrite Hq.
Qed.

(** ** [compute_aggregate] and [get_aggregate_metrics] *)

Section AggregateFacts.

Import MetricsCalculator.

Variable nm : Numerics.

Lemma length_append (a b : string) :
  String.length (a +:+ b) = String.length a + String.length b.
Proof. induction a as [|c a IH]; simpl; [reflexivity | now rewrite IH]. Qed.

Lemma append_cancel_r (a b s : string) : a +:+ s = b +:+ s -> a = b.
Proof.
  revert b. induction a as [|c a IH]; intros [|d b] H.
  - reflexivity.
  - apply (f_equal String.length) in H. rewrite !length_append in H.
    simpl in H. lia.
  - apply (f_equal String.length) in H. rewrite !length_append in H.
    simpl in H. lia.
  - simpl in H. injection H as -> H. f_equal. now apply IH.
Qed.

Lemma last_char_append (a s : string) :
  s <> "" -> last_char (a +:+ s) = last_char s.
Proof.
  intros Hs. induction a as [|c a IH]; [reflexivity|].
  simpl. rewrite IH.
  destruct (a +:+ s) eqn:E; [|reflexivity].
  apply (f_equal String.length) in E. rewrite length_append in E.
  destruct s; [congruence | simpl in E; lia].
Qed.

Lemma mean_name_inj (k k' : string) : mean_name k = mean_name k' -> k = k'.
Proof. apply append_cancel_r. Qed.

Lemma std_name_inj (k k' : string) : std_name k = std_name k' -> k = k'.
Proof. apply append_cancel_r. Qed.

Lemma mean_name_not_std (k k' : string) : mean_name k <> std_name k'.
Proof.
  intros H. apply (f_equal last_char) in H. unfold mean_name, std_name in H.
  rewrite !last_char_append in H by discriminate. discriminate.
Qed.

(** What the loop adds to the dictionary, name by name. *)
Lemma aggregate_keys_dom (steps : list (gmap string float)) (keys : list string) :
  forall acc m,
    aggregate_keys nm steps keys acc = Ok m ->
    forall name,
      name ∈ dom m
      <-> name ∈ dom acc
          \/ exists k, In k keys /\ (name = mean_name k \/ name = std_name k).
Proof.
  induction keys as [|k keys IH]; intros acc m H name; cbn [aggregate_keys] in H.
  - injection H as <-. cbn [In]. firstorder.
  - destruct (aggregate_key nm steps k) as [ms|e]; [|discriminate]. cbn [obind] in H.
    rewrite (IH _ _ H name), !dom_insert, !elem_of_union, !elem_of_singleton.
    fold (mean_name k). fold (std_name k). cbn [In].
    split.
    + intros [[->|[->|Hacc]]|(k' & Hin & Hk')]; eauto 7.
    + intros [Hacc|(k' & [<-|Hin] & [->| ->])]; eauto 7.
Qed.

(** Names that no later key produces keep their value. *)
Lemma aggregate_keys_keeps (steps : list (gmap string float)) (keys : list string) :
  forall acc m name,
    aggregate_keys nm steps keys acc = Ok m ->
    (forall k, In k keys -> name <> mean_name k /\ name <> std_name k) ->
    m !! name = acc !! name.
Proof.
  induction keys as [|k keys IH]; intros acc m name H Hfree; cbn [aggregate_keys] in H.
  - now injection H as <-.
  - destruct (aggregate_key nm steps k) as [ms|e]; [|discriminate]. cbn [obind] in H.
    rewrite (IH _ _ name H) by (intros k' Hk'; apply Hfree; now right).
    destruct (Hfree k (or_introl eq_refl)) as [Hm Hs].
    fold (mean_name k). fold (std_name k).
    now rewrite !lookup_insert_ne by congruence.
Qed.

(** Each key of the loop ends with the mean and the deviation that were
    computed for it: no other key overwrites them. *)
Lemma aggregate_keys_lookup (steps : list (gmap string float)) (keys : list string) :
  List.NoDup keys ->
  forall acc m k,
    aggregate_keys nm steps keys acc = Ok m ->
    In k keys ->
    exists mean std,
      aggregate_key nm steps k = Ok (mean, std)
      /\ m !! mean_name k = Some mean
      /\ m !! std_name k = Some std.
Proof.
  induction 1 as [|k0 keys Hnotin Hnd IH]; intros acc m k H Hin; [destruct Hin|].
  cbn [aggregate_keys] in H.
  destruct (aggregate_key nm steps k0) as [[mean std]|e] eqn:Ek; [|discriminate].
  cbn [obind fst snd] in H. destruct Hin as [<-|Hin].
  - exists mean, std. split; [exact Ek|].
    assert (forall k, In k keys -> k0 <> k) as Hne by (intros k Hk ->; contradiction).
    fold (mean_name k0) in H. fold (std_name k0) in H.
    split.
    + rewrite (aggregate_keys_keeps _ _ _ _ (mean_name k0) H).
      * rewrite lookup_insert_ne by (apply not_eq_sym, mean_name_not_std).
        apply lookup_insert_eq.
      * intros k Hk. split; [intros E; apply mean_name_inj in E; now apply (Hne k)|].
        apply mean_name_not_std.
    + rewrite (aggregate_keys_keeps _ _ _ _ (std_name k0) H).
      * apply lookup_insert_eq.
      * intros k Hk. split; [apply not_eq_sym, mean_name_not_std|].
        intros E; apply std_name_inj in E; now apply (Hne k).
  - exact (IH _ _ _ H Hin).
Qed.

Lemma keys_of_first (first : gmap string float) (k : string) :
  In k (map fst (map_to_list first)) <-> k ∈ dom first.
Proof.
  rewrite elem_of_dom. split.
  - intros H. apply in_map_iff in H as ([k' v] & <- & Hin).
    apply list_elem_of_In, elem_of_map_to_list in Hin. now exists v.
  - intros [v Hv]. apply in_map_iff. exists (k, v). split; [reflexivity|].
    now apply list_elem_of_In, elem_of_map_to_list.
Qed.

Lemma keys_of_first_NoDup (first : gmap string float) :
  List.NoDup (map fst (map_to_list first)).
Proof.
  assert (forall l : list (string * float), map fst l = l.*1) as ->
    by (induction l as [|x l IH]; [reflexivity | cbn; now rewrite IH]).
  apply NoDup_ListNoDup, NoDup_fst_map_to_list.
Qed.

Lemma finite_values_nil (steps : list (gmap string float)) (k : string) :
  Forall (fun r : gmap string float =>
            forall v, r !! k = Some v -> Math.isinf v = true) steps ->
  finite_values steps k = [].
Proof.
  unfold finite_values. induction 1 as [|r steps Hr _ IH]; [reflexivity|].
  cbn [omap list_omap]. destruct (r !! k) as [v|] eqn:E; [|exact IH].
  now rewrite (Hr v eq_refl).
Qed.

End AggregateFacts.

(** The names of the dictionary that [compute_aggregate] returns. *)
Lemma compute_aggregate_dom (nm : Numerics) (first : gmap string float)
    (rest : list (gmap string float)) (m : gmap string float) :
  MetricsCalculator.compute_aggregate nm (first :: rest) = Ok m ->
  forall name,
    name ∈ dom m
    <-> exists k, k ∈ dom first /\ (name = mean_name k \/ name = std_name k).
Proof.
  unfold MetricsCalculator.compute_aggregate. intros H name.
  rewrite (aggregate_keys_dom nm _ _ _ _ H name), dom_empty.
  split.
  - intros [Hin|(k & Hk & Hn)]; [now apply not_elem_of_empty in Hin|].
    exists k. split; [now apply keys_of_first | exact Hn].
  - intros (k & Hk & Hn). right. exists k. split; [now apply keys_of_first | exact Hn].
Qed.

(** X15: the names and values of an aggregate.  When [compute_aggregate]
    returns on a non-empty list of steps, its dictionary has, for each
    key of the first step and for no other name, the key followed by
    _mean and the key followed by _std; keys that only later steps have
    are ignored.  Each pair of entries is the mean and the deviation
    computed from the values of that key alone: no key overwrites the
    entries of another. *)
Theorem compute_aggregate_names (nm : Numerics) (first : gmap string float)
    (rest : list (gmap string float)) (m : gmap string float) :
  MetricsCalculator.compute_aggregate nm (first :: rest) = Ok m ->
  (forall name,
     name ∈ dom m
     <-> exists k, k ∈ dom first /\ (name = mean_name k \/ name = std_name k))
  /\ (forall k, k ∈ dom first ->
        exists mean std,
          MetricsCalculator.aggregate_key nm (first :: rest) k = Ok (mean, std)
          /\ m !! mean_name k = Some mean
          /\ m !! std_name k = Some std).
Proof.
  intros H. split; [exact (compute_aggregate_dom nm first rest m H)|].
  unfold MetricsCalculator.compute_aggregate in H.
  intros k Hk. apply (aggregate_keys_lookup nm _ _ (keys_of_first_NoDup first) _ _ _ H).
    now apply keys_of_first.
Qed.

Lemma compute_aggregate_names_witness :
  exists m,
    MetricsCalculator.compute_aggregate plain_numerics
      [<["accuracy" := 1%float]> ∅; <["recall" := 0.5%float]> (<["accuracy" := 0%float]> ∅)]
    = Ok m
    /\ m !! "accuracy_mean" = Some 0.5%float
    /\ m !! "accuracy_std" = Some 0.5%float
    /\ "recall_mean" ∉ dom m.
Proof.
  assert (exists m,
            MetricsCalculator.compute_aggregate plain_numerics
              [<["accuracy" := 1%float]> ∅;
               <["recall" := 0.5%float]> (<["accuracy" := 0%float]> ∅)] = Ok m)
    as [m E] by (eexists; vm_compute; reflexivity).
  exists m. split; [exact E|].
  destruct (compute_aggregate_names plain_numerics _ _ _ E) as [Hdom Hval].
  destruct (Hval "accuracy") as (mean & std & Hk & Hm & Hs).
  { apply elem_of_dom. exists 1%float. apply lookup_insert_eq. }
  vm_compute in Hk. injection Hk as <- <-.
  split; [exact Hm|]. split; [exact Hs|].
  intros Hin. apply Hdom in Hin as (k & Hk & Hn).
  apply elem_of_dom in Hk as [v Hv].
  destruct (decide (k = "accuracy")) as [->|Hne].
  - destruct Hn as [Hn|Hn]; vm_compute in Hn; discriminate.
  - rewrite lookup_insert_ne, lookup_empty in Hv by congruence. discriminate.
Defined.

(** X16: infinite values are left out of an aggregate, and a metric with
    nothing left aggregates to zero.  When a key of the first step is
    absent or infinite in every step (a perplexity that was infinite
    throughout), its mean and its deviation in the returned dictionary
    are both 0.0, not infinite. *)
Theorem compute_aggregate_all_infinite (nm : Numerics) (first : gmap string float)
    (rest : list (gmap string float)) (m : gmap string float) (k : string) :
  MetricsCalculator.compute_aggregate nm (first :: rest) = Ok m ->
  k ∈ dom first ->
  Forall (fun r : gmap string float =>
            forall v, r !! k = Some v -> Math.isinf v = true) (first :: rest) ->
  m !! mean_name k = Some 0%float /\ m !! std_name k = Some 0%float.
Proof.
  unfold MetricsCalculator.compute_aggregate. intros H Hk Hinf.
  destruct (aggregate_keys_lookup nm _ _ (keys_of_first_NoDup first) _ _ k H)
    as (mean & std & Ek & Hm & Hs); [now apply keys_of_first|].
  unfold MetricsCalculator.aggregate_key in Ek.
  rewrite (finite_values_nil _ _ Hinf) in Ek. injection Ek as <- <-. auto.
Qed.

Lemma compute_aggregate_all_infinite_witness :
  exists m,
    MetricsCalculator.compute_aggregate plain_numerics
      [<["perplexity" := infinity]> (<["accuracy" := 0%float]> ∅);
       <["perplexity" := infinity]> (<["accuracy" := 0%float]> ∅)] = Ok m
    /\ m !! "perplexity_mean" = Some 0%float
    /\ m !! "perplexity_std" = Some 0%float.
Proof.
  assert (exists m,
            MetricsCalculator.compute_aggregate plain_numerics
              [<["perplexity" := infinity]> (<["accuracy" := 0%float]> ∅);
               <["perplexity" := infinity]> (<["accuracy" := 0%float]> ∅)] = Ok m)
    as [m E] by (eexists; vm_compute; reflexivity).
  exists m. split; [exact E|].
  apply (compute_aggregate_all_infinite plain_numerics _ _ m "perplexity" E).
  - apply elem_of_dom. exists infinity. apply lookup_insert_eq.
  - repeat constructor; intros v Hv; rewrite lookup_insert_eq in Hv;
      injection Hv as <-; reflexivity.
Defined.

(** Choice of the disjunct that holds by computation. *)
Ltac pick_disjunct :=
  solve [reflexivity | left; pick_disjunct | right; pick_disjunct].

(** X17: the aggregate of an environment.  [get_aggregate_metrics] never
    changes the environment or the store, and returns the empty
    dictionary while no step has been recorded.  On an environment that
    only [evaluate] and [reset_metrics] have touched and that holds at
    least one recorded step it returns, when it returns, a dictionary
    with exactly the ten names accuracy_mean, accuracy_std, ...,
    perplexity_mean, perplexity_std. *)
Theorem get_aggregate_metrics_names (nm : Numerics) (w : world) :
  snd (PatentMatchEnvironment.get_aggregate_metrics nm w) = w
  /\ (Env.step_metrics (self w) = [] ->
      fst (PatentMatchEnvironment.get_aggregate_metrics nm w) = Ok ∅)
  /\ (balanced (self w) ->
      forall m, Env.step_metrics (self w) <> [] ->
                fst (PatentMatchEnvironment.get_aggregate_metrics nm w) = Ok m ->
                dom m = aggregate_names).
Proof.
  unfold PatentMatchEnvironment.get_aggregate_metrics, bind, get_self, lift.
  cbn [fst snd]. split; [reflexivity|]. split.
  - intros ->. reflexivity.
  - intros (_ & _ & _ & Hall) m Hne Hm.
    destruct (Env.step_metrics (self w)) as [|first rest] eqn:E; [congruence|].
    apply Forall_cons in Hall as [Hfirst _].
    apply set_eq. intros name.
    rewrite (compute_aggregate_dom nm first rest m Hm name).
    rewrite Hfirst. unfold metric_names, aggregate_names.
    repeat setoid_rewrite elem_of_union. repeat setoid_rewrite elem_of_singleton.
    split.
    + intros (k & Hk & Hn).
      repeat (destruct Hk as [Hk|Hk]); subst k; destruct Hn as [-> | ->];
        pick_disjunct.
    + intros Hin.
      repeat (destruct Hin as [Hin|Hin]); subst name;
        [ exists "accuracy" | exists "accuracy" | exists "precision" | exists "precision"
        | exists "recall" | exists "recall" | exists "f1" | exists "f1"
        | exists "perplexity" | exists "perplexity" ];
        (split; pick_disjunct).
Qed.

(** After a correct and an incorrect answer the aggregate has the ten
    names; on the new environment it is empty. *)
Lemma get_aggregate_metrics_names_witness :
  fst (PatentMatchEnvironment.get_aggregate_metrics plain_numerics demo_world) = Ok ∅
  /\ exists m,
       length (Env.step_metrics
                 (self (evaluate_all plain_runtime
                          [(2%positive, output "X" ∅); (3%positive, output "x " ∅)]
                          demo_world))) = 2%nat
       /\ fst (PatentMatchEnvironment.get_aggregate_metrics plain_numerics
                 (evaluate_all plain_runtime
                    [(2%positive, output "X" ∅); (3%positive, output "x " ∅)]
                    demo_world)) = Ok m
       /\ dom m = aggregate_names
       /\ m !! "accuracy_mean" = Some 0.75%float.
Proof.
  split.
  - apply (get_aggregate_metrics_names plain_numerics demo_world). reflexivity.
  - assert (exists m,
              length (Env.step_metrics
                        (self (evaluate_all plain_runtime
                                 [(2%positive, output "X" ∅); (3%positive, output "x " ∅)]
                                 demo_world))) = 2%nat
              /\ fst (PatentMatchEnvironment.get_aggregate_metrics plain_numerics
                        (evaluate_all plain_runtime
                           [(2%positive, output "X" ∅); (3%positive, output "x " ∅)]
                           demo_world)) = Ok m
              /\ m !! "accuracy_mean" = Some 0.75%float) as (m & L & E & Hm)
      by (eexists; split; [|split]; vm_compute; reflexivity).
    exists m. split; [exact L|]. split; [exact E|]. split; [|exact Hm].
    apply (get_aggregate_metrics_names plain_numerics
             (evaluate_all plain_runtime
                [(2%positive, output "X" ∅); (3%positive, output "x " ∅)]
                demo_world)).
    + cbn [evaluate_all]. apply evaluate_balanced, evaluate_balanced, balanced_new.
    + intros H. rewrite H in L. discriminate L.
    + exact E.
Defined.

(** X18: [compute] returns on every calculator, without any error, a
    dictionary with exactly the names accuracy, precision, recall, f1 and
    perplexity; this includes calculators with no pair and with lists of
    different lengths.  With no prediction or no label the four scores
    are 0.0 and the perplexity is infinite. *)
Theorem compute_total (rt : Runtime) (calc : MetricsCalculator.t) :
  (exists m, MetricsCalculator.compute rt calc = Ok m /\ dom m = metric_names)
  /\ (MetricsCalculator.predictions calc = [] \/ MetricsCalculator.labels calc = [] ->
      exists m,
        MetricsCalculator.compute rt calc = Ok m
        /\ m !! "accuracy" = Some 0%float /\ m !! "precision" = Some 0%float
        /\ m !! "recall" = Some 0%float /\ m !! "f1" = Some 0%float
        /\ m !! "perplexity" = Some infinity).
Proof.
  split; [apply compute_returns|].
  intros H. unfold MetricsCalculator.compute.
  destruct (MetricsCalculator.predictions calc) as [|p ps];
    [|destruct (MetricsCalculator.labels calc) as [|l ls];
      [|destruct H; discriminate]];
    (eexists; split; [reflexivity|]; repeat split).
Qed.

Lemma compute_total_witness :
  exists m,
    MetricsCalculator.compute plain_runtime
      (MetricsCalculator.reset
         (MetricsCalculator.add MetricsCalculator.new "X" "X" (Some 1%float))) = Ok m
    /\ m !! "accuracy" = Some 0%float /\ m !! "precision" = Some 0%float
    /\ m !! "recall" = Some 0%float /\ m !! "f1" = Some 0%float
    /\ m !! "perplexity" = Some infinity.
Proof.
  apply (proj2 (compute_total plain_runtime _)). left. reflexivity.
Defined.

(** X19: the result of an invalid answer.  When the normalized answer is
    neither X nor A and the confidence is absent or convertible, the
    returned [EnvironmentResult] quotes the normalized answer (not the
    raw one) in its feedback, carries the normalized ground truth of the
    sample, and its metrics are exactly accuracy 0.0 and error 1.0. *)
Theorem evaluate_invalid_result (rt : Runtime) (l : loc) (g : GeneratorOutput.t)
    (w : world) (gt : option string) (p : option float) :
  is_sample w l gt ->
  normalized_answer g <> "X" ->
  normalized_answer g <> "A" ->
  extract_probability rt (GeneratorOutput.raw g) = Ok p ->
  fst (PatentMatchEnvironment.evaluate rt l g w)
  = Ok (BaseResult
          {| EnvironmentResult.feedback :=
               "Invalid classification '" +:+ normalized_answer g
               +:+ "'. Must be 'X' (match) or 'A' (no match).";
             EnvironmentResult.ground_truth := normalized_truth gt;
             EnvironmentResult.metrics :=
               <["error" := 1%float]> (<["accuracy" := 0%float]> ∅) |}).
Proof.
  intros Hs HX HA Hp.
  destruct (evaluate_outcome rt l g w) as (st' & _ & [[_ Hno]|(gt' & Hs' & ->)]);
    [destruct (Hno gt Hs)|].
  rewrite (is_sample_functional w l gt' gt Hs' Hs).
  unfold judged. now rewrite Hp, (valid_label_false _ HX HA).
Qed.

Lemma evaluate_invalid_result_witness :
  fst (PatentMatchEnvironment.evaluate plain_runtime 3%positive (output " b " ∅)
         demo_world)
  = Ok (BaseResult
          {| EnvironmentResult.feedback :=
               "Invalid classification 'B'. Must be 'X' (match) or 'A' (no match).";
             EnvironmentResult.ground_truth := "A";
             EnvironmentResult.metrics :=
               <["error" := 1%float]> (<["accuracy" := 0%float]> ∅) |}).
Proof.
  apply (evaluate_invalid_result plain_runtime 3%positive (output " b " ∅) demo_world
           (Some "A") None).
  - right. eexists _, _. split; [reflexivity|]. split; reflexivity.
  - vm_compute. discriminate.
  - vm_compute. discriminate.
  - reflexivity.
Defined.

(** The scores [compute] gives on a calculator that holds one pair. *)
Lemma compute_single_pair (rt : Runtime) (pred label : string) (p : option float) :
  exists ppl,
    MetricsCalculator.compute rt (MetricsCalculator.add MetricsCalculator.new pred label p)
    = let s := if String.eqb pred label then 1%float else 0%float in
      Ok (<["perplexity" := ppl]> (<["f1" := s]> (<["recall" := s]>
         (<["precision" := s]> (<["accuracy" := s]> ∅))))).
Proof.
  set (calc := MetricsCalculator.add MetricsCalculator.new pred label p).
  destruct (perplexity_returns rt calc (accuracy_value calc)) as [ppl Hppl].
  exists ppl. rewrite (compute_unfold rt calc) by discriminate. rewrite Hppl.
  cbn [obind]. unfold accuracy_value, MetricsCalculator.positive_class,
    MetricsCalculator.true_positives, MetricsCalculator.false_positives,
    MetricsCalculator.false_negatives, MetricsCalculator.pairs,
    MetricsCalculator.count_if.
  cbn [calc MetricsCalculator.add MetricsCalculator.new MetricsCalculator.predictions
       MetricsCalculator.labels app combine MetricsCalculator.sorted_set fold_right
       MetricsCalculator.insert_class MetricsCalculator.positive_class_of
       List.filter fst snd length].
  rewrite (String.eqb_refl label).
  destruct (String.eqb pred label); reflexivity.
Qed.

(** X20: the first valid call on a new environment scores 1.0 or 0.0.
    When the normalized answer equals the normalized ground truth, the
    accuracy, precision, recall and f1 of the returned metrics are all
    1.0; when it differs they are all 0.0. *)
Theorem evaluate_first_call (rt : Runtime) (l : loc) (g : GeneratorOutput.t)
    (w : world) (gt : option string) (p : option float) :
  is_sample w l gt ->
  normalized_answer g = "X" \/ normalized_answer g = "A" ->
  extract_probability rt (GeneratorOutput.raw g) = Ok p ->
  self w = PatentMatchEnvironment.new ->
  exists r w',
    PatentMatchEnvironment.evaluate rt l g w = (Ok r, w')
    /\ forall name,
         name = "accuracy" \/ name = "precision" \/ name = "recall" \/ name = "f1" ->
         result_metrics r !! name
         = Some (if String.eqb (normalized_answer g) (normalized_truth gt)
                 then 1%float else 0%float).
Proof.
  intros Hs Hv Hp Hnew. apply valid_label_true in Hv.
  destruct (evaluate_outcome rt l g w) as (st' & _ & [[_ Hno]|(gt' & Hs' & ->)]);
    [destruct (Hno gt Hs)|].
  rewrite (is_sample_functional w l gt' gt Hs' Hs).
  unfold judged. rewrite Hp, Hv, Hnew. fold (normalized_truth gt).
  cbn [PatentMatchEnvironment.new Env.metrics_calculator Env.step_metrics].
  destruct (compute_single_pair rt (normalized_answer g) (normalized_truth gt) p)
    as [ppl ->].
  eexists _, _. split; [reflexivity|].
  cbn [result_metrics result_base PatentEnvironmentResult.base EnvironmentResult.metrics].
  intros name [-> | [-> | [-> | ->]]];
    rewrite ?lookup_insert_ne by discriminate; apply lookup_insert_eq.
Qed.

Lemma evaluate_first_call_witness :
  exists r w',
    PatentMatchEnvironment.evaluate plain_runtime 3%positive (output "X" ∅) demo_world
    = (Ok r, w')
    /\ result_metrics r !! "recall" = Some 0%float.
Proof.
  destruct (evaluate_first_call plain_runtime 3%positive (output "X" ∅) demo_world
              (Some "A") None) as (r & w' & E & H).
  - right. eexists _, _. split; [reflexivity|]. split; reflexivity.
  - left. reflexivity.
  - reflexivity.
  - reflexivity.
  - exists r, w'. split; [exact E|]. apply (H "recall"). auto.
Defined.
